(** * qrscanapp: credential verification core

    A shallow embedding of the verification core of the QR scanner
    application (routes/scanRoutes.js and the EbsiCache model) and the
    properties of its specification.

    Part I holds the model, in the order of the source; Part II holds the
    lemmas and theorems. *)

From Stdlib Require Import ZArith Ascii String List Bool Lia DecimalString.
From stdpp Require Import gmap strings list.

Local Open Scope Z_scope.

(* ===================================================================== *)
(** * Part I: the model                                                    *)
(* ===================================================================== *)

(** ** JavaScript strings

    A string is a sequence of code units. The model covers code units
    below 256, so that [String.length] is the [length] property. The
    functions below are the three String methods the source uses with a
    one-character pattern. *)

(** [s.replace(/c/g, d)] for a single character [c]. *)
Fixpoint replaceAll (c d : ascii) (s : string) : string :=
  match s with
  | EmptyString => EmptyString
  | String a r => String (if Ascii.eqb a c then d else a) (replaceAll c d r)
  end.

(** [s.replace(/c/g, '')]. *)
Fixpoint removeAll (c : ascii) (s : string) : string :=
  match s with
  | EmptyString => EmptyString
  | String a r => if Ascii.eqb a c then removeAll c r else String a (removeAll c r)
  end.

(** [s.includes(c)] for a one-character needle. *)
Fixpoint includes (c : ascii) (s : string) : bool :=
  match s with
  | EmptyString => false
  | String a r => Ascii.eqb a c || includes c r
  end.

(** [c.repeat(n)]. *)
Fixpoint repeat_char (c : ascii) (n : nat) : string :=
  match n with
  | O => EmptyString
  | S k => String c (repeat_char c k)
  end.

(** [s.split(c)]: the pieces between the occurrences of [c]; never empty. *)
Fixpoint split (c : ascii) (s : string) : list string :=
  match s with
  | EmptyString => [EmptyString]
  | String a r =>
      if Ascii.eqb a c then EmptyString :: split c r
      else match split c r with
           | p :: ps => String a p :: ps
           | [] => [String a EmptyString]
           end
  end.

(** ** Thumbprint normalizer (scanRoutes.js, lines 36-158)

    The [try]/[catch] of the three functions guards string methods that do
    not throw on a string, so the fallback branches are not reachable and
    the functions are total. *)

Definition base64ToBase64Url (base64 : string) : string :=
  removeAll "=" (replaceAll "/" "_" (replaceAll "+" "-" base64)).

Definition base64UrlToBase64 (base64url : string) : string :=
  let base64 := replaceAll "_" "/" (replaceAll "-" "+" base64url) in
  let padding := (String.length base64 mod 4)%nat in
  if (padding =? 0)%nat then base64
  else (base64 +:+ repeat_char "=" (4 - padding))%nat.

Record Normalization := {
  normalized : string;
  conversionApplied : string;
  original : string
}.

Definition hasBase64Chars (thumbprint : string) : bool :=
  includes "+" thumbprint || includes "/" thumbprint || includes "=" thumbprint.

Definition hasBase64UrlChars (thumbprint : string) : bool :=
  includes "-" thumbprint || includes "_" thumbprint.

Definition normalizeThumbprintForEbsi (thumbprint : string) : Normalization :=
  if hasBase64Chars thumbprint && negb (hasBase64UrlChars thumbprint) then
    {| normalized := base64ToBase64Url thumbprint;
       conversionApplied := "base64-to-base64url";
       original := thumbprint |}
  else if hasBase64UrlChars thumbprint && negb (hasBase64Chars thumbprint) then
    {| normalized := thumbprint;
       conversionApplied := "already-base64url";
       original := thumbprint |}
  else if negb (hasBase64Chars thumbprint) && negb (hasBase64UrlChars thumbprint) then
    {| normalized := thumbprint;
       conversionApplied := "assumed-base64url";
       original := thumbprint |}
  else
    {| normalized := thumbprint;
       conversionApplied := "mixed-encoding-kept-as-is";
       original := thumbprint |}.

(** The policy in the words of the specification, to be compared with
    [normalizeThumbprintForEbsi]: the markers of the two alphabets, the
    test for a marker, the conversion (strip [=], map [+] to [-] and [/]
    to [_]) and the four branches in their order of priority. *)
Definition standard_markers : list ascii := ["+"%char; "/"%char; "="%char].
Definition url_safe_markers : list ascii := ["-"%char; "_"%char].

Definition spec_contains (markers : list ascii) (t : string) : bool :=
  existsb (fun a => existsb (Ascii.eqb a) markers) (list_ascii_of_string t).

Definition spec_toUrlSafe (t : string) : string :=
  string_of_list_ascii
    (List.map
       (fun a => if Ascii.eqb a "+" then "-"%char
                 else if Ascii.eqb a "/" then "_"%char else a)
       (List.filter (fun a => negb (Ascii.eqb a "=")) (list_ascii_of_string t))).

Inductive Branch := StandardOnly | UrlSafeOnly | NoMarker | Mixed.

Definition spec_policy (t : string) : Branch * string :=
  match spec_contains standard_markers t, spec_contains url_safe_markers t with
  | true, false => (StandardOnly, spec_toUrlSafe t)
  | false, true => (UrlSafeOnly, t)
  | false, false => (NoMarker, t)
  | true, true => (Mixed, t)
  end.

(** The value of [conversionApplied] by which the code reports a branch. *)
Definition branch_label (b : Branch) : string :=
  match b with
  | StandardOnly => "base64-to-base64url"
  | UrlSafeOnly => "already-base64url"
  | NoMarker => "assumed-base64url"
  | Mixed => "mixed-encoding-kept-as-is"
  end.

(** The strings the round trip is stated for: standard base64 (RFC 4648,
    section 4), that is characters of the alphabet [A-Za-z0-9+/] followed
    by at most two [=], a multiple of four characters in all. *)
Definition is_b64_char (a : ascii) : bool :=
  let n := nat_of_ascii a in
  ((65 <=? n) && (n <=? 90) || (97 <=? n) && (n <=? 122)
   || (48 <=? n) && (n <=? 57))%nat
  || Ascii.eqb a "+" || Ascii.eqb a "/".

Fixpoint well_padded (s : string) : bool :=
  match s with
  | EmptyString => true
  | String a r =>
      if is_b64_char a then well_padded r
      else Ascii.eqb a "=" && (String.eqb r "" || String.eqb r "=")
  end.

Definition is_standard_base64 (s : string) : bool :=
  well_padded s && (String.length s mod 4 =? 0)%nat.

(** The thumbprint of the example key identifier in [verifySignature]:
    ["EESSI:x5t#S256:DPNTPbCkYBEYz/ZucBtb8emHYDPXZDnv1Kf2f/iL+0g="]. *)
Definition example_thumbprint : string :=
  "DPNTPbCkYBEYz/ZucBtb8emHYDPXZDnv1Kf2f/iL+0g=".

(** ** JavaScript values

    The values that reach the modelled code are JSON data (registry
    responses, token headers and payloads) and [undefined]. Numbers in
    these positions are integers (status codes, counters, lengths). An
    object is the list of its own properties, in insertion order. *)

#[warnings="-register-all"] Inductive js_value :=
| JUndefined
| JNull
| JBool (b : bool)
| JNum (n : Z)
| JStr (s : string)
| JArr (elems : list js_value)
| JObj (props : list (string * js_value)).

(** [!!v]. *)
Definition truthy (v : js_value) : bool :=
  match v with
  | JUndefined | JNull => false
  | JBool b => b
  | JNum n => negb (n =? 0)
  | JStr s => negb (String.eqb s "")
  | JArr _ | JObj _ => true
  end.

(** [a && b] and [a || b]: the value of an operand, not a Boolean. *)
Definition js_and (a b : js_value) : js_value := if truthy a then b else a.
Definition js_or (a b : js_value) : js_value := if truthy a then a else b.

Definition isArray (v : js_value) : bool :=
  match v with JArr _ => true | _ => false end.

(** [v.length] of an array (read only behind an [Array.isArray] test). *)
Definition array_length (v : js_value) : Z :=
  match v with JArr l => Z.of_nat (length l) | _ => 0 end.

(** [v[0]] of an array. *)
Definition first_elem (v : js_value) : js_value :=
  match v with JArr (x :: _) => x | _ => JUndefined end.

Fixpoint assoc (k : string) (ps : list (string * js_value)) : js_value :=
  match ps with
  | [] => JUndefined
  | (k', v) :: r => if String.eqb k k' then v else assoc k r
  end.

(** [v.k] on a value that is neither [null] nor [undefined], for the
    property names of the source (none is a property of a primitive or of
    an array). *)
Definition prop (v : js_value) (k : string) : js_value :=
  match v with JObj ps => assoc k ps | _ => JUndefined end.

(** [v.k] in general: [None] is the TypeError of reading a property of
    [null] or [undefined]. *)
Definition get (v : js_value) (k : string) : option js_value :=
  match v with
  | JUndefined | JNull => None
  | _ => Some (prop v k)
  end.

(** The test [x && Array.isArray(x) && x.length > 0] of the cache model and
    of the registry client. *)
Definition nonEmptyArrayTest (x : js_value) : js_value :=
  js_and (js_and x (JBool (isArray x))) (JBool (0 <? array_length x)).

(** ** Trust cache (the EbsiCache model)

    The collection has a unique index on [thumbprint] and no code path
    changes the thumbprint of a document, so the collection is a finite
    map from thumbprints to documents. A field of a document in memory
    holds the value the code assigns to it; [save] casts the values to
    the types of the schema and validates the document, and throws when
    a value does not cast or a required path is empty. Failures of the
    database itself are outside the model. *)

Module EbsiCache.

Record CacheEntry := {
  thumbprint : string;
  found : js_value;
  ebsiResponse : js_value;
  publicKey : js_value;
  issuerInfo : list (string * js_value);
  lastChecked : Z;
  hitCount : Z;
  needsRefresh : bool;
  source : string;
  lastStatus : option Z;
  lastError : option string
}.

(** [new this({ thumbprint, found: false, source: 'verification' })] with
    the defaults of the schema; [now] is the clock read by the default of
    [lastChecked]. *)
Definition create (now : Z) (t : string) : CacheEntry :=
  {| thumbprint := t;
     found := JBool false;
     ebsiResponse := JNull;
     publicKey := JNull;
     issuerInfo := [];
     lastChecked := now;
     hitCount := 1;
     needsRefresh := false;
     source := "verification";
     lastStatus := None;
     lastError := None |}.

Definition findOne (db : gmap string CacheEntry) (t : string) : option CacheEntry :=
  db !! t.

Definition findOrCreate (now : Z) (db : gmap string CacheEntry) (t : string)
  : CacheEntry :=
  match findOne db t with
  | Some entry => entry
  | None => create now t
  end.

(** The cast of a value assigned to a path of type [Boolean]: [None] is
    the CastError. *)
Definition castBoolean (v : js_value) : option js_value :=
  match v with
  | JUndefined | JNull | JBool _ => Some v
  | JNum n =>
      if n =? 1 then Some (JBool true)
      else if n =? 0 then Some (JBool false) else None
  | JStr s =>
      if String.eqb s "true" || String.eqb s "1" || String.eqb s "yes"
      then Some (JBool true)
      else if String.eqb s "false" || String.eqb s "0" || String.eqb s "no"
      then Some (JBool false) else None
  | JArr _ | JObj _ => None
  end.

(** The cast of a value assigned to a path of type [String]: a number or
    a Boolean is written out, an object casts through a string [_id]
    only, an array does not cast. *)
Definition castString (v : js_value) : option js_value :=
  match v with
  | JUndefined | JNull | JStr _ => Some v
  | JNum n => Some (JStr (NilZero.string_of_int (Z.to_int n)))
  | JBool true => Some (JStr "true")
  | JBool false => Some (JStr "false")
  | JArr _ => None
  | JObj ps =>
      match assoc "_id" ps with
      | JStr id => if String.eqb id "" then None else Some (JStr id)
      | _ => None
      end
  end.

Fixpoint castStrings (ps : list (string * js_value))
  : option (list (string * js_value)) :=
  match ps with
  | [] => Some []
  | (k, v) :: r =>
      match castString v, castStrings r with
      | Some v', Some r' => Some ((k, v') :: r')
      | _, _ => None
      end
  end.

(** The document as [save] writes it, or [None] when the validation
    fails: [thumbprint] is a required string, which an empty string does
    not satisfy; [found] is a required Boolean; [publicKey] and the three
    fields of [issuerInfo] are strings; [source] is one of four words. The
    other paths hold numbers, dates and strings by construction. *)
Definition validate (entry : CacheEntry) : option CacheEntry :=
  if String.eqb (thumbprint entry) "" then None
  else if negb (String.eqb (source entry) "upload"
                || String.eqb (source entry) "verification"
                || String.eqb (source entry) "refresh"
                || String.eqb (source entry) "startup") then None
  else
    match castBoolean (found entry), castString (publicKey entry),
          castStrings (issuerInfo entry) with
    | Some (JBool b), Some key, Some info =>
        Some {| thumbprint := thumbprint entry;
                found := JBool b;
                ebsiResponse := ebsiResponse entry;
                publicKey := key;
                issuerInfo := info;
                lastChecked := lastChecked entry;
                hitCount := hitCount entry;
                needsRefresh := needsRefresh entry;
                source := source entry;
                lastStatus := lastStatus entry;
                lastError := lastError entry |}
    | _, _, _ => None
    end.

(** [entry.save()]: the collection with the document written, or [None]
    when [save] throws the validation error and writes nothing. *)
Definition save (db : gmap string CacheEntry) (entry : CacheEntry)
  : option (gmap string CacheEntry) :=
  match validate entry with
  | Some stored => Some (<[thumbprint stored := stored]> db)
  | None => None
  end.

(** The assignments of [updateWithEbsiResponse], before its [save]. The
    one path read back after its assignment is [found], in the test of
    the extraction, and the cast does not change whether it is truthy. *)
Definition withEbsiResponse (now : Z) (this : CacheEntry)
    (response : js_value) (status : Z) (error : option string) : CacheEntry :=
  let found' := nonEmptyArrayTest response in
  let issuer := first_elem response in
  let extract := truthy (js_and (js_and found' response) issuer) in
  {| thumbprint := thumbprint this;
     found := found';
     ebsiResponse := response;
     publicKey := if extract then js_or (prop issuer "publicKey") JNull else JNull;
     issuerInfo :=
       if extract
       then [("officialId", prop issuer "officialId");
             ("countryCode", prop issuer "countryCode");
             ("name", prop issuer "name")]
       else [];
     lastChecked := now;
     hitCount := hitCount this + 1;
     needsRefresh := false;
     source := source this;
     lastStatus := Some status;
     lastError := error |}.

Definition updateWithEbsiResponse (now : Z) (db : gmap string CacheEntry)
    (this : CacheEntry) (response : js_value) (status : Z)
    (error : option string) : option (gmap string CacheEntry) :=
  save db (withEbsiResponse now this response status error).

Definition setNeedsRefresh (entry : CacheEntry) : CacheEntry :=
  {| thumbprint := thumbprint entry;
     found := found entry;
     ebsiResponse := ebsiResponse entry;
     publicKey := publicKey entry;
     issuerInfo := issuerInfo entry;
     lastChecked := lastChecked entry;
     hitCount := hitCount entry;
     needsRefresh := true;
     source := source entry;
     lastStatus := lastStatus entry;
     lastError := lastError entry |}.

(** [updateMany({}, { needsRefresh: true })]. *)
Definition markAllForRefresh (db : gmap string CacheEntry)
  : gmap string CacheEntry :=
  setNeedsRefresh <$> db.

(** The documents matched by the query [{ needsRefresh: true }]. *)
Definition stale (db : gmap string CacheEntry) : gmap string CacheEntry :=
  filter (fun kv => needsRefresh kv.2 = true) db.

(** [find({ needsRefresh: true }).limit(limit)]. *)
Definition getEntriesNeedingRefresh (limit : nat) (db : gmap string CacheEntry)
  : list CacheEntry :=
  take limit (map_to_list (stale db)).*2.

(** [countDocuments({ needsRefresh: true })]. *)
Definition countNeedsRefresh (db : gmap string CacheEntry) : nat :=
  size (stale db).

End EbsiCache.

(** The invariant of the collection: every document is stored under its
    own thumbprint. *)
Definition cache_wf (db : gmap string EbsiCache.CacheEntry) : Prop :=
  map_Forall (fun t e => EbsiCache.thumbprint e = t) db.

(** The documents of the collection are documents that [save] wrote. *)
Definition cache_valid (db : gmap string EbsiCache.CacheEntry) : Prop :=
  map_Forall (fun _ e => EbsiCache.validate e = Some e) db.

(** A response from which [updateWithEbsiResponse] assigns values that
    pass the casts of the schema: [found] is a Boolean, the public key
    and the issuer fields of the first record are strings. *)
Definition storable (response : js_value) : bool :=
  let e := EbsiCache.withEbsiResponse 0 (EbsiCache.create 0 "") response 0 None in
  match EbsiCache.castBoolean (nonEmptyArrayTest response),
        EbsiCache.castString (EbsiCache.publicKey e),
        EbsiCache.castStrings (EbsiCache.issuerInfo e) with
  | Some (JBool _), Some _, Some _ => true
  | _, _, _ => false
  end.

(** ** Trust registry client (scanRoutes.js, checkThumbprintInBridge)

    What the world outside the process does during one call: the outcome
    of the HTTP request and the clock. *)

Inductive axios_result :=
| Resolved (status : Z) (data : js_value)
| HttpError (message : string) (status : Z)
| NetworkError (message : string).

Record Outside := {
  axios_get : string -> axios_result;
  now : Z
}.

Definition issuers_url (ebsiThumbprint : string) : string :=
  "https://resolver-test.ebsi.eu/api/v1/issuers?x509Thumbprint=" +:+ ebsiThumbprint.

Definition incrementHitCount (entry : EbsiCache.CacheEntry) : EbsiCache.CacheEntry :=
  {| EbsiCache.thumbprint := EbsiCache.thumbprint entry;
     EbsiCache.found := EbsiCache.found entry;
     EbsiCache.ebsiResponse := EbsiCache.ebsiResponse entry;
     EbsiCache.publicKey := EbsiCache.publicKey entry;
     EbsiCache.issuerInfo := EbsiCache.issuerInfo entry;
     EbsiCache.lastChecked := EbsiCache.lastChecked entry;
     EbsiCache.hitCount := EbsiCache.hitCount entry + 1;
     EbsiCache.needsRefresh := EbsiCache.needsRefresh entry;
     EbsiCache.source := EbsiCache.source entry;
     EbsiCache.lastStatus := EbsiCache.lastStatus entry;
     EbsiCache.lastError := EbsiCache.lastError entry |}.

(** [error.response?.status || 0]. *)
Definition error_status (r : axios_result) : Z :=
  match r with
  | HttpError _ status => if status =? 0 then 0 else status
  | _ => 0
  end.

(** The message of the error that a refused [save] throws. It reaches
    only the update of the [catch], which is refused as well. *)
Definition validation_message : string := "EbsiCache validation failed".

(** The [catch] of the function: an update with the response [null], the
    status and the message of the error, whose own failure is caught and
    logged, and the verdict [false]. *)
Definition lookupFailed (w : Outside) (thumbprint : string) (status : Z)
    (message : string) (db : gmap string EbsiCache.CacheEntry)
  : js_value * gmap string EbsiCache.CacheEntry :=
  let cacheEntry := EbsiCache.findOrCreate (now w) db thumbprint in
  (JBool false,
   match EbsiCache.updateWithEbsiResponse (now w) db cacheEntry JNull status
           (Some message) with
   | Some db' => db'
   | None => db
   end).

(** The function returns its verdict and leaves the cache in a new state.
    It does not throw: the body is one [try] whose [catch] returns
    [false], and that [catch] is reached by a failed request and by a
    [save] that throws. On the path to the request the local [cacheEntry]
    is always [null] (a hit has returned, a forced refresh has not
    looked), so the entry is obtained with [findOrCreate] on both
    outcomes. *)
Definition checkThumbprintInBridge (w : Outside) (thumbprint : string)
    (forceRefresh : bool) (db : gmap string EbsiCache.CacheEntry)
  : js_value * gmap string EbsiCache.CacheEntry :=
  match (if forceRefresh then None else EbsiCache.findOne db thumbprint) with
  | Some cacheEntry =>
      let cacheEntry := incrementHitCount cacheEntry in
      match EbsiCache.validate cacheEntry, EbsiCache.save db cacheEntry with
      | Some stored, Some db' => (EbsiCache.found stored, db')
      | _, _ => lookupFailed w thumbprint 0 validation_message db
      end
  | None =>
      let ebsiThumbprint := normalized (normalizeThumbprintForEbsi thumbprint) in
      match axios_get w (issuers_url ebsiThumbprint) with
      | Resolved status data =>
          let found := nonEmptyArrayTest data in
          let cacheEntry := EbsiCache.findOrCreate (now w) db thumbprint in
          match EbsiCache.updateWithEbsiResponse (now w) db cacheEntry data
                  status None with
          | Some db' => (found, db')
          | None => lookupFailed w thumbprint 0 validation_message db
          end
      | (HttpError message _ | NetworkError message) as failure =>
          lookupFailed w thumbprint (error_status failure) message db
      end
  end.

(** The two cache operations of the specification on one thumbprint:
    [get], the cache-consulting lookup, and [upsert], which is
    [findOrCreate] followed by [updateWithEbsiResponse]; an upsert whose
    [save] throws leaves the collection as it was. *)
Inductive cache_call :=
| Get (w : Outside) (forceRefresh : bool)
| Upsert (at_time : Z) (response : js_value) (status : Z) (error : option string).

Definition run_call (thumbprint : string) (db : gmap string EbsiCache.CacheEntry)
    (call : cache_call) : gmap string EbsiCache.CacheEntry :=
  match call with
  | Get w forceRefresh => (checkThumbprintInBridge w thumbprint forceRefresh db).2
  | Upsert at_time response status error =>
      match EbsiCache.updateWithEbsiResponse at_time db
              (EbsiCache.findOrCreate at_time db thumbprint) response status
              error with
      | Some db' => db'
      | None => db
      end
  end.

Definition run_calls (thumbprint : string) (calls : list cache_call)
  : gmap string EbsiCache.CacheEntry :=
  foldl (run_call thumbprint) ∅ calls.

(** ** Background refresher (scanRoutes.js, refreshCacheInBackground)

    One run fetches a batch of at most 50 flagged documents and looks each
    of them up with [forceRefresh]; the lookup does not throw, so the
    [catch] inside the loop is not reachable. The run then counts the
    flagged documents and, if there are any, schedules the next run.
    [ws run i] is the outside world during request [i] of run [run]. The
    delays between requests and between runs do not change the cache.
    [fuel] bounds the number of runs: [None] means that a further run was
    scheduled when the bound was reached. *)

Fixpoint refresh_entries (ws : nat -> Outside) (i : nat)
    (entries : list EbsiCache.CacheEntry) (db : gmap string EbsiCache.CacheEntry)
  : gmap string EbsiCache.CacheEntry :=
  match entries with
  | [] => db
  | entry :: rest =>
      refresh_entries ws (S i) rest
        (checkThumbprintInBridge (ws i) (EbsiCache.thumbprint entry) true db).2
  end.

Definition refresh_batch (ws : nat -> Outside) (db : gmap string EbsiCache.CacheEntry)
  : gmap string EbsiCache.CacheEntry * bool :=
  let entriesToRefresh := EbsiCache.getEntriesNeedingRefresh 50 db in
  let db' := refresh_entries ws 0 entriesToRefresh db in
  let remainingEntries := EbsiCache.countNeedsRefresh db' in
  (db', (0 <? remainingEntries)%nat).

Fixpoint refreshCacheInBackground (fuel : nat) (ws : nat -> nat -> Outside)
    (run : nat) (db : gmap string EbsiCache.CacheEntry)
  : option (gmap string EbsiCache.CacheEntry) :=
  match fuel with
  | O => None
  | S fuel' =>
      let '(db', again) := refresh_batch (ws run) db in
      if again then refreshCacheInBackground fuel' ws (S run) db' else Some db'
  end.

(** ** Exceptions and strings of values *)

(** A thrown value: an [Error] made by the code or by a library, or a
    [TypeError] raised by the engine (messages as V8 words them). *)
Inductive thrown :=
| JsError (message : string)
| JsTypeError (message : string).

(** [error.message] and [error.toString()]. *)
Definition message_of (x : thrown) : string :=
  match x with JsError m | JsTypeError m => m end.

Definition error_toString (x : thrown) : string :=
  match x with
  | JsError m => "Error: " +:+ m
  | JsTypeError m => "TypeError: " +:+ m
  end.

(** A value that a [catch] clause receives: an error object, or a
    primitive string ([pako] throws the message of its inflator, not an
    [Error]). *)
Inductive exception :=
| ErrorObject (error : thrown)
| Primitive (value : string).

(** [error.message]: a primitive string has no such property. *)
Definition exception_message (x : exception) : option string :=
  match x with
  | ErrorObject error => Some (message_of error)
  | Primitive _ => None
  end.

(** The truth value of a caught value. *)
Definition exception_truthy (x : exception) : bool :=
  match x with
  | ErrorObject _ => true
  | Primitive value => negb (String.eqb value "")
  end.

(** A caught value with its [step] property, [None] for [undefined]. *)
Definition failure : Type := exception * option string.

(** [error.step = label]: the property is set on an object; on a primitive
    string the assignment does nothing (the module is not in strict
    mode). *)
Definition set_step (label : string) (x : failure) : failure :=
  match x.1 with
  | ErrorObject _ => (x.1, Some label)
  | Primitive _ => x
  end.

(** [catch (e) { e.step = label; throw e; }] around a computation. *)
Definition catch_step {A B : Type} (label : string) (r : (failure + A) * B)
  : (failure + A) * B :=
  match r with
  | (inl x, b) => (inl (set_step label x), b)
  | (inr a, b) => (inr a, b)
  end.

(** [error.step || 'unknown']. *)
Definition step_or_unknown (step : option string) : string :=
  match step with
  | Some label => if String.eqb label "" then "unknown" else label
  | None => "unknown"
  end.

(** [v.k] where [v] may be [null] or [undefined]. *)
Definition read (v : js_value) (k : string) : thrown + js_value :=
  match get v k with
  | Some x => inr x
  | None =>
      inl (JsTypeError
             ("Cannot read properties of "
              +:+ (match v with JNull => "null" | _ => "undefined" end)
              +:+ " (reading '" +:+ k +:+ "')"))
  end.

(** [v?.k]. *)
Definition read_opt (v : js_value) (k : string) : js_value :=
  match get v k with Some x => x | None => JUndefined end.

(** [v?.[0]]. *)
Definition elem0_opt (v : js_value) : js_value :=
  match v with
  | JArr (x :: _) => x
  | JStr (String a _) => JStr (String a EmptyString)
  | JObj ps => assoc "0" ps
  | _ => JUndefined
  end.

Definition decimal (n : Z) : string := NilZero.string_of_int (Z.to_int n).

Fixpoint join (sep : string) (l : list string) : string :=
  match l with
  | [] => EmptyString
  | [x] => x
  | x :: r => x +:+ sep +:+ join sep r
  end.

(** The string of a value inside a template literal. *)
Fixpoint js_toString (v : js_value) : string :=
  match v with
  | JUndefined => "undefined"
  | JNull => "null"
  | JBool true => "true"
  | JBool false => "false"
  | JNum n => decimal n
  | JStr s => s
  | JArr l =>
      join ","
        (map (fun x => match x with
                       | JUndefined | JNull => EmptyString
                       | _ => js_toString x
                       end) l)
  | JObj _ => "[object Object]"
  end.

(** [JSON.stringify(v, null, 2)]. *)
Definition dquote : ascii := "034"%char.
Definition newline : string := String "010"%char EmptyString.

Definition hex_digit (n : nat) : ascii :=
  ascii_of_nat (if (n <? 10)%nat then 48 + n else 87 + n).

Definition escape_char (a : ascii) : string :=
  let n := nat_of_ascii a in
  if (n =? 34)%nat then String "\" (String dquote EmptyString)
  else if (n =? 92)%nat then "\\"
  else if (n =? 8)%nat then "\b"
  else if (n =? 12)%nat then "\f"
  else if (n =? 10)%nat then "\n"
  else if (n =? 13)%nat then "\r"
  else if (n =? 9)%nat then "\t"
  else if (n <? 32)%nat then
    "\u00" +:+ String (hex_digit (n / 16)) (String (hex_digit (n mod 16)) EmptyString)
  else String a EmptyString.

Fixpoint escape (s : string) : string :=
  match s with
  | EmptyString => EmptyString
  | String a r => escape_char a +:+ escape r
  end.

Definition quote (s : string) : string :=
  String dquote (escape s +:+ String dquote EmptyString).

Fixpoint stringify (indent : string) (v : js_value) : string :=
  let inner := indent +:+ "  " in
  match v with
  | JUndefined | JNull => "null"
  | JBool true => "true"
  | JBool false => "false"
  | JNum n => decimal n
  | JStr s => quote s
  | JArr [] => "[]"
  | JArr l =>
      "[" +:+ newline +:+ inner
      +:+ join ("," +:+ newline +:+ inner) (map (stringify inner) l)
      +:+ newline +:+ indent +:+ "]"
  | JObj ps =>
      let members :=
        (fix members (ps : list (string * js_value)) : list string :=
           match ps with
           | [] => []
           | (k, JUndefined) :: r => members r
           | (k, x) :: r => (quote k +:+ ": " +:+ stringify inner x) :: members r
           end) ps in
      match members with
      | [] => "{}"
      | _ =>
          "{" +:+ newline +:+ inner
          +:+ join ("," +:+ newline +:+ inner) members
          +:+ newline +:+ indent +:+ "}"
      end
  end.

Definition JSON_stringify (v : js_value) : string := stringify "" v.

(** [Buffer.byteLength(s, 'utf8')]: a code unit below 128 is one byte, one
    from 128 to 255 is two. *)
Fixpoint byteLength (s : string) : Z :=
  match s with
  | EmptyString => 0
  | String a r => (if (nat_of_ascii a <? 128)%nat then 1 else 2) + byteLength r
  end.

(** ** Signature validator (scanRoutes.js, validateJwtSignature)

    The operations of Node's [Buffer] and [crypto] that the validator
    calls. *)
Class NodeCrypto := {
  (** [JSON.parse(Buffer.from(b64, 'base64url').toString())] *)
  parse_base64url_json : string -> thrown + js_value;
  (** [Buffer.from(b64, 'base64url')] *)
  Buffer_from_base64url : string -> list Byte.byte;
  (** the body of [convertRsaJwkToPem] behind its guard: [Buffer.from] on
      [n] and [e], [crypto.createPublicKey] on the JWK, export as PEM *)
  rsa_jwk_to_pem : js_value -> js_value -> thrown + string;
  (** [extractPublicKeyFromX509]: wrap in PEM markers if absent,
      [new crypto.X509Certificate], export of the public key as PEM *)
  x509_public_key_pem : js_value -> thrown + string;
  (** [createVerify('SHA256').update(signingInput).verify(key, signature)] *)
  rsa_sha256_verify : string -> string -> list Byte.byte -> thrown + bool
}.

(** The calls into key material resolution and into verification that a
    run of the validator makes, in order. *)
Inductive crypto_call :=
| ConvertRsaJwkToPem (jwk : js_value)
| ExtractPublicKeyFromX509 (certificate : js_value)
| Verify (publicKey signingInput : string).

(** A computation that may throw and that records its calls. *)
Definition traced (A : Type) : Type := list crypto_call * (thrown + A).

Definition ret {A} (a : A) : traced A := ([], inr a).
Definition throw {A} (x : thrown) : traced A := ([], inl x).
Definition lift {A} (r : thrown + A) : traced A := ([], r).
Definition call {A} (c : crypto_call) (r : thrown + A) : traced A := ([c], r).

Definition bind {A B} (m : traced A) (k : A -> traced B) : traced B :=
  match m with
  | (calls, inl x) => (calls, inl x)
  | (calls, inr a) => let '(calls', r) := k a in (calls ++ calls', r)
  end.

Notation "'let*' x ':=' m 'in' k" := (bind m (fun x => k))
  (at level 10, x name, m at level 100, k at level 200, only parsing).
Notation "'let*' ' p ':=' m 'in' k" := (bind m (fun x => let 'p := x in k))
  (at level 10, p pattern, m at level 100, k at level 200, only parsing).

(** [x === 'RS256'] and the like. *)
Definition is_string (v : js_value) (s : string) : bool :=
  match v with JStr s' => String.eqb s' s | _ => false end.

Section Validator.

Context `{NodeCrypto}.

Definition convertRsaJwkToPem (jwk : js_value) : thrown + string :=
  if negb (is_string (prop jwk "kty") "RSA")
     || negb (truthy (prop jwk "n")) || negb (truthy (prop jwk "e"))
  then inl (JsError "Invalid RSA JWK - missing required fields")
  else rsa_jwk_to_pem (prop jwk "n") (prop jwk "e").

(** Lines 897-945: the public key and the issuer record out of the
    registry response handed over by the caller. *)
Definition resolvePublicKey (publicKeyData : js_value)
  : traced (string * js_value) :=
  if truthy (js_and publicKeyData (nonEmptyArrayTest (prop publicKeyData "results")))
  then
    let issuerData := first_elem (prop publicKeyData "results") in
    let* publicKeys := lift (read issuerData "publicKeys") in
    if truthy (nonEmptyArrayTest publicKeys) then
      let publicKeyJwk := first_elem publicKeys in
      let* kty := lift (read publicKeyJwk "kty") in
      if is_string kty "RSA" && truthy (prop publicKeyJwk "n")
         && truthy (prop publicKeyJwk "e")
      then
        let* publicKey := call (ConvertRsaJwkToPem publicKeyJwk)
                          (convertRsaJwkToPem publicKeyJwk) in
        ret (publicKey, issuerData)
      else throw (JsError ("Unsupported JWK key type: " +:+ js_toString kty))
    else
      let certificates := prop issuerData "certificates" in
      if truthy (nonEmptyArrayTest certificates) then
        let x509Certificate := first_elem certificates in
        let* publicKey := call (ExtractPublicKeyFromX509 x509Certificate)
                          (x509_public_key_pem x509Certificate) in
        ret (publicKey, issuerData)
      else throw (JsError "No public key or certificate found in EBSI response")
  else throw (JsError "Invalid EBSI response structure - expected data.results array").

(** Lines 891-981: what follows the algorithm check. *)
Definition verifyWithAlgorithm (algorithm : js_value)
    (headerB64 payloadB64 signatureB64 : string) (publicKeyData : js_value)
  : traced js_value :=
  let signingInput := headerB64 +:+ "." +:+ payloadB64 in
  let signature := Buffer_from_base64url signatureB64 in
  let* '(publicKey, issuerData) := resolvePublicKey publicKeyData in
  let* isValid := call (Verify publicKey signingInput)
                  (rsa_sha256_verify publicKey signingInput signature) in
  ret (JObj
         [("signatureValid", JBool isValid);
          ("publicKeySource", issuerData);
          ("signingInput", JStr signingInput);
          ("signatureLength", JNum (Z.of_nat (length signature)));
          ("algorithm", algorithm);
          ("thumbprintMatch",
           js_or (read_opt (elem0_opt (read_opt issuerData "publicKeys")) "x5t#S256")
                 (JStr "N/A"));
          ("issuerInfo",
           JObj [("officialId", read_opt issuerData "officialId");
                 ("countryCode", read_opt issuerData "countryCode");
                 ("name", read_opt issuerData "name");
                 ("did", read_opt issuerData "did")])]).

(** The argument [header.kid?.substring(0, 50) + '...'] of the debug log
    of line 880: [substring] is a method of strings only. *)
Definition log_kid (header : js_value) : thrown + unit :=
  match prop header "kid" with
  | JUndefined | JNull | JStr _ => inr tt
  | _ => inl (JsTypeError "header.kid?.substring is not a function")
  end.

Definition unsupported_algorithm (algorithm : js_value) : thrown :=
  JsError ("Unsupported JWT algorithm: " +:+ js_toString algorithm
           +:+ ". Only RS256 is supported.").

(** The body of the [try]. *)
Definition validateJwtSignature_try (jwtToken : string) (publicKeyData : js_value)
  : traced js_value :=
  match split "." jwtToken with
  | [headerB64; payloadB64; signatureB64] =>
      let* header := lift (parse_base64url_json headerB64) in
      let* alg := lift (read header "alg") in
      let algorithm := js_or alg (JStr "RS256") in
      let* _ := lift (log_kid header) in
      if negb (is_string algorithm "RS256")
      then throw (unsupported_algorithm algorithm)
      else verifyWithAlgorithm algorithm headerB64 payloadB64 signatureB64
             publicKeyData
  | _ => throw (JsError "Invalid JWT format - expected 3 parts")
  end.

(** The object returned by the [catch]. *)
Definition validation_failure (error : thrown) : js_value :=
  JObj [("signatureValid", JBool false);
        ("error", JStr (message_of error));
        ("publicKeySource", JNull)].

(** The validator returns its result object and does not throw; the first
    component lists the calls it made. *)
Definition validateJwtSignature (jwtToken : string) (publicKeyData : js_value)
  : list crypto_call * js_value :=
  match validateJwtSignature_try jwtToken publicKeyData with
  | (calls, inr result) => (calls, result)
  | (calls, inl error) => (calls, validation_failure error)
  end.

End Validator.

(** ** Registry lookup for a parsed token (scanRoutes.js, verifySignature) *)

Definition is_upper (a : ascii) : bool :=
  let n := nat_of_ascii a in ((65 <=? n) && (n <=? 90))%nat.

(** [part.length === 2 && part.match(/^[A-Z]{2}$/)]. *)
Definition is_country_code (part : string) : bool :=
  match part with
  | String a (String b EmptyString) => is_upper a && is_upper b
  | _ => false
  end.

Definition detectCountryCode (payload : js_value) : thrown + js_value :=
  match read payload "iss" with
  | inl error => inl error
  | inr iss =>
      inr (match iss with
           | JStr s =>
               if truthy iss then
                 match List.find is_country_code (split "/" s) with
                 | Some part => JStr part
                 | None => JStr "BE"
                 end
               else if truthy (prop payload "c") then prop payload "c"
               else if truthy (prop payload "country") then prop payload "country"
               else JStr "BE"
           | _ =>
               if truthy (prop payload "c") then prop payload "c"
               else if truthy (prop payload "country") then prop payload "country"
               else JStr "BE"
           end)
  end.

(** The thumbprint in a key identifier of the form
    [EESSI:x5t#S256:<thumbprint>]. *)
Definition thumbprintOfKid (kid : js_value) : thrown + string :=
  if negb (truthy kid) then inl (JsError "No KID found in JWT header")
  else match kid with
       | JStr k =>
           match split ":" k with
           | _ :: tag :: x509Thumbprint :: _ =>
               if String.eqb tag "x5t#S256" then inr x509Thumbprint
               else inl (JsError ("Invalid KID format: " +:+ k))
           | _ => inl (JsError ("Invalid KID format: " +:+ k))
           end
       | _ => inl (JsTypeError "kid.split is not a function")
       end.

(** The object returned by the [catch] (a thrown value has no [response]
    here). *)
Definition verification_error (error : thrown) : js_value :=
  JObj [("error", JStr "Verification Error");
        ("message", JStr (message_of error));
        ("details", JStr (error_toString error))].

Definition verifySignature (w : Outside) (jwtDecoded : js_value)
    (db : gmap string EbsiCache.CacheEntry)
  : js_value * gmap string EbsiCache.CacheEntry :=
  match read (prop jwtDecoded "header") "kid" with
  | inl error => (verification_error error, db)
  | inr kid =>
      match thumbprintOfKid kid with
      | inl error => (verification_error error, db)
      | inr x509Thumbprint =>
          match detectCountryCode (prop jwtDecoded "payload") with
          | inl error => (verification_error error, db)
          | inr countryCode =>
              let '(bridgeFound, db') :=
                checkThumbprintInBridge w x509Thumbprint false db in
              let cacheEntry := EbsiCache.findOne db' x509Thumbprint in
              let cached :=
                match cacheEntry with
                | Some entry =>
                    if truthy (EbsiCache.ebsiResponse entry)
                    then Some (EbsiCache.ebsiResponse entry,
                               match EbsiCache.lastStatus entry with
                               | Some status => if status =? 0 then 200 else status
                               | None => 200
                               end)
                    else None
                | None => None
                end in
              let ebsiResponseData :=
                match cached with Some (response, _) => response | None => JNull end in
              let status :=
                match cached with Some (_, status) => status | None => 200 end in
              let fullUrl :=
                issuers_url (normalized (normalizeThumbprintForEbsi x509Thumbprint)) in
              (JObj [("url", JStr fullUrl);
                     ("status", JNum status);
                     ("statusText", JStr "OK");
                     ("headers", JObj [("content-type", JStr "application/json")]);
                     ("data", ebsiResponseData);
                     ("extractedKid", kid);
                     ("extractedThumbprint", JStr x509Thumbprint);
                     ("detectedCountryCode", countryCode);
                     ("fromCache",
                      JBool (match cacheEntry with Some _ => true | None => false end));
                     ("cacheHitCount",
                      JNum (match cacheEntry with
                            | Some entry => EbsiCache.hitCount entry
                            | None => 0
                            end))],
               db')
          end
      end
  end.

(** ** Verification pipeline (scanRoutes.js, processVerificationData)

    The decoders of the packages [base45], [pako] and [jsonwebtoken], and
    the arithmetic of the percentage,
    [Math.round((size / previous) * 100)] on doubles. *)
Class Decoders := {
  base45_decode : string -> exception + list Byte.byte;
  pako_inflate : list Byte.byte -> exception + string;
  jwt_decode : string -> exception + js_value;
  percent_of : Z -> Z -> Z
}.

Module Step.
Record t := {
  name : string;
  data : string;
  size : Z;
  percentage : Z
}.
End Step.

(** [Buffer.from(bytes).toString('hex')]. *)
Fixpoint hex_of_bytes (bytes : list Byte.byte) : string :=
  match bytes with
  | [] => EmptyString
  | b :: r =>
      let n := N.to_nat (Byte.to_N b) in
      String (hex_digit (n / 16)) (String (hex_digit (n mod 16)) (hex_of_bytes r))
  end.

Section Pipeline.

Context `{Decoders} `{NodeCrypto}.

(** Steps 4 to 6, the body of the third [try]: the parsed token, the
    registry lookup and the signature validation. Neither [verifySignature]
    nor [validateJwtSignature] throws, so the two [catch] clauses inside
    are not entered and only a token that does not parse leaves this part
    with an error, which has no [step] yet. *)
Definition verificationSteps (w : Outside) (zlibDecompressed : string)
    (zlibSize : Z) (db : gmap string EbsiCache.CacheEntry)
  : (failure + list Step.t) * gmap string EbsiCache.CacheEntry :=
  match jwt_decode zlibDecompressed with
  | inl error => (inl (error, None), db)
  | inr jwtDecoded =>
      if truthy jwtDecoded then
        let jwtString := JSON_stringify jwtDecoded in
        let jwtSize := byteLength jwtString in
        let '(signatureResponse, db') := verifySignature w jwtDecoded db in
        let responseString := JSON_stringify signatureResponse in
        let responseSize := byteLength responseString in
        let jwtValidationResult :=
          (validateJwtSignature zlibDecompressed (prop signatureResponse "data")).2 in
        let validationString := JSON_stringify jwtValidationResult in
        let validationSize := byteLength validationString in
        (inr [ {| Step.name := "Parsed JWT (Clear Text)";
                  Step.data := jwtString;
                  Step.size := jwtSize;
                  Step.percentage := percent_of jwtSize zlibSize |};
               {| Step.name := "Signature Verification Response";
                  Step.data := responseString;
                  Step.size := responseSize;
                  Step.percentage := percent_of responseSize jwtSize |};
               {| Step.name := "JWT Signature Validation";
                  Step.data := validationString;
                  Step.size := validationSize;
                  Step.percentage := percent_of validationSize responseSize |} ],
         db')
      else (inl (ErrorObject (JsError "Invalid JWT format"), None), db)
  end.

(** The result is the list of steps, or the value thrown with its [step]
    property. The three [catch] clauses are nested, each assigns [step]
    and throws the value on. *)
Definition processVerificationData (w : Outside) (originalData : string)
    (db : gmap string EbsiCache.CacheEntry)
  : (failure + list Step.t) * gmap string EbsiCache.CacheEntry :=
  let originalSize := byteLength originalData in
  let step1 :=
    {| Step.name := "Original BASE45 String";
       Step.data := originalData;
       Step.size := originalSize;
       Step.percentage := 100 |} in
  catch_step "BASE45 decoding"
    match base45_decode originalData with
    | inl base45Error => (inl (base45Error, None), db)
    | inr base45Decoded =>
        let base45Size := Z.of_nat (length base45Decoded) in
        let step2 :=
          {| Step.name := "Decoded BASE45 (ZLIB Compressed)";
             Step.data := hex_of_bytes base45Decoded;
             Step.size := base45Size;
             Step.percentage := percent_of base45Size originalSize |} in
        catch_step "ZLIB decompression"
          match pako_inflate base45Decoded with
          | inl zlibError => (inl (zlibError, None), db)
          | inr zlibDecompressed =>
              let zlibSize := byteLength zlibDecompressed in
              let step3 :=
                {| Step.name := "Decompressed ZLIB (JWT)";
                   Step.data := zlibDecompressed;
                   Step.size := zlibSize;
                   Step.percentage := percent_of zlibSize base45Size |} in
              catch_step "JWT parsing"
                match verificationSteps w zlibDecompressed zlibSize db with
                | (inl jwtError, db') => (inl jwtError, db')
                | (inr steps, db') =>
                    (inr (step1 :: step2 :: step3 :: steps), db')
                end
          end
    end.

(** The results of [n] runs on the same input, one after the other, and
    the cache they leave. *)
Fixpoint rerun (n : nat) (w : Outside) (originalData : string)
    (db : gmap string EbsiCache.CacheEntry)
  : list (failure + list Step.t) * gmap string EbsiCache.CacheEntry :=
  match n with
  | O => ([], db)
  | S k =>
      let '(result, db') := processVerificationData w originalData db in
      let '(results, db'') := rerun k w originalData db' in
      (result :: results, db'')
  end.

End Pipeline.

(** An issuer record as the registry returns it, and two outcomes of the
    registry request used in the examples. *)
Definition example_issuer : js_value :=
  JObj [("officialId", JStr "0001"); ("countryCode", JStr "BE");
        ("name", JStr "Example Institution");
        ("publicKey", JStr "-----BEGIN PUBLIC KEY-----")].

Definition registry_finds : Outside :=
  {| axios_get := fun _ => Resolved 200 (JArr [example_issuer]); now := 1000 |}.

Definition registry_unavailable : Outside :=
  {| axios_get := fun _ => HttpError "Request failed with status code 503" 503;
     now := 2000 |}.

Definition registry_misses : Outside :=
  {| axios_get := fun _ => Resolved 200 (JArr []); now := 1500 |}.

(** A cache of two documents, one found and one missing. *)
Definition example_cache : gmap string EbsiCache.CacheEntry :=
  (checkThumbprintInBridge registry_misses "c2lnbmVkLWJ5LW5vYm9keQ" false
     (checkThumbprintInBridge registry_finds example_thumbprint false ∅).2).2.

(** ** Arithmetic of doubles

    The double nearest to the rational [p / q] for positive [p] and [q],
    ties to the even mantissa: the pair [(m, e)] stands for [m * 2^e],
    with [2^52 <= m <= 2^53]. *)
Definition nearest_double (p q : Z) : Z * Z :=
  let e0 := Z.log2 p - Z.log2 q - 52 in
  let scaled (e : Z) := (p * 2 ^ Z.max 0 (- e), q * 2 ^ Z.max 0 e) in
  let e := if (scaled e0).1 / (scaled e0).2 <? 2 ^ 52 then e0 - 1 else e0 in
  let '(num, den) := scaled e in
  let m := num / den in
  let r := num mod den in
  if (den <? 2 * r) || ((den =? 2 * r) && Z.odd m) then (m + 1, e) else (m, e).

(** [Math.round((size / previous) * 100)] for byte counts [0 <= size] and
    [0 < previous] below [2^53]: the quotient and the product are each
    rounded to the nearest double, and [Math.round] takes the integer
    nearest to the product, a half upwards. *)
Definition round_percent (size previous : Z) : Z :=
  if size <=? 0 then 0
  else
    let '(m, e) := nearest_double size previous in
    let '(m', e') :=
      nearest_double (100 * m * 2 ^ Z.max 0 e) (2 ^ Z.max 0 (- e)) in
    (2 * m' * 2 ^ Z.max 0 e' + 2 ^ Z.max 0 (- e')) / (2 * 2 ^ Z.max 0 (- e')).

(** A scanned text for the examples: the BASE45 text of the zlib stream
    of a token whose key identifier carries the example thumbprint. The
    stand-in for the decoders knows this one text. *)
Definition example_header_b64 : string :=
  "eyJhbGciOiJSUzI1NiIsInR5cCI6IkpXVCIsImtpZCI6IkVFU1NJOng1dCNTMjU2OkRQTlRQYkNrWUJFWXovWnVjQnRiOGVtSFlEUFhaRG52MUtmMmYvaUwrMGc9In0".
Definition example_payload_b64 : string :=
  "eyJpc3MiOiJodHRwczovL2lzc3Vlci5leGFtcGxlL0JFL2luc3RpdHV0aW9uIn0".

Definition example_token : string :=
  example_header_b64 +:+ "." +:+ example_payload_b64 +:+ ".c2ln".

Definition example_header : js_value :=
  JObj [("alg", JStr "RS256"); ("typ", JStr "JWT");
        ("kid", JStr ("EESSI:x5t#S256:" +:+ example_thumbprint))].

Definition example_jwtDecoded : js_value :=
  JObj [("header", example_header);
        ("payload", JObj [("iss", JStr "https://issuer.example/BE/institution")]);
        ("signature", JStr "c2ln")].

Definition example_deflated : list Byte.byte :=
  [Byte.x78; Byte.xda; Byte.x1d; Byte.x8d; Byte.xdd; Byte.x0e; Byte.x82; Byte.x20;
   Byte.x18; Byte.x40; Byte.xdf; Byte.xa8; Byte.xf9; Byte.x33; Byte.xdb; Byte.xba;
   Byte.x76; Byte.x41; Byte.x30; Byte.x91; Byte.x89; Byte.x82; Byte.xd5; Byte.x9d;
   Byte.x7d; Byte.xba; Byte.x42; Byte.x11; Byte.x9d; Byte.xa1; Byte.x96; Byte.x4f;
   Byte.xdf; Byte.xcf; Byte.xe5; Byte.x39; Byte.xdb; Byte.xd9; Byte.x69; Byte.xde;
   Byte.xf4; Byte.x71; Byte.xc3; Byte.xa0; Byte.xb9; Byte.xa6; Byte.xb9; Byte.xdc;
   Byte.x88; Byte.x9f; Byte.x6a; Byte.xf2; Byte.x24; Byte.x56; Byte.x44; Byte.x10;
   Byte.x93; Byte.x3d; Byte.xe9; Byte.xc6; Byte.xb3; Byte.x8a; Byte.xbf; Byte.xdc;
   Byte.xbb; Byte.xf1; Byte.xfa; Byte.x67; Byte.x85; Byte.xa4; Byte.x9f; Byte.x52;
   Byte.x6e; Byte.xef; Byte.x7e; Byte.x1d; Byte.xa7; Byte.x05; Byte.x6b; Byte.x65;
   Byte.xc0; Byte.x3b; Byte.x91; Byte.x15; Byte.x46; Byte.x64; Byte.x97; Byte.x2e;
   Byte.x9d; Byte.x4a; Byte.x49; Byte.x51; Byte.x79; Byte.x1e; Byte.x96; Byte.xd2;
   Byte.xaa; Byte.x36; Byte.xb3; Byte.x42; Byte.x73; Byte.xac; Byte.x5c; Byte.x8e;
   Byte.xcc; Byte.x51; Byte.xa2; Byte.x47; Byte.x25; Byte.x70; Byte.x14; Byte.x30;
   Byte.xe9; Byte.x7a; Byte.xd6; Byte.x5f; Byte.x96; Byte.x4a; Byte.xae; Byte.x13;
   Byte.xc3; Byte.x70; Byte.x20; Byte.xd6; Byte.xdb; Byte.x35; Byte.x6f; Byte.x3a;
   Byte.x42; Byte.xc8; Byte.x7e; Byte.xff; Byte.xa1; Byte.x3e; Byte.x89; Byte.x15;
   Byte.xb6; Byte.x61; Byte.x49; Byte.x02; Byte.xb3; Byte.x41; Byte.xa8; Byte.x0c;
   Byte.xe8; Byte.xc8; Byte.x34; Byte.x18; Byte.x39; Byte.xc0; Byte.x2f; Byte.x93;
   Byte.x78; Byte.x14; Byte.x7d; Byte.xfd; Byte.x0c; Byte.xa1; Byte.x18; Byte.xeb;
   Byte.x93; Byte.xf2; Byte.xaa; Byte.xf2; Byte.x30; Byte.xff; Byte.x7a; Byte.x08;
   Byte.x8c; Byte.xfd; Byte.x00; Byte.xbd; Byte.x5c; Byte.x42; Byte.xe4].

Definition example_scan : string :=
  "NCF5X3P.RCKG/23GCSUMV0ZRX.ED66CHHA0RB+F%F8X-J40JADS1:SVZRCHDR+U+WO6LNFMNACHINDWQ49R8SRI-OTHVMLBO8YNNTVC+GG6K41EK.F75L/PDQDOGFIK+825J *J4C91EF03JENLZTM2SEOVBF$P8NK:W4%O2ANTO4R::ID0M$VO 642WRY2E-J8L2GDHK%EHO2NFA9YTM0BLCJTGQ6OD7T0658FX-F%Q1Y63TVIMRLX86AJF3$H940%TB35".

(** A second text, which is BASE45 and decodes to bytes that are not a
    zlib stream. *)
Definition example_not_deflated : string := "BB8".

#[local] Instance example_decoders : Decoders := {|
  base45_decode s :=
    if String.eqb s example_scan then inr example_deflated
    else if String.eqb s example_not_deflated then inr [Byte.x41; Byte.x42]
    else inl (ErrorObject (JsError "Invalid base45 string"));
  pako_inflate bytes :=
    if String.eqb (hex_of_bytes bytes) (hex_of_bytes example_deflated)
    then inr example_token
    else inl (Primitive "incorrect header check");
  jwt_decode s :=
    inr (if String.eqb s example_token then example_jwtDecoded else JNull);
  percent_of := round_percent
|}.

(** Tokens for the examples, and a stand-in for Node's [Buffer] and
    [crypto] on them: the header segments decode to the JSON shown, every
    other segment is not JSON; no key converts and no signature
    verifies. *)
Definition hs256_header_b64 : string := "eyJhbGciOiJIUzI1NiIsInR5cCI6IkpXVCJ9".
Definition hs256_header : js_value :=
  JObj [("alg", JStr "HS256"); ("typ", JStr "JWT")].

Definition no_alg_header_b64 : string := "eyJ0eXAiOiJKV1QifQ".
Definition no_alg_header : js_value := JObj [("typ", JStr "JWT")].

(** A header whose [alg] is the empty string. *)
Definition empty_alg_header_b64 : string := "eyJhbGciOiIiLCJ0eXAiOiJKV1QifQ".
Definition empty_alg_header : js_value :=
  JObj [("alg", JStr ""); ("typ", JStr "JWT")].

(** Two headers whose key identifier is a number, with and without
    [alg]. *)
Definition numeric_kid_header_b64 : string :=
  "eyJhbGciOiJIUzI1NiIsInR5cCI6IkpXVCIsImtpZCI6N30".
Definition numeric_kid_header : js_value :=
  JObj [("alg", JStr "HS256"); ("typ", JStr "JWT"); ("kid", JNum 7)].

Definition no_alg_numeric_kid_header_b64 : string := "eyJ0eXAiOiJKV1QiLCJraWQiOjd9".
Definition no_alg_numeric_kid_header : js_value :=
  JObj [("typ", JStr "JWT"); ("kid", JNum 7)].


#[local] Instance example_crypto : NodeCrypto := {|
  parse_base64url_json s :=
    if String.eqb s hs256_header_b64 then inr hs256_header
    else if String.eqb s no_alg_header_b64 then inr no_alg_header
    else if String.eqb s example_header_b64 then inr example_header
    else if String.eqb s numeric_kid_header_b64 then inr numeric_kid_header
    else inl (JsError "Unexpected end of JSON input");
  Buffer_from_base64url _ := [];
  rsa_jwk_to_pem _ _ := inl (JsError "Invalid JWK data");
  x509_public_key_pem _ := inl (JsError "error:0480006C:PEM routines::no start line");
  rsa_sha256_verify _ _ _ := inr false
|}.

(** A second stand-in, for a run in which the key converts and the
    signature verifies, and a registry response of the shape the validator
    reads. *)
Definition accepting_crypto : NodeCrypto := {|
  parse_base64url_json s :=
    if String.eqb s example_header_b64 then inr example_header
    else if String.eqb s no_alg_header_b64 then inr no_alg_header
    else if String.eqb s empty_alg_header_b64 then inr empty_alg_header
    else if String.eqb s no_alg_numeric_kid_header_b64
    then inr no_alg_numeric_kid_header
    else inl (JsError "Unexpected end of JSON input");
  Buffer_from_base64url _ := [Byte.xb2; Byte.x28; Byte.x20];
  rsa_jwk_to_pem _ _ := inr "-----BEGIN PUBLIC KEY-----";
  x509_public_key_pem _ := inl (JsError "error:0480006C:PEM routines::no start line");
  rsa_sha256_verify _ _ _ := inr true
|}.

Definition example_results : js_value :=
  JObj [("results",
         JArr [JObj [("officialId", JStr "0001"); ("countryCode", JStr "BE");
                     ("publicKeys",
                      JArr [JObj [("kty", JStr "RSA"); ("n", JStr "sXchDaQebHnPiGvyDOAT4saGEUetSyo9MKLOoWFsueri23bOdgWp4Dy1WlUzewbgBHod5pcM9H95GQRV3JDXboIRROSBigeC5yjU1hGzHHyXss8UDprecbAYxknTcQkhslANGRUZmdTOQ5qTRsLAt6BTYuyvVRdhS8exSZEy_c4gs_7svlJJQ4H9_NxsiIoLwAEk7-Q3UXERGYw_75IDrGA84-lA_-Ct4eTlXHBIY2EaV7t7LjJaynVJCpkv4LKjTTAumiGUIuQhrNhZLuF_RJLqHpM2kgWFLU7-VTdL1VbC2tejvcI2BlMkEpk1BzBZI0KQB0GaDWFLN-aEAw3vRw"); ("e", JStr "AQAB")]])]])].

(** A document whose [found] is [true], as the schema reads it, holds
    the non-empty array that the registry answered. *)
Definition found_consistent (entry : EbsiCache.CacheEntry) : bool :=
  match EbsiCache.castBoolean (EbsiCache.found entry),
        EbsiCache.ebsiResponse entry with
  | Some (JBool true), JArr (_ :: _) => true
  | Some (JBool true), _ => false
  | _, _ => true
  end.

Definition cache_found_consistent (db : gmap string EbsiCache.CacheEntry) : Prop :=
  map_Forall (fun _ e => found_consistent e = true) db.

(** ** Reference comparison (scanRoutes.js, compareStrings) *)

(** [Buffer.from(s, 'utf8')] on code units below 256: one byte below 128,
    two bytes from 128 on. *)
Definition utf8_of_char (a : ascii) : list Byte.byte :=
  match a with
  | Ascii b0 b1 b2 b3 b4 b5 b6 false => [byte_of_ascii a]
  | Ascii b0 b1 b2 b3 b4 b5 b6 true =>
      [if b6 then Byte.xc3 else Byte.xc2;
       byte_of_ascii (Ascii b0 b1 b2 b3 b4 b5 false true)]
  end.

Fixpoint utf8 (s : string) : list Byte.byte :=
  match s with
  | EmptyString => []
  | String a r => utf8_of_char a ++ utf8 r
  end.

Module Compare.

Record Difference := {
  position : nat;
  expected : string;
  actual : string
}.

(** [similarity] is [None] for [NaN], the value of [0 / 0]. *)
Record t := {
  isMatch : bool;
  differences : list Difference;
  similarity : option Z
}.

End Compare.

(** [b ? b.toString(16).padStart(2, '0') : 'missing'], where [b] is a byte
    or [null]: the byte 0 is falsy. *)
Definition byte_label (b : option Byte.byte) : string :=
  match b with
  | Some b =>
      let n := N.to_nat (Byte.to_N b) in
      if (n =? 0)%nat then "missing"
      else String (hex_digit (n / 16)) (String (hex_digit (n mod 16)) EmptyString)
  | None => "missing"
  end.

(** [refByte === scanByte]. *)
Definition same_byte (x y : option Byte.byte) : bool :=
  match x, y with
  | Some a, Some b => Byte.eqb a b
  | None, None => true
  | _, _ => false
  end.

(** One turn of the loop, on the counter [matches] and the array
    [differences]. *)
Definition compare_at (refBytes scanBytes : list Byte.byte)
    (state : nat * list Compare.Difference) (i : nat)
  : nat * list Compare.Difference :=
  let refByte := refBytes !! i in
  let scanByte := scanBytes !! i in
  if same_byte refByte scanByte then (S state.1, state.2)
  else (state.1,
        state.2 ++ [ {| Compare.position := i;
                        Compare.expected := byte_label refByte;
                        Compare.actual := byte_label scanByte |} ]).

Section Comparison.

Context `{Decoders}.

Definition compareStrings (reference scanned : string) : Compare.t :=
  let refBytes := utf8 reference in
  let scanBytes := utf8 scanned in
  let maxLength := Nat.max (length refBytes) (length scanBytes) in
  let '(matches, differences) :=
    foldl (compare_at refBytes scanBytes) (0%nat, []) (seq 0 maxLength) in
  {| Compare.isMatch := (length differences =? 0)%nat;
     Compare.differences := differences;
     Compare.similarity :=
       if (maxLength =? 0)%nat then None
       else Some (percent_of (Z.of_nat matches) (Z.of_nat maxLength)) |}.

End Comparison.

(** ** References and scans (models/Reference.js, models/Scan.js and the
    routes of scanRoutes.js on them)

    A collection is the list of its documents in the order of insertion. *)

Module Reference.

Record t := {
  content : string;
  name : string;
  createdAt : Z;
  isActive : bool
}.

Definition deactivate (r : t) : t :=
  {| content := content r; name := name r; createdAt := createdAt r;
     isActive := false |}.

(** [updateMany({}, { isActive: false })]. *)
Definition deactivateAll (references : list t) : list t :=
  deactivate <$> references.

(** [findOne({ isActive: true })]. *)
Definition findActive (references : list t) : option t :=
  List.find isActive references.

End Reference.

Module Scan.

(** [verification.verificationResult], as [updateScanVerification] assigns
    it. *)
Inductive VerificationResult :=
| Success (steps : list (string * Z * Z))
| Failure (message : option string) (step : string).

Record Verification := {
  isVerified : bool;
  verifiedAt : option Z;
  verificationResult : option VerificationResult;
  verificationCount : Z
}.

(** [referenceComparison] is [None] for [{ hasReference: false }] and
    holds [referenceContent] and the comparison otherwise. *)
Record t := {
  content : string;
  type : string;
  scannedAt : Z;
  deviceInfo : option string;
  isDuplicate : bool;
  duplicateCount : Z;
  firstScannedAt : Z;
  referenceComparison : option (string * Compare.t);
  verification : Verification
}.

(** [findOne({ content }).sort({ scannedAt: -1 })]: the position and the
    document with the latest [scannedAt] among those of this content, the
    first of them in the collection when several share it. *)
Fixpoint findLatestFrom (i : nat) (best : option (nat * t)) (c : string)
    (scans : list t) : option (nat * t) :=
  match scans with
  | [] => best
  | s :: rest =>
      let best' :=
        if String.eqb (content s) c then
          match best with
          | Some (_, b) => if scannedAt b <? scannedAt s then Some (i, s) else best
          | None => Some (i, s)
          end
        else best in
      findLatestFrom (S i) best' c rest
  end.

Definition findLatest (c : string) (scans : list t) : option (nat * t) :=
  findLatestFrom 0 None c scans.

(** The documents matched by the query [{ content }]. *)
Definition withContent (c : string) (scans : list t) : list t :=
  List.filter (fun s => String.eqb (content s) c) scans.

End Scan.

Record Collections := {
  references : list Reference.t;
  scans : list Scan.t
}.

Inductive request :=
| PostScan (content : string) (type deviceInfo : option string)
| PostReference (content : string) (name : option string)
| GetReference
| DeleteReference.

Inductive response :=
| ScanSaved (message : string) (scan : Scan.t) (isDuplicate : bool)
    (duplicateCount : Z) (referenceComparison : option (string * Compare.t))
| ReferenceSaved (reference : Reference.t)
| ReferenceFound (reference : option Reference.t)
| ReferenceCleared
| Failed (error : string).

Section Routes.

Context `{Decoders}.

(** [router.post('/api/scans')] on a body with a string [content], at the
    time [now]. A document whose [content] is empty does not pass the
    [required] validator of the schema: [save] throws and the route
    answers 500. *)
Definition postScan (now : Z) (content : string) (type deviceInfo : option string)
    (db : Collections) : response * Collections :=
  let reference := Reference.findActive (references db) in
  let referenceComparison :=
    match reference with
    | Some r => Some (Reference.content r, compareStrings (Reference.content r) content)
    | None => None
    end in
  match Scan.findLatest content (scans db) with
  | Some (i, existingScan) =>
      let existingScan' :=
        {| Scan.content := Scan.content existingScan;
           Scan.type := Scan.type existingScan;
           Scan.scannedAt := now;
           Scan.deviceInfo := deviceInfo;
           Scan.isDuplicate := true;
           Scan.duplicateCount := Scan.duplicateCount existingScan + 1;
           Scan.firstScannedAt := Scan.firstScannedAt existingScan;
           Scan.referenceComparison := referenceComparison;
           Scan.verification := Scan.verification existingScan |} in
      if String.eqb (Scan.content existingScan') "" then
        (Failed "Failed to save scan", db)
      else
        (ScanSaved "Duplicate scan updated" existingScan' true
           (Scan.duplicateCount existingScan') referenceComparison,
         {| references := references db;
            scans := <[i := existingScan']> (scans db) |})
  | None =>
      let scan :=
        {| Scan.content := content;
           Scan.type := match type with Some t => t | None => "text" end;
           Scan.scannedAt := now;
           Scan.deviceInfo := deviceInfo;
           Scan.isDuplicate := false;
           Scan.duplicateCount := 1;
           Scan.firstScannedAt := now;
           Scan.referenceComparison := referenceComparison;
           Scan.verification :=
             {| Scan.isVerified := false;
                Scan.verifiedAt := None;
                Scan.verificationResult := None;
                Scan.verificationCount := 0 |} |} in
      if String.eqb (Scan.content scan) "" then
        (Failed "Failed to save scan", db)
      else
        (ScanSaved "New scan saved successfully" scan false 1 referenceComparison,
         {| references := references db; scans := scans db ++ [scan] |})
  end.

(** [router.post('/api/reference')]: the references are deactivated
    before the new one is validated and saved. *)
Definition postReference (now : Z) (content : string) (name : option string)
    (db : Collections) : response * Collections :=
  let deactivated := Reference.deactivateAll (references db) in
  let reference :=
    {| Reference.content := content;
       Reference.name :=
         match name with
         | Some n => if String.eqb n "" then "Reference QR Code" else n
         | None => "Reference QR Code"
         end;
       Reference.createdAt := now;
       Reference.isActive := true |} in
  if String.eqb content "" then
    (Failed "Failed to save reference",
     {| references := deactivated; scans := scans db |})
  else
    (ReferenceSaved reference,
     {| references := deactivated ++ [reference]; scans := scans db |}).

(** [router.get('/api/reference')]. *)
Definition getReference (db : Collections) : response * Collections :=
  (ReferenceFound (Reference.findActive (references db)), db).

(** [router.delete('/api/reference')]. *)
Definition deleteReference (db : Collections) : response * Collections :=
  (ReferenceCleared,
   {| references := Reference.deactivateAll (references db); scans := scans db |}).

Definition handle (now : Z) (req : request) (db : Collections)
  : response * Collections :=
  match req with
  | PostScan content type deviceInfo => postScan now content type deviceInfo db
  | PostReference content name => postReference now content name db
  | GetReference => getReference db
  | DeleteReference => deleteReference db
  end.

(** Requests served one after the other, each at its time. *)
Fixpoint serve (reqs : list (Z * request)) (db : Collections)
  : list response * Collections :=
  match reqs with
  | [] => ([], db)
  | (now, req) :: rest =>
      let '(r, db') := handle now req db in
      let '(rs, db'') := serve rest db' in
      (r :: rs, db'')
  end.

End Routes.

(** The invariant of the collection of scans: no two documents have the
    same content, and a document is marked as a duplicate when its count
    is above one. *)
Definition scans_wf (scans : list Scan.t) : Prop :=
  (forall c, (length (Scan.withContent c scans) <= 1)%nat)
  /\ Forall (fun s => 1 <= Scan.duplicateCount s
                      /\ Scan.isDuplicate s = (1 <? Scan.duplicateCount s)) scans.

(** The number of requests of a run that post the scan [c]. *)
Definition posts_of (c : string) (reqs : list (Z * request)) : Z :=
  Z.of_nat (length (List.filter
    (fun q => match q.2 with
              | PostScan content _ _ => String.eqb content c
              | _ => false
              end) reqs)).

(** ** Verification route (scanRoutes.js, router.post('/api/verify') and
    updateScanVerification) *)

(** The answer: the trace, or status 500 with [message] ([None] when
    [error.message] is [undefined] and the property is left out of the
    JSON text) and [step]. *)
Inductive verify_response :=
| Verified (steps : list Step.t)
| VerificationFailed (message : option string) (step : string).

(** [updateScanVerification(content, result, error)] at the time [now]:
    the outcome is the result of the pipeline or the value it threw, with
    its [step]. A thrown value that is falsy leaves the stored result as
    it is. A failing [save] is caught and logged. *)
Definition updateScanVerification (now : Z) (content : string)
    (outcome : failure + list Step.t) (scans : list Scan.t)
  : list Scan.t :=
  match Scan.findLatest content scans with
  | Some (i, scan) =>
      let verification :=
        {| Scan.isVerified := true;
           Scan.verifiedAt := Some now;
           Scan.verificationResult :=
             match outcome with
             | inr steps =>
                 Some (Scan.Success
                         ((fun step => (Step.name step, Step.size step,
                                        Step.percentage step)) <$> steps))
             | inl (error, step) =>
                 if exception_truthy error
                 then Some (Scan.Failure (exception_message error)
                              (step_or_unknown step))
                 else Scan.verificationResult (Scan.verification scan)
             end;
           Scan.verificationCount :=
             Scan.verificationCount (Scan.verification scan) + 1 |} in
      let scan' :=
        {| Scan.content := Scan.content scan;
           Scan.type := Scan.type scan;
           Scan.scannedAt := Scan.scannedAt scan;
           Scan.deviceInfo := Scan.deviceInfo scan;
           Scan.isDuplicate := Scan.isDuplicate scan;
           Scan.duplicateCount := Scan.duplicateCount scan;
           Scan.firstScannedAt := Scan.firstScannedAt scan;
           Scan.referenceComparison := Scan.referenceComparison scan;
           Scan.verification := verification |} in
      if String.eqb (Scan.content scan') "" then scans
      else <[i := scan']> scans
  | None => scans
  end.

Section VerifyRoute.

Context `{Decoders} `{NodeCrypto}.

(** The route on a body whose [data] is a string: the answer, the scans
    and the trust cache after it. *)
Definition postVerify (w : Outside) (now : Z) (data : string)
    (scans : list Scan.t) (db : gmap string EbsiCache.CacheEntry)
  : verify_response * list Scan.t * gmap string EbsiCache.CacheEntry :=
  let '(outcome, db') := processVerificationData w data db in
  (match outcome with
   | inr steps => Verified steps
   | inl (error, step) =>
       VerificationFailed (exception_message error) (step_or_unknown step)
   end,
   updateScanVerification now data outcome scans,
   db').

End VerifyRoute.

(** ** Certificate batch check (scanRoutes.js,
    processCertificatesWithProgress and the functions it calls) *)

(** [s.startsWith(p)]. *)
Fixpoint startsWith (p s : string) : bool :=
  match p with
  | EmptyString => true
  | String a p' =>
      match s with
      | EmptyString => false
      | String b s' => Ascii.eqb a b && startsWith p' s'
      end
  end.

(** [s.endsWith(p)]: [p] is [s] or the end of what follows its first
    character. *)
Fixpoint endsWith (p s : string) : bool :=
  String.eqb s p
  || match s with
     | EmptyString => false
     | String _ r => endsWith p r
     end.

(** [s.replace(/pat/g, rep)] for a pattern without special characters,
    which is not empty: an occurrence is replaced and the search goes on
    behind it; [skip] counts the characters of an occurrence still to be
    passed over. *)
Fixpoint replace_from (pat rep : string) (skip : nat) (s : string) : string :=
  match s with
  | EmptyString => EmptyString
  | String a r =>
      match skip with
      | S k => replace_from pat rep k r
      | O =>
          if startsWith pat s
          then rep +:+ replace_from pat rep (String.length pat - 1) r
          else String a (replace_from pat rep 0 r)
      end
  end.

Definition replaceSub (pat rep s : string) : string := replace_from pat rep 0 s.

Definition carriage_return : string := String "013"%char EmptyString.
Definition pem_header : string := "-----BEGIN CERTIFICATE-----".
Definition pem_footer : string := "-----END CERTIFICATE-----".

(** The hash of Node's [crypto] on the decoded certificate:
    [createHash('sha256').update(Buffer.from(data, 'base64')).digest()
    .toString('base64')]. Neither [Buffer.from] nor the hash throws. *)
Class NodeHash := {
  sha256_of_base64 : string -> string
}.

Module CertificateResult.
Record t := {
  officialId : js_value;
  countryCode : js_value;
  name : js_value;
  thumbprint : string;
  found : js_value;
  error : option string
}.
End CertificateResult.

Module Summary.
Record t := {
  totalInFile : nat;
  foundInBridge : nat;
  missingFromBridge : nat;
  inBridgeNotInFile : nat;
  bridgeOnlyThumbprints : list string
}.
End Summary.

Record Report := {
  certificates : list CertificateResult.t;
  summary : Summary.t
}.

Definition certFields : list string :=
  ["certificate"; "cert"; "pem"; "x509Certificate"; "Certificate"; "certificates"].

(** The loop over [certFields]: the value of the first field of the
    object that is truthy. *)
Definition certificateField (cert : js_value) : option js_value :=
  List.find truthy (List.map (prop cert) certFields).

(** The certificate text taken from that value, [None] for [null] and
    [undefined]. The debug log that follows calls [startsWith] on it, a
    method of strings only. *)
Definition pemOfField (field : js_value) : thrown + option string :=
  match field with
  | JArr _ =>
      match first_elem field with
      | JUndefined | JNull => inr None
      | JStr pem => inr (Some pem)
      | _ => inl (JsTypeError "pemCertificate?.startsWith is not a function")
      end
  | JStr pem => inr (Some pem)
  | _ => inl (JsTypeError "pemCertificate.startsWith is not a function")
  end.

(** Lines 1690-1698: escaped line breaks become line breaks, and the
    markers are put around a text that lacks them. *)
Definition cleanPem (pemCertificate : string) : string :=
  let cleanPem := replaceSub "\n" newline pemCertificate in
  let cleanPem :=
    if negb (startsWith pem_header cleanPem)
    then pem_header +:+ newline +:+ cleanPem else cleanPem in
  if negb (endsWith pem_footer cleanPem)
  then cleanPem +:+ newline +:+ pem_footer else cleanPem.

(** Lines 1596-1600. *)
Definition certificateData (pemCertificate : string) : string :=
  removeAll "013"
    (removeAll "010"
       (replaceSub pem_footer "" (replaceSub pem_header "" pemCertificate))).

Section Certificates.

Context `{NodeHash}.

Definition calculateCertificateThumbprint (pemCertificate : string) : string :=
  sha256_of_base64 (certificateData pemCertificate).

Definition calculateThumbprintFromCert (cert : js_value) : thrown + string :=
  match certificateField cert with
  | None => inl (JsError "No certificate field found in object")
  | Some field =>
      match pemOfField field with
      | inl error => inl error
      | inr None => inl (JsError "No certificate field found in object")
      | inr (Some pemCertificate) =>
          if String.eqb pemCertificate ""
          then inl (JsError "No certificate field found in object")
          else inr (calculateCertificateThumbprint (cleanPem pemCertificate))
      end
  end.

(** The function reads [cert.OFFICIALID] for its debug log before the
    [try]; the error of the [try] is thrown on. *)
Definition processCertificateWithBridgeLookup (w : Outside) (cert : js_value)
    (db : gmap string EbsiCache.CacheEntry)
  : (thrown + CertificateResult.t) * gmap string EbsiCache.CacheEntry :=
  match read cert "OFFICIALID" with
  | inl error => (inl error, db)
  | inr _ =>
      match calculateThumbprintFromCert cert with
      | inl error => (inl error, db)
      | inr thumbprint =>
          let '(found, db') := checkThumbprintInBridge w thumbprint false db in
          (inr {| CertificateResult.officialId :=
                    js_or (js_or (prop cert "OFFICIALID") (prop cert "officialId"))
                      (JStr "Unknown");
                  CertificateResult.countryCode :=
                    js_or (js_or (prop cert "COUNTRYCODE") (prop cert "countryCode"))
                      (JStr "Unknown");
                  CertificateResult.name :=
                    js_or (js_or (prop cert "NAME") (prop cert "name"))
                      (JStr "Unknown");
                  CertificateResult.thumbprint := thumbprint;
                  CertificateResult.found := found;
                  CertificateResult.error := None |},
           db')
      end
  end.

(** The arguments of the debug log at the head of the loop body, outside
    the [try]: [cert.OFFICIALID] and
    [cert.certificate ? cert.certificate.startsWith('-----BEGIN') : ...]. *)
Definition log_certData (cert : js_value) : thrown + unit :=
  match read cert "OFFICIALID" with
  | inl error => inl error
  | inr _ =>
      if truthy (prop cert "certificate") then
        match prop cert "certificate" with
        | JStr _ => inr tt
        | _ => inl (JsTypeError "cert.certificate.startsWith is not a function")
        end
      else inr tt
  end.

(** The row pushed by the [catch] of the loop. *)
Definition errorResult (cert : js_value) (error : thrown) : CertificateResult.t :=
  {| CertificateResult.officialId := js_or (prop cert "OFFICIALID") (JStr "Unknown");
     CertificateResult.countryCode := js_or (prop cert "COUNTRYCODE") (JStr "Unknown");
     CertificateResult.name := js_or (prop cert "NAME") (JStr "Unknown");
     CertificateResult.thumbprint := "Error";
     CertificateResult.found := JBool false;
     CertificateResult.error := Some (message_of error) |}.

(** The loop from the certificate of index [i] on; [ws i] is the world
    outside during the lookup of that certificate. *)
Fixpoint processEach (ws : nat -> Outside) (i : nat) (certs : list js_value)
    (results : list CertificateResult.t) (db : gmap string EbsiCache.CacheEntry)
  : (thrown + list CertificateResult.t) * gmap string EbsiCache.CacheEntry :=
  match certs with
  | [] => (inr results, db)
  | cert :: rest =>
      match log_certData cert with
      | inl error => (inl error, db)
      | inr _ =>
          let '(result, db') :=
            match processCertificateWithBridgeLookup (ws i) cert db with
            | (inr result, db') => (result, db')
            | (inl error, db') => (errorResult cert error, db')
            end in
          processEach ws (S i) rest (results ++ [result]) db'
      end
  end.

(** [processCertificatesWithProgress(certificates, sendProgress)]; the
    progress messages do not enter the result. *)
Definition processCertificatesWithProgress (ws : nat -> Outside)
    (certs : list js_value) (db : gmap string EbsiCache.CacheEntry)
  : (thrown + Report) * gmap string EbsiCache.CacheEntry :=
  match processEach ws 0 certs [] db with
  | (inl error, db') => (inl error, db')
  | (inr results, db') =>
      let totalCertificates := length results in
      let foundInBridge :=
        length (List.filter (fun r => truthy (CertificateResult.found r)) results) in
      let missingFromBridge := (totalCertificates - foundInBridge)%nat in
      (inr {| certificates := results;
              summary :=
                {| Summary.totalInFile := totalCertificates;
                   Summary.foundInBridge := foundInBridge;
                   Summary.missingFromBridge := missingFromBridge;
                   Summary.inBridgeNotInFile := 0;
                   Summary.bridgeOnlyThumbprints := [] |} |},
       db')
  end.

End Certificates.

(** A stand-in for the hash in the examples, and a small file of
    certificates. *)
#[local] Instance example_hash : NodeHash := {|
  sha256_of_base64 data :=
    if String.eqb data "MIIBszCCARygAwIBAgIJAOexample" then example_thumbprint
    else "47DEQpj8HBSa+/TImW+5JCeuQeRkm5NMpJWZG3hSuFU="
|}.

Definition example_certificates : list js_value :=
  [JObj [("OFFICIALID", JStr "0001"); ("COUNTRYCODE", JStr "BE");
         ("NAME", JStr "Example Institution");
         ("certificate", JStr "MIIBszCCARygAwIBAgIJAOexample")];
   JObj [("OFFICIALID", JStr "0002"); ("COUNTRYCODE", JStr "FR")];
   JObj [("officialId", JStr "0003");
         ("certificates",
          JArr [JStr "-----BEGIN CERTIFICATE-----\nMIIBszCCARygAwIBAgIJAOexample\n-----END CERTIFICATE-----"])]].

(* ===================================================================== *)
(** * Part II: properties                                                  *)
(* ===================================================================== *)

(** ** The thumbprint normalizer *)

Section NormalizerFacts.

Lemma b64_char_cases a :
  is_b64_char a = true ->
  a <> "="%char /\ a <> "-"%char /\ a <> "_"%char.
Proof.
  destruct a as [[] [] [] [] [] [] [] []]; vm_compute; intros H;
    try discriminate H; repeat split; discriminate.
Qed.

Lemma eqb_neq_false a c : a <> c -> Ascii.eqb a c = false.
Proof. intros H. apply Ascii.eqb_neq. exact H. Qed.

(** On the base64 alphabet the character map of the forward pass is undone
    by the character map of the backward pass. *)
Lemma char_map_inverse a :
  a <> "-"%char -> a <> "_"%char ->
  let u := (if Ascii.eqb (if Ascii.eqb a "+" then "-" else a) "/" then "_"
            else if Ascii.eqb a "+" then "-" else a)%char in
  (if Ascii.eqb (if Ascii.eqb u "-" then "+" else u) "_" then "/"
   else if Ascii.eqb u "-" then "+" else u)%char = a.
Proof.
  intros H1 H2.
  destruct a as [[] [] [] [] [] [] [] []]; vm_compute; try reflexivity;
    exfalso; (apply H1; reflexivity) || (apply H2; reflexivity).
Qed.

Lemma length_append_nat (s t : string) :
  String.length (s +:+ t) = (String.length s + String.length t)%nat.
Proof. induction s as [|a s IH]; simpl; [reflexivity | now rewrite IH]. Qed.

Lemma append_empty_r (s : string) : s +:+ "" = s.
Proof.
  induction s as [|a s IH]; [reflexivity|].
  change (String a (s +:+ "") = String a s). f_equal. exact IH.
Qed.

Lemma length_repeat_char c n : String.length (repeat_char c n) = n.
Proof. induction n as [|n IH]; simpl; [reflexivity | now rewrite IH]. Qed.

(** The two character-map passes of [base64UrlToBase64], applied to the
    output of [base64ToBase64Url], give back the input without its
    padding. *)
Lemma unmap_after_map s :
  well_padded s = true ->
  replaceAll "_" "/" (replaceAll "-" "+" (base64ToBase64Url s)) = removeAll "=" s.
Proof.
  unfold base64ToBase64Url.
  induction s as [|a r IH]; intros Hw; [reflexivity|].
  cbn [well_padded] in Hw.
  destruct (is_b64_char a) eqn:Ha.
  - destruct (b64_char_cases a Ha) as (Heq & Hd & Hu).
    cbn [replaceAll removeAll].
    assert (Hm : Ascii.eqb
              (if Ascii.eqb (if Ascii.eqb a "+" then "-" else a) "/" then "_"
               else if Ascii.eqb a "+" then "-" else a)%char "=" = false).
    { destruct a as [[] [] [] [] [] [] [] []]; vm_compute; try reflexivity;
        exfalso; apply Heq; reflexivity. }
    rewrite Hm, (eqb_neq_false _ _ Heq). cbn [replaceAll].
    rewrite (char_map_inverse a Hd Hu). f_equal. apply IH, Hw.
  - apply andb_true_iff in Hw as [Ha' Hr].
    apply Ascii.eqb_eq in Ha'. subst a.
    apply orb_true_iff in Hr as [Hr|Hr]; apply String.eqb_eq in Hr; subst r;
      reflexivity.
Qed.

(** A well padded string is its body followed by its padding, of at most
    two characters. *)
Lemma well_padded_split s :
  well_padded s = true ->
  exists k, (k <= 2)%nat /\ s = removeAll "=" s +:+ repeat_char "=" k.
Proof.
  induction s as [|a r IH]; intros Hw.
  - exists 0%nat. split; [lia | reflexivity].
  - cbn [well_padded] in Hw. destruct (is_b64_char a) eqn:Ha.
    + destruct (IH Hw) as (k & Hk & Hs). exists k. split; [exact Hk|].
      destruct (b64_char_cases a Ha) as (Heq & _).
      cbn [removeAll]. rewrite (eqb_neq_false _ _ Heq).
      change (String a r = String a (removeAll "=" r +:+ repeat_char "=" k)).
      f_equal. exact Hs.
    + apply andb_true_iff in Hw as [Ha' Hr].
      apply Ascii.eqb_eq in Ha'. subst a.
      apply orb_true_iff in Hr as [Hr|Hr]; apply String.eqb_eq in Hr; subst r.
      * exists 1%nat. split; [lia | reflexivity].
      * exists 2%nat. split; [lia | reflexivity].
Qed.

Lemma base64_round_trip s :
  is_standard_base64 s = true ->
  base64UrlToBase64 (base64ToBase64Url s) = s.
Proof.
  unfold is_standard_base64. intros H.
  apply andb_true_iff in H as [Hw Hlen]. apply Nat.eqb_eq in Hlen.
  unfold base64UrlToBase64. rewrite (unmap_after_map s Hw).
  destruct (well_padded_split s Hw) as (k & Hk & Hs).
  set (b := removeAll "=" s) in *.
  assert (Hl : String.length s = (String.length b + k)%nat).
  { rewrite Hs at 1. rewrite length_append_nat, length_repeat_char. reflexivity. }
  rewrite Hl in Hlen.
  assert (Hk' : k = 0%nat \/ k = 1%nat \/ k = 2%nat) by lia.
  pose proof (Nat.div_mod_eq (String.length b) 4) as Hb.
  pose proof (Nat.mod_upper_bound (String.length b) 4 ltac:(lia)) as Hub.
  pose proof (Nat.div_mod_eq (String.length b + k) 4) as Hbk.
  rewrite Hlen in Hbk.
  destruct Hk' as [-> | [-> | ->]].
  - replace (String.length b mod 4)%nat with 0%nat by lia. cbn.
    symmetry. etransitivity; [exact Hs|]. apply append_empty_r.
  - replace (String.length b mod 4)%nat with 3%nat by lia. cbn.
    symmetry. exact Hs.
  - replace (String.length b mod 4)%nat with 2%nat by lia. cbn.
    symmetry. exact Hs.
Qed.

Lemma well_padded_no_url_chars s :
  well_padded s = true -> hasBase64UrlChars s = false.
Proof.
  unfold hasBase64UrlChars.
  induction s as [|a r IH]; intros Hw; [reflexivity|].
  cbn [well_padded] in Hw. cbn [includes].
  destruct (is_b64_char a) eqn:Ha.
  - destruct (b64_char_cases a Ha) as (_ & Hd & Hu).
    rewrite (eqb_neq_false _ _ Hd), (eqb_neq_false _ _ Hu). cbn.
    apply IH, Hw.
  - apply andb_true_iff in Hw as [Ha' Hr].
    apply Ascii.eqb_eq in Ha'. subst a.
    apply orb_true_iff in Hr as [Hr|Hr]; apply String.eqb_eq in Hr; subst r;
      reflexivity.
Qed.

Lemma url_form_has_no_standard_marker t :
  hasBase64Chars (base64ToBase64Url t) = false.
Proof.
  unfold hasBase64Chars, base64ToBase64Url.
  induction t as [|a r IH]; [reflexivity|].
  apply orb_false_iff in IH as [IH Heq]. apply orb_false_iff in IH as [Hp Hs].
  cbn [replaceAll removeAll].
  destruct a as [[] [] [] [] [] [] [] []]; cbn -[replaceAll removeAll];
    rewrite ?Hp, ?Hs, ?Heq; reflexivity.
Qed.

(** The source's tests and conversion against the words of the
    specification. *)
Lemma includes_existsb (c : ascii) (t : string) :
  includes c t = existsb (fun a => Ascii.eqb a c) (list_ascii_of_string t).
Proof.
  induction t as [|a r IH]; [reflexivity|]. cbn. rewrite IH. reflexivity.
Qed.

Lemma existsb_cons {A} (f : A -> bool) (a : A) (l : list A) :
  existsb f (a :: l) = f a || existsb f l.
Proof. reflexivity. Qed.

Lemma hasBase64Chars_spec (t : string) :
  hasBase64Chars t = spec_contains standard_markers t.
Proof.
  unfold hasBase64Chars, spec_contains, standard_markers.
  rewrite !includes_existsb.
  induction (list_ascii_of_string t) as [|a r IH]; [reflexivity|].
  rewrite !existsb_cons, <- IH. cbn [existsb].
  destruct (Ascii.eqb a "+"), (Ascii.eqb a "/"), (Ascii.eqb a "=");
    cbn [orb]; rewrite ?orb_true_r; try reflexivity;
    destruct (existsb (fun a => Ascii.eqb a "+") r),
             (existsb (fun a => Ascii.eqb a "/") r); reflexivity.
Qed.

Lemma hasBase64UrlChars_spec (t : string) :
  hasBase64UrlChars t = spec_contains url_safe_markers t.
Proof.
  unfold hasBase64UrlChars, spec_contains, url_safe_markers.
  rewrite !includes_existsb.
  induction (list_ascii_of_string t) as [|a r IH]; [reflexivity|].
  rewrite !existsb_cons, <- IH. cbn [existsb].
  destruct (Ascii.eqb a "-"), (Ascii.eqb a "_"); cbn [orb];
    rewrite ?orb_true_r; try reflexivity;
    destruct (existsb (fun a => Ascii.eqb a "-") r); reflexivity.
Qed.

Lemma base64ToBase64Url_spec (t : string) :
  base64ToBase64Url t = spec_toUrlSafe t.
Proof.
  unfold base64ToBase64Url, spec_toUrlSafe.
  induction t as [|a r IH]; [reflexivity|].
  cbn [replaceAll removeAll list_ascii_of_string List.filter].
  destruct (Ascii.eqb a "+") eqn:Hp.
  - apply Ascii.eqb_eq in Hp. subst a. cbn. rewrite IH. reflexivity.
  - destruct (Ascii.eqb a "/") eqn:Hs.
    + apply Ascii.eqb_eq in Hs. subst a. cbn. rewrite IH. reflexivity.
    + destruct (Ascii.eqb a "=") eqn:He; cbn [negb List.map string_of_list_ascii].
      * exact IH.
      * rewrite Hp, Hs, IH. reflexivity.
Qed.

End NormalizerFacts.

(** C3. For every standard-base64 string [s] that contains at least one of
    [+], [/], [=], the normalizer takes branch (1), and converting [s] to
    the URL-safe form and back (reverse character map, re-padding to a
    multiple of four characters) gives [s] again, character for
    character. *)
Theorem normalizer_round_trip (s : string) :
  is_standard_base64 s = true ->
  hasBase64Chars s = true ->
  base64UrlToBase64 (base64ToBase64Url s) = s
  /\ conversionApplied (normalizeThumbprintForEbsi s) = "base64-to-base64url"
  /\ base64UrlToBase64 (normalized (normalizeThumbprintForEbsi s)) = s.
Proof.
  intros Hstd Hmark.
  pose proof (base64_round_trip s Hstd) as Hrt.
  assert (Hurl : hasBase64UrlChars s = false).
  { apply well_padded_no_url_chars.
    unfold is_standard_base64 in Hstd.
    apply andb_true_iff in Hstd as [Hw _]. exact Hw. }
  unfold normalizeThumbprintForEbsi. rewrite Hmark, Hurl. cbn.
  repeat split; assumption.
Qed.

(** The round trip on the thumbprint of the source's own example key
    identifier (scanRoutes.js, line 1100). *)
Lemma normalizer_round_trip_witness :
  is_standard_base64 example_thumbprint = true
  /\ hasBase64Chars example_thumbprint = true
  /\ base64UrlToBase64 (base64ToBase64Url example_thumbprint) = example_thumbprint.
Proof.
  split; [vm_compute; reflexivity|]. split; [vm_compute; reflexivity|].
  refine (proj1 (normalizer_round_trip example_thumbprint _ _));
    vm_compute; reflexivity.
Defined.

(** C4. The normalizer follows the four-branch policy of the
    specification and reports the branch in [conversionApplied]: with a
    standard marker ([+], [/], [=]) and no URL-safe marker ([-], [_]) the
    output is the input without [=], with [+] mapped to [-] and [/] to
    [_]; with a URL-safe marker only, with no marker, or with markers of
    both kinds, the output is the input, the last case under the label of
    a mixed encoding. The four labels tell the branches apart, and the
    input is echoed in [original]. *)
Theorem normalizer_policy (t : string) :
  let r := normalizeThumbprintForEbsi t in
  normalized r = (spec_policy t).2
  /\ (forall b, conversionApplied r = branch_label b <-> (spec_policy t).1 = b)
  /\ original r = t.
Proof.
  cbn zeta. unfold normalizeThumbprintForEbsi, spec_policy.
  rewrite (hasBase64Chars_spec t), (hasBase64UrlChars_spec t),
    (base64ToBase64Url_spec t).
  destruct (spec_contains standard_markers t), (spec_contains url_safe_markers t);
    cbn [andb negb normalized conversionApplied original fst snd];
    (split; [reflexivity|]); (split; [|reflexivity]);
    intros []; cbn [branch_label]; split; (reflexivity || discriminate).
Qed.


(** ** The trust cache and the registry client *)

Section CacheFacts.

Import EbsiCache.

Implicit Types (db : gmap string CacheEntry) (e : CacheEntry) (t : string).

Lemma cache_wf_empty : cache_wf ∅.
Proof. apply map_Forall_empty. Qed.

Lemma findOrCreate_thumbprint at_time db t :
  cache_wf db -> thumbprint (findOrCreate at_time db t) = t.
Proof.
  intros Hwf. unfold findOrCreate, findOne.
  destruct (db !! t) as [e|] eqn:He; [|reflexivity].
  exact (Hwf t e He).
Qed.

Lemma truthy_js_and (a b : js_value) :
  truthy (js_and a b) = truthy a && truthy b.
Proof. unfold js_and. destruct (truthy a) eqn:E; cbn; [reflexivity | exact E]. Qed.

Lemma nonEmptyArrayTest_spec (x : js_value) :
  nonEmptyArrayTest x =
    match x with
    | JArr (_ :: _) => JBool true
    | JArr [] => JBool false
    | JObj _ => JBool false
    | JUndefined | JNull => x
    | JBool b => JBool false
    | JNum n => if n =? 0 then x else JBool false
    | JStr s => if String.eqb s "" then x else JBool false
    end.
Proof.
  destruct x as [| |[]|n|s|[|y l]|ps]; try reflexivity.
  - unfold nonEmptyArrayTest, js_and; cbn.
    destruct (n =? 0) eqn:E; cbn; rewrite ?E; reflexivity.
  - unfold nonEmptyArrayTest, js_and; cbn.
    destruct (String.eqb s "") eqn:E; cbn; rewrite ?E; reflexivity.
Qed.

Lemma nonEmptyArrayTest_true (x : js_value) :
  nonEmptyArrayTest x = JBool true <-> exists y l, x = JArr (y :: l).
Proof.
  rewrite nonEmptyArrayTest_spec. split.
  - destruct x as [| |[]|n|s|[|y l]|ps]; try discriminate; eauto.
    + destruct (n =? 0); discriminate.
    + destruct (String.eqb s ""); discriminate.
  - intros (y & l & ->). reflexivity.
Qed.

Lemma nonEmptyArrayTest_truthy (x : js_value) :
  truthy (nonEmptyArrayTest x) = match x with JArr (_ :: _) => true | _ => false end.
Proof.
  rewrite nonEmptyArrayTest_spec.
  destruct x as [| |[]|n|s|[|y l]|ps]; try reflexivity.
  - destruct (n =? 0) eqn:E; cbn; [rewrite E|]; reflexivity.
  - destruct (String.eqb s "") eqn:E; cbn; [rewrite E|]; reflexivity.
Qed.

(** What [save] writes agrees with the document in memory on every path
    but the three that are cast, and its [found] is a Boolean. *)
Lemma validate_Some e e' :
  validate e = Some e' ->
  thumbprint e' = thumbprint e /\ thumbprint e <> ""
  /\ (exists b, found e' = JBool b /\ castBoolean (found e) = Some (JBool b))
  /\ castString (publicKey e) = Some (publicKey e')
  /\ castStrings (issuerInfo e) = Some (issuerInfo e')
  /\ ebsiResponse e' = ebsiResponse e
  /\ lastChecked e' = lastChecked e
  /\ hitCount e' = hitCount e
  /\ needsRefresh e' = needsRefresh e
  /\ source e' = source e
  /\ lastStatus e' = lastStatus e
  /\ lastError e' = lastError e.
Proof.
  unfold validate.
  destruct (String.eqb (thumbprint e) "") eqn:Ht; [discriminate|].
  destruct (negb _); [discriminate|].
  destruct (castBoolean (found e)) as [[| |b| | | |]|] eqn:Hb; try discriminate.
  destruct (castString (publicKey e)) as [key|]; [|discriminate].
  destruct (castStrings (issuerInfo e)) as [info|]; [|discriminate].
  intros [= <-]. cbn. apply String.eqb_neq in Ht.
  repeat split; try reflexivity; try assumption. exists b. split; reflexivity.
Qed.

Lemma castString_idem (v v' : js_value) :
  castString v = Some v' -> castString v' = Some v'.
Proof.
  destruct v as [| |[]|n|s|l|ps]; cbn; try (intros [= <-]; reflexivity);
    try discriminate.
  destruct (assoc "_id" ps) as [| | | |id| |]; try discriminate.
  destruct (String.eqb id ""); [discriminate|]. intros [= <-]. reflexivity.
Qed.

Lemma castStrings_idem (ps ps' : list (string * js_value)) :
  castStrings ps = Some ps' -> castStrings ps' = Some ps'.
Proof.
  revert ps'. induction ps as [|[k v] ps IH]; intros ps'; cbn.
  - intros [= <-]. reflexivity.
  - destruct (castString v) as [v'|] eqn:Hv; [|discriminate].
    destruct (castStrings ps) as [r'|]; [|discriminate].
    intros [= <-]. cbn. rewrite (castString_idem v v' Hv), (IH r' eq_refl).
    reflexivity.
Qed.

(** A document that [save] wrote is written again as it is. *)
Lemma validate_idem e e' : validate e = Some e' -> validate e' = Some e'.
Proof.
  intros Hv. pose proof (validate_Some e e' Hv)
    as (Ht & Hne & (b & Hb & _) & Hkey & Hinfo & _ & _ & _ & _ & Hsrc & _).
  revert Hv. unfold validate.
  rewrite Ht, Hsrc, Hb.
  destruct (String.eqb (thumbprint e) ""); [discriminate|].
  destruct (negb _); [discriminate|]. intros _.
  cbn [castBoolean].
  rewrite (castString_idem _ _ Hkey), (castStrings_idem _ _ Hinfo).
  destruct e'; cbn in *. subst. reflexivity.
Qed.

Lemma validate_increment e :
  validate e = Some e ->
  validate (incrementHitCount e) = Some (incrementHitCount e).
Proof.
  destruct e as [t f r pk info lc hc nr src ls le].
  unfold validate, incrementHitCount. cbn.
  destruct (String.eqb t ""); [discriminate|].
  destruct (negb _); [discriminate|].
  destruct (castBoolean f) as [[| |b'| | | |]|]; try discriminate.
  destruct (castString pk) as [key|]; [|discriminate].
  destruct (castStrings info) as [info'|]; [|discriminate].
  intros [= ? ? ?]. subst. reflexivity.
Qed.

Lemma save_Some db e db' :
  save db e = Some db' ->
  exists e', validate e = Some e' /\ db' = <[thumbprint e := e']> db.
Proof.
  unfold save. destruct (validate e) as [e'|] eqn:Hv; [|discriminate].
  intros [= <-]. exists e'. split; [reflexivity|].
  destruct (validate_Some e e' Hv) as (-> & _). reflexivity.
Qed.

Lemma cache_wf_insert db t e' :
  cache_wf db -> thumbprint e' = t -> cache_wf (<[t := e']> db).
Proof. intros Hwf Ht. apply map_Forall_insert_2; assumption. Qed.

(** The update with the response [null] sets [found] to [null], which the
    validation of the required Boolean refuses: nothing is written. *)
Lemma null_update_refused at_time db e status error :
  updateWithEbsiResponse at_time db e JNull status error = None.
Proof.
  unfold updateWithEbsiResponse, save, validate.
  cbn [withEbsiResponse thumbprint source found nonEmptyArrayTest js_and truthy
       castBoolean].
  destruct (String.eqb (thumbprint e) ""); [reflexivity|].
  destruct (negb _); reflexivity.
Qed.

(** So the [catch] of the lookup changes nothing. *)
Lemma lookupFailed_unchanged (w : Outside) t status message db :
  lookupFailed w t status message db = (JBool false, db).
Proof. unfold lookupFailed. rewrite null_update_refused. reflexivity. Qed.

(** A lookup either returns [false] and leaves the cache as it was, or
    writes the document of its thumbprint, in a form that [save] accepts,
    with the counter one higher (2 for a new document); the verdict is
    then truthy exactly when the stored [found] is [true]. *)
Lemma lookup_cases (w : Outside) t (forceRefresh : bool) db :
  cache_wf db ->
  let r := checkThumbprintInBridge w t forceRefresh db in
  r = (JBool false, db)
  \/ exists e',
       r.2 = <[t := e']> db
       /\ thumbprint e' = t
       /\ validate e' = Some e'
       /\ found e' = JBool (truthy r.1)
       /\ hitCount e' = match db !! t with
                        | Some e => hitCount e + 1
                        | None => 2
                        end.
Proof.
  intros Hwf. cbv zeta. unfold checkThumbprintInBridge.
  rewrite !lookupFailed_unchanged.
  pose proof (findOrCreate_thumbprint (now w) db t Hwf) as Hfc.
  assert (Hmiss :
    forall status data,
      match updateWithEbsiResponse (now w) db (findOrCreate (now w) db t) data
              status None with
      | Some db' => (nonEmptyArrayTest data, db')
      | None => (JBool false, db)
      end = (JBool false, db)
      \/ exists e',
           (match updateWithEbsiResponse (now w) db (findOrCreate (now w) db t)
                    data status None with
            | Some db' => (nonEmptyArrayTest data, db')
            | None => (JBool false, db)
            end).2 = <[t := e']> db
           /\ thumbprint e' = t
           /\ validate e' = Some e'
           /\ found e'
              = JBool (truthy
                  (match updateWithEbsiResponse (now w) db
                           (findOrCreate (now w) db t) data status None with
                   | Some db' => (nonEmptyArrayTest data, db')
                   | None => (JBool false, db)
                   end).1)
           /\ hitCount e' = match db !! t with
                            | Some e => hitCount e + 1
                            | None => 2
                            end).
  { intros status data. unfold updateWithEbsiResponse.
    destruct (save db _) as [db'|] eqn:Hsave; [|left; reflexivity].
    right. apply save_Some in Hsave as (e' & Hv & ->).
    pose proof (validate_Some _ _ Hv)
      as (Ht & _ & (b & Hb & Hcast) & _ & _ & _ & _ & Hc & _).
    cbn [withEbsiResponse thumbprint found hitCount] in Ht, Hcast, Hc.
    exists e'. cbn [fst snd withEbsiResponse thumbprint]. rewrite Hfc in *.
    split; [reflexivity|]. split; [exact Ht|].
    split; [exact (validate_idem _ _ Hv)|]. split.
    - rewrite Hb. f_equal. revert Hcast. rewrite nonEmptyArrayTest_spec.
      destruct data as [| |[]|n|s|[|y l]|ps]; cbn; try congruence.
      + destruct (n =? 0) eqn:E; [|cbn; congruence].
        apply Z.eqb_eq in E. subst n. cbn. congruence.
      + destruct (String.eqb s "") eqn:E; cbn; [|congruence].
        apply String.eqb_eq in E. subst s. discriminate.
    - rewrite Hc. unfold findOrCreate, findOne.
      destruct (db !! t); reflexivity. }
  destruct forceRefresh.
  - destruct (axios_get w _) as [st data | msg st | msg];
      [apply Hmiss | left; apply lookupFailed_unchanged
       | left; apply lookupFailed_unchanged].
  - unfold findOne. destruct (db !! t) as [e|] eqn:He.
    + pose proof (Hwf t e He) as Ht.
      unfold save.
      destruct (validate (incrementHitCount e)) as [stored|] eqn:Hv;
        [|left; reflexivity].
      right. pose proof (validate_Some _ _ Hv)
        as (Hts & _ & (b & Hb & _) & _ & _ & _ & _ & Hc & _).
      cbn [incrementHitCount thumbprint hitCount] in Hts, Hc.
      exists stored. cbn [fst snd]. rewrite Hts, Ht.
      split; [reflexivity|]. split; [congruence|].
      split; [exact (validate_idem _ _ Hv)|].
      split; [rewrite Hb; reflexivity | exact Hc].
    + destruct (axios_get w _) as [st data | msg st | msg];
        [|left; apply lookupFailed_unchanged | left; apply lookupFailed_unchanged].
      pose proof (Hmiss st data) as Hm.
      unfold findOrCreate, findOne in Hm |- *. rewrite He in Hm |- *.
      exact Hm.
Qed.

(** A lookup that reaches the registry and fails, by an HTTP error or
    without a response, returns [false] and writes nothing. *)
Lemma lookup_failure_effect (w : Outside) t db (forceRefresh : bool) :
  (forceRefresh = true \/ db !! t = None) ->
  (forall status data,
     axios_get w (issuers_url (normalized (normalizeThumbprintForEbsi t)))
     <> Resolved status data) ->
  checkThumbprintInBridge w t forceRefresh db = (JBool false, db).
Proof.
  intros Hmiss Hfail. unfold checkThumbprintInBridge.
  assert (Hsel : (if forceRefresh then None else findOne db t) = None).
  { destruct Hmiss as [-> | Hnone]; [reflexivity|].
    destruct forceRefresh; [reflexivity | exact Hnone]. }
  rewrite Hsel.
  destruct (axios_get w _) as [st data | msg st | msg] eqn:Hget.
  - exfalso. exact (Hfail st data eq_refl).
  - apply lookupFailed_unchanged.
  - apply lookupFailed_unchanged.
Qed.

Lemma lookup_keeps_cache_wf (w : Outside) t (forceRefresh : bool) db :
  cache_wf db -> cache_wf (checkThumbprintInBridge w t forceRefresh db).2.
Proof.
  intros Hwf.
  destruct (lookup_cases w t forceRefresh db Hwf) as [-> | (e' & -> & Ht & _)];
    [exact Hwf | apply cache_wf_insert; assumption].
Qed.

(** One call on a thumbprint leaves the cache as it was, when its [save]
    is refused or the registry fails, or writes the document of that
    thumbprint with the counter one higher, 2 for a new document (the
    default 1 of the schema, incremented by [updateWithEbsiResponse]). *)
Lemma run_call_cases t db call :
  cache_wf db ->
  run_call t db call = db
  \/ exists e', run_call t db call = <[t := e']> db
                /\ thumbprint e' = t
                /\ hitCount e' = match db !! t with
                                 | Some e => hitCount e + 1
                                 | None => 2
                                 end.
Proof.
  intros Hwf. destruct call as [w force | at_time response status error];
    cbn [run_call].
  - destruct (lookup_cases w t force db Hwf) as [-> | (e' & He' & Ht & _ & _ & Hc)];
      [left; reflexivity | right; eauto].
  - unfold updateWithEbsiResponse.
    destruct (save db _) as [db'|] eqn:Hsave; [|left; reflexivity].
    right. apply save_Some in Hsave as (e' & Hv & ->).
    pose proof (validate_Some _ _ Hv)
      as (Ht & _ & _ & _ & _ & _ & _ & Hc & _).
    cbn [withEbsiResponse thumbprint hitCount] in Ht, Hc.
    cbn [withEbsiResponse thumbprint].
    rewrite (findOrCreate_thumbprint at_time db t Hwf) in *.
    exists e'. split; [reflexivity|]. split; [exact Ht|].
    rewrite Hc. unfold findOrCreate, findOne. destruct (db !! t); reflexivity.
Qed.

(** After calls on one thumbprint from the empty cache, of which [k >= 1]
    were written, the cache holds exactly one document, that of the
    thumbprint, and its counter is [k + 1]; if none was written the cache
    is empty. *)
Lemma hitCount_after_calls t (calls : list cache_call) :
  run_calls t calls = ∅
  \/ exists e k, run_calls t calls = {[ t := e ]}
                 /\ thumbprint e = t
                 /\ 1 <= k <= Z.of_nat (length calls)
                 /\ hitCount e = k + 1.
Proof.
  unfold run_calls.
  induction calls as [|call calls IH] using rev_ind; [left; reflexivity|].
  rewrite foldl_snoc, length_app. cbn [length].
  destruct IH as [-> | (e & k & -> & Ht & Hk & Hc)].
  - destruct (run_call_cases t ∅ call cache_wf_empty)
      as [-> | (e' & -> & Ht' & Hc')]; [left; reflexivity|].
    right. exists e', 1. rewrite insert_empty, lookup_empty in *.
    repeat split; [exact Ht' | lia | lia | exact Hc'].
  - assert (Hwf : cache_wf ({[t := e]} : gmap string CacheEntry)).
    { apply map_Forall_singleton. exact Ht. }
    destruct (run_call_cases t {[t := e]} call Hwf)
      as [-> | (e' & -> & Ht' & Hc')].
    + right. exists e, k. repeat split; [exact Ht | lia | lia | exact Hc].
    + right. exists e', (k + 1). rewrite insert_singleton_eq.
      rewrite lookup_singleton_eq in Hc'.
      repeat split; [exact Ht' | lia | lia | lia].
Qed.

End CacheFacts.

(** C1. One upsert of a found response on a fresh thumbprint leaves
    exactly one document for the thumbprint, whose counter is 2 and not 1,
    the number of calls made. *)
Theorem hitCount_after_first_upsert :
  exists e,
    run_calls example_thumbprint [Upsert 1000 (JArr [example_issuer]) 200 None]
      = {[ example_thumbprint := e ]}
    /\ EbsiCache.hitCount e = 2
    /\ EbsiCache.hitCount e <> Z.of_nat (length [Upsert 1000 (JArr [example_issuer]) 200 None]).
Proof.
  unfold run_calls. cbn [foldl run_call].
  unfold EbsiCache.updateWithEbsiResponse, EbsiCache.findOrCreate,
    EbsiCache.findOne, EbsiCache.save.
  rewrite lookup_empty.
  destruct (EbsiCache.validate _) as [e|] eqn:Hv; [|vm_compute in Hv; discriminate Hv].
  pose proof (validate_Some _ _ Hv) as (Ht & _ & _ & _ & _ & _ & _ & Hc & _).
  cbn in Ht, Hc. exists e. rewrite Ht, insert_empty.
  split; [reflexivity|]. split; [exact Hc|]. rewrite Hc. cbn. lia.
Qed.

(** C2, as stated, fails. The response [[null]] is a non-empty list, so
    [found] is [true]; its first element is no issuer record, the guard of
    the extraction does not pass, and the document written has no public
    key and no issuer information. And a response whose first record has a
    list in the place of the public key is a non-empty list as well, but
    the list does not cast to the string of the schema: the [save] is
    refused and no document is written. *)
Lemma upsert_found_without_extraction :
  (exists e',
     EbsiCache.updateWithEbsiResponse 1000 ∅
       (EbsiCache.create 1000 example_thumbprint) (JArr [JNull]) 200 None
     = Some {[ example_thumbprint := e' ]}
     /\ EbsiCache.found e' = JBool true
     /\ EbsiCache.publicKey e' = JNull
     /\ EbsiCache.issuerInfo e' = []
     /\ ~ (EbsiCache.found e' = JBool true ->
           exists key officialId countryCode name,
             EbsiCache.publicKey e' = JStr key
             /\ EbsiCache.issuerInfo e'
                = [("officialId", officialId); ("countryCode", countryCode);
                   ("name", name)]))
  /\ EbsiCache.updateWithEbsiResponse 1000 ∅
       (EbsiCache.create 1000 example_thumbprint)
       (JArr [JObj [("publicKey", JArr [JStr "-----BEGIN PUBLIC KEY-----"])]])
       200 None
     = None.
Proof.
  split; [|vm_compute; reflexivity].
  eexists. split; [|split; [|split; [|split]]].
  - unfold EbsiCache.updateWithEbsiResponse, EbsiCache.save. cbn.
    rewrite insert_empty. reflexivity.
  - reflexivity.
  - reflexivity.
  - reflexivity.
  - cbn. intros Hex. destruct (Hex eq_refl) as (key & ? & ? & ? & Hkey & _).
    discriminate Hkey.
Qed.

(** C2, amended. [updateWithEbsiResponse] on a document that the schema
    accepts, with a response other than [null], [undefined] and the empty
    string, whose first issuer record, if there is one, has a public key,
    an official id, a country code and a name that cast to strings: the
    document is written; its [found] is [true] if and only if the
    response is a non-empty list, and [false] otherwise; [needsRefresh] is
    cleared and [hitCount] is one higher; when the response is a non-empty
    list whose first element is truthy, the public key and the issuer
    information (officialId, countryCode, name) are those of that
    element, cast to strings; in every other case both cached fields are
    reset. *)
Theorem upsert_effect (at_time : Z) (db : gmap string EbsiCache.CacheEntry)
    (this : EbsiCache.CacheEntry) (response : js_value) (status : Z)
    (error : option string) :
  EbsiCache.validate this = Some this ->
  response <> JNull -> response <> JUndefined -> response <> JStr "" ->
  (forall issuer rest, response = JArr (issuer :: rest) -> truthy issuer = true ->
     is_Some (EbsiCache.castString (js_or (prop issuer "publicKey") JNull))
     /\ is_Some (EbsiCache.castStrings
                   [("officialId", prop issuer "officialId");
                    ("countryCode", prop issuer "countryCode");
                    ("name", prop issuer "name")])) ->
  exists e',
    EbsiCache.updateWithEbsiResponse at_time db this response status error
    = Some (<[EbsiCache.thumbprint this := e']> db)
    /\ (EbsiCache.found e' = JBool true <-> exists issuer rest, response = JArr (issuer :: rest))
    /\ (EbsiCache.found e' = JBool true \/ EbsiCache.found e' = JBool false)
    /\ EbsiCache.needsRefresh e' = false
    /\ EbsiCache.hitCount e' = EbsiCache.hitCount this + 1
    /\ EbsiCache.ebsiResponse e' = response
    /\ EbsiCache.lastStatus e' = Some status
    /\ EbsiCache.lastError e' = error
    /\ match response with
       | JArr (issuer :: _) =>
           if truthy issuer then
             Some (EbsiCache.publicKey e')
             = EbsiCache.castString (js_or (prop issuer "publicKey") JNull)
             /\ Some (EbsiCache.issuerInfo e')
                = EbsiCache.castStrings
                    [("officialId", prop issuer "officialId");
                     ("countryCode", prop issuer "countryCode");
                     ("name", prop issuer "name")]
           else EbsiCache.publicKey e' = JNull /\ EbsiCache.issuerInfo e' = []
       | _ => EbsiCache.publicKey e' = JNull /\ EbsiCache.issuerInfo e' = []
       end.
Proof.
  intros Hthis Hnull Hundef Hempty Hcast.
  pose proof (validate_Some _ _ Hthis) as (_ & Hne & _ & _ & _ & _ & _ & _ & _ & _).
  assert (Hsrc : negb (String.eqb (EbsiCache.source this) "upload"
                       || String.eqb (EbsiCache.source this) "verification"
                       || String.eqb (EbsiCache.source this) "refresh"
                       || String.eqb (EbsiCache.source this) "startup") = false).
  { revert Hthis. unfold EbsiCache.validate.
    destruct (String.eqb (EbsiCache.thumbprint this) ""); [discriminate|].
    destruct (negb _); [discriminate | reflexivity]. }
  assert (Hfound : exists b,
             EbsiCache.castBoolean (nonEmptyArrayTest response) = Some (JBool b)
             /\ (b = true <-> exists issuer rest, response = JArr (issuer :: rest))).
  { rewrite nonEmptyArrayTest_spec.
    destruct response as [| |b|n|s|[|issuer rest]|ps]; try congruence;
      try (exists false; split; [reflexivity|];
           split; [discriminate | intros (? & ? & [=])]).
    - destruct (n =? 0) eqn:E; [apply Z.eqb_eq in E; subst n|];
        (exists false; split; [reflexivity|];
         split; [discriminate | intros (? & ? & [=])]).
    - destruct (String.eqb s "") eqn:E;
        [apply String.eqb_eq in E; congruence|].
      exists false; split; [reflexivity|];
        split; [discriminate | intros (? & ? & [=])].
    - exists true. split; [reflexivity|]. split; [eauto | reflexivity]. }
  destruct Hfound as (b & Hb & Hiff).
  assert (Hfields :
    exists key info,
      EbsiCache.castString
        (EbsiCache.publicKey
           (EbsiCache.withEbsiResponse at_time this response status error))
      = Some key
      /\ EbsiCache.castStrings
           (EbsiCache.issuerInfo
              (EbsiCache.withEbsiResponse at_time this response status error))
         = Some info
      /\ match response with
         | JArr (issuer :: _) =>
             if truthy issuer then
               Some key
               = EbsiCache.castString (js_or (prop issuer "publicKey") JNull)
               /\ Some info
                  = EbsiCache.castStrings
                      [("officialId", prop issuer "officialId");
                       ("countryCode", prop issuer "countryCode");
                       ("name", prop issuer "name")]
             else key = JNull /\ info = []
         | _ => key = JNull /\ info = []
         end).
  { cbn [EbsiCache.withEbsiResponse EbsiCache.publicKey EbsiCache.issuerInfo].
    rewrite !truthy_js_and, nonEmptyArrayTest_truthy.
    destruct response as [| |b0|n|s|[|issuer rest]|ps]; cbn [truthy andb first_elem];
      try (exists JNull, []; repeat split; reflexivity).
    destruct (truthy issuer) eqn:Hi; cbn [andb].
    - destruct (Hcast issuer rest eq_refl Hi) as [[key Hkey] [info Hinfo]].
      exists key, info. rewrite Hkey, Hinfo. repeat split; reflexivity.
    - exists JNull, []. repeat split; reflexivity. }
  destruct Hfields as (key & info & Hkey & Hinfo & Hextract).
  eexists. split.
  - unfold EbsiCache.updateWithEbsiResponse, EbsiCache.save, EbsiCache.validate.
    cbn [EbsiCache.withEbsiResponse EbsiCache.thumbprint EbsiCache.source
         EbsiCache.found] in *.
    apply String.eqb_neq in Hne. rewrite Hne, Hsrc, Hb.
    rewrite Hkey, Hinfo. cbn [EbsiCache.thumbprint]. reflexivity.
  - cbn [EbsiCache.withEbsiResponse EbsiCache.found EbsiCache.needsRefresh
         EbsiCache.hitCount EbsiCache.ebsiResponse EbsiCache.lastStatus
         EbsiCache.lastError EbsiCache.publicKey EbsiCache.issuerInfo].
    split; [rewrite <- Hiff; split; [intros [= ->]; reflexivity | intros ->; reflexivity]|].
    split; [destruct b; auto|].
    do 5 (split; [reflexivity|]).
    exact Hextract.
Qed.

Lemma upsert_effect_witness :
  exists e',
    EbsiCache.updateWithEbsiResponse 1000 ∅ (EbsiCache.create 1000 example_thumbprint)
      (JArr [example_issuer]) 200 None
    = Some (<[example_thumbprint := e']> ∅)
    /\ EbsiCache.found e' = JBool true
    /\ EbsiCache.hitCount e' = 2.
Proof.
  destruct (upsert_effect 1000 ∅ (EbsiCache.create 1000 example_thumbprint)
              (JArr [example_issuer]) 200 None)
    as (e' & Hrun & Hfound & _ & _ & Hcount & _).
  - vm_compute. reflexivity.
  - discriminate.
  - discriminate.
  - discriminate.
  - intros issuer rest [= <- <-] _. split; eexists; vm_compute; reflexivity.
  - exists e'. split; [exact Hrun|]. split; [|exact Hcount].
    apply Hfound. eauto.
Defined.

(** C5. The registry answers HTTP 503 for a thumbprint that is not in the
    cache. The lookup returns [false], but no document is written: the
    update of the [catch] sets [found] to [null], the value of
    [response && Array.isArray(response) && response.length > 0] at the
    response [null], the validation of the required Boolean refuses it,
    and the cache is as empty as before. *)
Theorem lookup_failure_leaves_no_entry :
  let r := checkThumbprintInBridge registry_unavailable example_thumbprint false ∅ in
  r.1 = JBool false
  /\ r.2 = ∅
  /\ r.2 !! example_thumbprint = None
  /\ EbsiCache.found
       (EbsiCache.withEbsiResponse 2000 (EbsiCache.create 2000 example_thumbprint)
          JNull 503 (Some "Request failed with status code 503")) = JNull
  /\ EbsiCache.updateWithEbsiResponse 2000 ∅
       (EbsiCache.create 2000 example_thumbprint) JNull 503
       (Some "Request failed with status code 503") = None.
Proof.
  cbn zeta.
  assert (Hr : checkThumbprintInBridge registry_unavailable example_thumbprint false ∅
               = (JBool false, ∅)).
  { apply lookup_failure_effect; [right; apply lookup_empty|].
    intros status data. discriminate. }
  rewrite Hr. cbn [fst snd].
  split; [reflexivity|]. split; [reflexivity|]. split; [apply lookup_empty|].
  split; [reflexivity | apply null_update_refused].
Qed.

(** C10. A document that recorded a successful registry response keeps
    it across a failed refresh: the update with the response [null]
    assigns [null] to [found], its [save] is refused, and the document in
    the cache still has [found] [true], the cached response, the public
    key and the issuer information. *)
Theorem failed_refresh_keeps_cached_key :
  let db := (checkThumbprintInBridge registry_finds example_thumbprint false ∅).2 in
  let r := checkThumbprintInBridge registry_unavailable example_thumbprint true db in
  exists cached,
    db !! example_thumbprint = Some cached
    /\ EbsiCache.updateWithEbsiResponse 2000 db cached JNull 503
         (Some "Request failed with status code 503") = None
    /\ r.1 = JBool false
    /\ r.2 !! example_thumbprint = Some cached
    /\ EbsiCache.found cached = JBool true
    /\ EbsiCache.ebsiResponse cached = JArr [example_issuer]
    /\ EbsiCache.publicKey cached = JStr "-----BEGIN PUBLIC KEY-----"
    /\ EbsiCache.issuerInfo cached
       = [("officialId", JStr "0001"); ("countryCode", JStr "BE");
          ("name", JStr "Example Institution")]
    /\ EbsiCache.needsRefresh cached = false.
Proof.
  cbn zeta.
  assert (Hr : forall db,
             checkThumbprintInBridge registry_unavailable example_thumbprint true db
             = (JBool false, db)).
  { intros db. apply lookup_failure_effect; [left; reflexivity|].
    intros status data. discriminate. }
  rewrite Hr. cbn [fst snd].
  assert (Hdb : exists cached,
             (checkThumbprintInBridge registry_finds example_thumbprint false ∅).2
             = {[ example_thumbprint := cached ]}
             /\ EbsiCache.found cached = JBool true
             /\ EbsiCache.ebsiResponse cached = JArr [example_issuer]
             /\ EbsiCache.publicKey cached = JStr "-----BEGIN PUBLIC KEY-----"
             /\ EbsiCache.issuerInfo cached
                = [("officialId", JStr "0001"); ("countryCode", JStr "BE");
                   ("name", JStr "Example Institution")]
             /\ EbsiCache.needsRefresh cached = false).
  { unfold checkThumbprintInBridge, EbsiCache.findOne. rewrite lookup_empty.
    cbn [registry_finds axios_get now].
    unfold EbsiCache.updateWithEbsiResponse, EbsiCache.findOrCreate,
      EbsiCache.findOne, EbsiCache.save.
    rewrite lookup_empty.
    destruct (EbsiCache.validate _) as [cached|] eqn:Hv;
      [|vm_compute in Hv; discriminate Hv].
    pose proof (validate_Some _ _ Hv) as (Ht & _).
    cbn in Ht. cbn [snd]. rewrite Ht, insert_empty.
    exists cached. split; [reflexivity|].
    vm_compute in Hv. injection Hv as <-. repeat split; reflexivity. }
  destruct Hdb as (cached & -> & Hf & Hresp & Hkey & Hinfo & Hflag).
  exists cached. rewrite lookup_singleton_eq.
  split; [reflexivity|]. split; [apply null_update_refused|].
  repeat split; assumption || reflexivity.
Qed.

(** ** The background refresher *)

Section RefresherFacts.

Import EbsiCache.

Implicit Types (db : gmap string CacheEntry) (e : CacheEntry) (t : string).

(** A response that passes the casts makes, from a document that the
    schema accepts, a document that it accepts. *)
Lemma storable_update at_time e response status error :
  storable response = true ->
  validate e = Some e ->
  exists e', validate (withEbsiResponse at_time e response status error) = Some e'
             /\ thumbprint e' = thumbprint e
             /\ needsRefresh e' = false.
Proof.
  intros Hs He.
  destruct (validate (withEbsiResponse at_time e response status error))
    as [e'|] eqn:Hv.
  - exists e'. split; [reflexivity|].
    pose proof (validate_Some _ _ Hv) as (Ht & _ & _ & _ & _ & _ & _ & _ & Hn & _).
    split; [exact Ht | exact Hn].
  - exfalso. revert Hv He Hs. unfold validate, storable.
    cbn [withEbsiResponse thumbprint source found publicKey issuerInfo].
    destruct (String.eqb (thumbprint e) ""); [discriminate|].
    destruct (negb _); [discriminate|].
    destruct (castBoolean (nonEmptyArrayTest response)) as [[| |b| | | |]|];
      try discriminate.
    destruct (castString _) as [key|]; [|discriminate].
    destruct (castStrings _) as [info|]; discriminate.
Qed.

(** A forced lookup that the registry answers with such a response
    writes the document of its thumbprint, with the flag cleared. *)
Lemma forced_lookup_stored (w : Outside) t db e status data :
  cache_wf db ->
  db !! t = Some e ->
  validate e = Some e ->
  axios_get w (issuers_url (normalized (normalizeThumbprintForEbsi t)))
  = Resolved status data ->
  storable data = true ->
  exists e', checkThumbprintInBridge w t true db
             = (nonEmptyArrayTest data, <[t := e']> db)
             /\ thumbprint e' = t /\ needsRefresh e' = false
             /\ validate e' = Some e'.
Proof.
  intros Hwf He Hv Hget Hs. unfold checkThumbprintInBridge. rewrite Hget.
  unfold updateWithEbsiResponse, save, findOrCreate, findOne. rewrite He.
  destruct (storable_update (now w) e data status None Hs Hv)
    as (e' & Hv' & Ht & Hn).
  rewrite Hv'. pose proof (Hwf t e He) as Hte.
  exists e'. rewrite Ht, Hte.
  split; [reflexivity|]. split; [congruence|]. split; [exact Hn|].
  exact (validate_idem _ _ Hv').
Qed.

Lemma stale_insert_fresh db t e' :
  needsRefresh e' = false -> stale (<[t := e']> db) = delete t (stale db).
Proof.
  intros Hn. unfold stale.
  rewrite map_filter_insert_False by (cbn; rewrite Hn; discriminate).
  apply map_filter_delete.
Qed.

Lemma refresh_entries_effect ws entries : forall i db,
  cache_wf db ->
  cache_valid db ->
  (forall e, e ∈ entries -> is_Some (db !! thumbprint e)) ->
  (forall j url, exists status data,
      axios_get (ws j) url = Resolved status data /\ storable data = true) ->
  let db' := refresh_entries ws i entries db in
  cache_wf db'
  /\ cache_valid db'
  /\ dom db' = dom db
  /\ stale db' = foldl (fun m k => delete k m) (stale db) (thumbprint <$> entries).
Proof.
  induction entries as [|entry rest IH]; intros i db Hwf Hval Hin Hws; cbn zeta.
  - cbn. auto.
  - cbn [refresh_entries fmap list_fmap foldl].
    destruct (Hin entry ltac:(left)) as [e0 He0].
    destruct (Hws i (issuers_url (normalized
                (normalizeThumbprintForEbsi (thumbprint entry)))))
      as (status & data & Hget & Hs).
    destruct (forced_lookup_stored (ws i) (thumbprint entry) db e0 status data
                Hwf He0 (Hval _ _ He0) Hget Hs) as (e' & -> & Ht & Hn & Hv).
    cbn [snd].
    assert (Hdom : dom (<[thumbprint entry := e']> db) = dom db).
    { rewrite dom_insert_L.
      apply subseteq_union_1_L, singleton_subseteq_l, elem_of_dom, Hin. left. }
    destruct (IH (S i) (<[thumbprint entry := e']> db)) as (Hwf' & Hval' & Hd & Hst).
    + apply cache_wf_insert; assumption.
    + apply map_Forall_insert_2; assumption.
    + intros e He. apply elem_of_dom. rewrite Hdom. apply elem_of_dom, Hin.
      right. exact He.
    + exact Hws.
    + split; [exact Hwf' | split; [exact Hval' | split]].
      * rewrite Hd. exact Hdom.
      * rewrite Hst, (stale_insert_fresh _ _ _ Hn). reflexivity.
Qed.

Lemma size_delete_keys {A} (ks : list string) : forall (m : gmap string A),
  NoDup ks -> (forall k, k ∈ ks -> is_Some (m !! k)) ->
  size (foldl (fun m k => delete k m) m ks) = (size m - length ks)%nat.
Proof.
  induction ks as [|k ks IH]; intros m Hnd Hin; cbn [foldl length].
  - lia.
  - apply NoDup_cons in Hnd as [Hk Hnd].
    rewrite IH; [| exact Hnd |].
    + rewrite map_size_delete_Some by (apply Hin; left). lia.
    + intros k' Hk'. rewrite lookup_delete_ne by (intros ->; contradiction).
      apply Hin. right. exact Hk'.
Qed.

(** The thumbprints of a batch are the keys of the first documents that
    match the query. *)
Lemma batch_thumbprints limit db :
  cache_wf db ->
  thumbprint <$> getEntriesNeedingRefresh limit db
  = take limit (map_to_list (stale db)).*1.
Proof.
  intros Hwf. unfold getEntriesNeedingRefresh.
  rewrite <- !fmap_take, <- list_fmap_compose.
  apply list_fmap_ext. intros j [k e] Hke. cbn.
  apply list_elem_of_lookup_2, elem_of_take in Hke as (j' & Hke & _).
  apply list_elem_of_lookup_2 in Hke.
  apply elem_of_map_to_list in Hke.
  apply map_lookup_filter_Some in Hke as [Hke _].
  exact (Hwf k e Hke).
Qed.

(** With a registry that answers, a batch clears the flag of [min 50 n]
    of the [n] flagged documents and creates or removes no document. *)
Lemma refresh_batch_effect ws db :
  cache_wf db ->
  cache_valid db ->
  (forall j url, exists status data,
      axios_get (ws j) url = Resolved status data /\ storable data = true) ->
  let db' := (refresh_batch ws db).1 in
  cache_wf db'
  /\ cache_valid db'
  /\ dom db' = dom db
  /\ countNeedsRefresh db' = (countNeedsRefresh db - Nat.min 50 (countNeedsRefresh db))%nat.
Proof.
  intros Hwf Hval Hws. cbn zeta. unfold refresh_batch. cbn [fst].
  assert (Hin : forall e, e ∈ getEntriesNeedingRefresh 50 db ->
                          is_Some (db !! thumbprint e)).
  { intros e He.
    assert (Hk : thumbprint e ∈ thumbprint <$> getEntriesNeedingRefresh 50 db)
      by (apply list_elem_of_fmap; eauto).
    rewrite (batch_thumbprints 50 db Hwf) in Hk.
    apply elem_of_take in Hk as (j & Hk & _).
    apply list_elem_of_lookup_2, list_elem_of_fmap in Hk as ([k x] & -> & Hkx).
    apply elem_of_map_to_list, map_lookup_filter_Some in Hkx as [Hkx _].
    cbn. eauto. }
  destruct (refresh_entries_effect ws (getEntriesNeedingRefresh 50 db) 0%nat db
              Hwf Hval Hin Hws) as (Hwf' & Hval' & Hd & Hs).
  split; [exact Hwf' | split; [exact Hval' | split; [exact Hd|]]].
  unfold countNeedsRefresh. rewrite Hs, (batch_thumbprints 50 db Hwf).
  rewrite size_delete_keys.
  - rewrite length_take, length_fmap, length_map_to_list. lia.
  - pose proof (NoDup_fst_map_to_list (stale db)) as Hnd.
    rewrite <- (take_drop 50) in Hnd. apply NoDup_app in Hnd as [Hnd _]. exact Hnd.
  - intros k Hk. apply elem_of_take in Hk as (j & Hk & _).
    apply list_elem_of_lookup_2, list_elem_of_fmap in Hk as ([k' x] & -> & Hkx).
    apply elem_of_map_to_list in Hkx. cbn. eauto.
Qed.

(** With a registry that answers, the runs stop, with no flagged document
    left, as soon as the bound on their number exceeds [n / 50] for [n]
    flagged documents. *)
Lemma refresh_runs_converge ws : forall fuel run db,
  cache_wf db ->
  cache_valid db ->
  (forall run j url, exists status data,
      axios_get (ws run j) url = Resolved status data /\ storable data = true) ->
  (countNeedsRefresh db / 50 < fuel)%nat ->
  exists db', refreshCacheInBackground fuel ws run db = Some db'
              /\ countNeedsRefresh db' = 0%nat /\ dom db' = dom db.
Proof.
  induction fuel as [|fuel IH]; intros run db Hwf Hval Hws Hfuel; [lia|].
  cbn [refreshCacheInBackground].
  destruct (refresh_batch_effect (ws run) db Hwf Hval (Hws run))
    as (Hwf' & Hval' & Hd & Hc).
  destruct (refresh_batch (ws run) db) as [db1 again] eqn:Hb.
  assert (Hagain : again = (0 <? countNeedsRefresh db1)%nat)
    by (unfold refresh_batch in Hb; injection Hb as <- <-; reflexivity).
  cbn [fst] in *.
  destruct again.
  - symmetry in Hagain. apply Nat.ltb_lt in Hagain.
    assert (Hn : (50 < countNeedsRefresh db)%nat) by lia.
    destruct (IH (S run) db1 Hwf' Hval' Hws) as (db' & Hr & Hz & Hd').
    + rewrite Hc. replace (Nat.min 50 (countNeedsRefresh db)) with 50%nat by lia.
      pose proof (Nat.div_add (countNeedsRefresh db - 50) 1 50 ltac:(lia)) as Hdiv.
      replace (countNeedsRefresh db - 50 + 1 * 50)%nat with (countNeedsRefresh db)
        in Hdiv by lia.
      lia.
    + exists db'. split; [exact Hr | split; [exact Hz | congruence]].
  - symmetry in Hagain. apply Nat.ltb_ge in Hagain.
    exists db1. split; [reflexivity | split; [lia | exact Hd]].
Qed.

(** With a registry that fails, the lookups of a run write nothing. *)
Lemma refresh_entries_failed ws entries : forall i db,
  (forall j url status data, axios_get (ws j) url <> Resolved status data) ->
  refresh_entries ws i entries db = db.
Proof.
  induction entries as [|entry rest IH]; intros i db Hws; [reflexivity|].
  cbn [refresh_entries].
  rewrite lookup_failure_effect; [|left; reflexivity | apply Hws].
  cbn [snd]. apply IH. exact Hws.
Qed.

(** So a run leaves every flag as it was, and, with a flag set, schedules
    the next run for ever. *)
Lemma refresh_never_completes ws : forall fuel run db,
  (forall run j url status data, axios_get (ws run j) url <> Resolved status data) ->
  (0 < countNeedsRefresh db)%nat ->
  refreshCacheInBackground fuel ws run db = None.
Proof.
  induction fuel as [|fuel IH]; intros run db Hws Hn; [reflexivity|].
  cbn [refreshCacheInBackground]. unfold refresh_batch.
  rewrite refresh_entries_failed by apply Hws.
  apply Nat.ltb_lt in Hn. rewrite Hn. apply Nat.ltb_lt in Hn.
  apply IH; assumption.
Qed.

Lemma markAll_flags_all db :
  cache_wf (markAllForRefresh db) <-> cache_wf db.
Proof.
  unfold cache_wf, markAllForRefresh. rewrite map_Forall_fmap.
  unfold map_Forall. split; intros H i x Hx; exact (H i x Hx).
Qed.

Lemma markAll_valid db :
  cache_valid db -> cache_valid (markAllForRefresh db).
Proof.
  unfold cache_valid, markAllForRefresh. rewrite map_Forall_fmap.
  intros H i x Hx. specialize (H i x Hx). cbn in *.
  destruct x as [t f r pk info lc hc nr src ls le].
  revert H. unfold validate, setNeedsRefresh. cbn.
  destruct (String.eqb t ""); [discriminate|].
  destruct (negb _); [discriminate|].
  destruct (castBoolean f) as [[| |b'| | | |]|]; try discriminate.
  destruct (castString pk) as [key|]; [|discriminate].
  destruct (castStrings info) as [info'|]; [|discriminate].
  intros [= ? ? ?]. subst. reflexivity.
Qed.

Lemma stale_markAll db : stale (markAllForRefresh db) = markAllForRefresh db.
Proof.
  unfold stale, markAllForRefresh. apply map_filter_id.
  intros i x Hx. apply lookup_fmap_Some in Hx as (y & <- & _). reflexivity.
Qed.

Lemma no_stale_iff db :
  countNeedsRefresh db = 0%nat <->
  forall t e, db !! t = Some e -> needsRefresh e = false.
Proof.
  unfold countNeedsRefresh. rewrite map_size_empty_iff. unfold stale. split.
  - intros H t e He. destruct (needsRefresh e) eqn:Hn; [|reflexivity].
    assert (Hf : filter (fun kv : string * CacheEntry => needsRefresh kv.2 = true) db !! t
                 = Some e) by (apply map_lookup_filter_Some; auto).
    rewrite H, lookup_empty in Hf. discriminate.
  - intros H. apply map_eq. intros t. rewrite lookup_empty.
    apply eq_None_not_Some. intros [e He].
    apply map_lookup_filter_Some in He as [He Hn]. cbn in Hn.
    rewrite (H t e He) in Hn. discriminate.
Qed.

End RefresherFacts.

(** C8. A cache of one document, flagged by [markAllForRefresh], and a
    registry that answers HTTP 503: every forced lookup of the refresher
    ends in the update with the response [null], whose [save] is refused,
    so the flag stays set, a run leaves the cache as it found it and
    schedules the next one, and no number of runs completes the
    refresh. *)
Theorem stale_refresh_never_completes :
  let db :=
    EbsiCache.markAllForRefresh
      (checkThumbprintInBridge registry_finds example_thumbprint false ∅).2 in
  EbsiCache.countNeedsRefresh db = 1%nat
  /\ refresh_batch (fun _ => registry_unavailable) db = (db, true)
  /\ forall fuel,
       refreshCacheInBackground fuel (fun _ _ => registry_unavailable) 0 db = None.
Proof.
  cbn zeta.
  assert (Hn : EbsiCache.countNeedsRefresh
                 (EbsiCache.markAllForRefresh
                    (checkThumbprintInBridge registry_finds example_thumbprint
                       false ∅).2) = 1%nat).
  { unfold EbsiCache.countNeedsRefresh. rewrite stale_markAll.
    unfold EbsiCache.markAllForRefresh. rewrite map_size_fmap.
    vm_compute. reflexivity. }
  split; [exact Hn|]. split.
  - unfold refresh_batch. rewrite refresh_entries_failed by discriminate.
    rewrite Hn. reflexivity.
  - intros fuel. apply refresh_never_completes; [discriminate|].
    rewrite Hn. lia.
Qed.


(** ** The signature validator *)

Section ValidatorFacts.

Context `{NodeCrypto}.

Lemma bind_lift_inr {A B} (a : A) (k : A -> traced B) :
  bind (lift (inr a)) k = k a.
Proof. unfold bind, lift. destruct (k a) as [calls r]. reflexivity. Qed.

Lemma read_Some (v x : js_value) (k : string) :
  get v k = Some x -> read v k = inr x.
Proof. unfold read. intros ->. reflexivity. Qed.

(** The validator up to its algorithm check, on a token of three segments
    whose header parses. *)
Lemma validate_after_header (jwtToken headerB64 payloadB64 signatureB64 : string)
    (header alg publicKeyData : js_value) :
  split "." jwtToken = [headerB64; payloadB64; signatureB64] ->
  parse_base64url_json headerB64 = inr header ->
  get header "alg" = Some alg ->
  log_kid header = inr tt ->
  validateJwtSignature_try jwtToken publicKeyData =
    if negb (is_string (js_or alg (JStr "RS256")) "RS256")
    then throw (unsupported_algorithm (js_or alg (JStr "RS256")))
    else verifyWithAlgorithm (js_or alg (JStr "RS256")) headerB64 payloadB64
           signatureB64 publicKeyData.
Proof.
  intros Hsplit Hparse Halg Hkid. unfold validateJwtSignature_try.
  rewrite Hsplit, Hparse, bind_lift_inr, (read_Some _ _ _ Halg), bind_lift_inr,
    Hkid, bind_lift_inr.
  reflexivity.
Qed.




End ValidatorFacts.








(** ** The verification pipeline *)

(** C7, as stated, fails. Nine runs of the pipeline on the example text,
    from an empty cache and with a registry that finds the issuer: the
    first and the second trace differ in the payload of the verification
    response ([cacheHitCount] 2 and 3); the eighth and the ninth differ in
    its size (613 and 614 bytes) and in two percentages. *)
Lemma rerun_changes_trace :
  exists first second eighth ninth,
    (rerun 9 registry_finds example_scan ∅).1 !! 0%nat = Some (inr first)
    /\ (rerun 9 registry_finds example_scan ∅).1 !! 1%nat = Some (inr second)
    /\ (rerun 9 registry_finds example_scan ∅).1 !! 7%nat = Some (inr eighth)
    /\ (rerun 9 registry_finds example_scan ∅).1 !! 8%nat = Some (inr ninth)
    /\ Step.size <$> first = Step.size <$> second
    /\ Step.data <$> first <> Step.data <$> second
    /\ Step.size <$> eighth = [263; 175; 196; 226; 613; 132]
    /\ Step.size <$> ninth = [263; 175; 196; 226; 614; 132]
    /\ Step.percentage <$> eighth = [100; 67; 112; 115; 271; 22]
    /\ Step.percentage <$> ninth = [100; 67; 112; 115; 272; 21].
Proof.
  remember ((rerun 9 registry_finds example_scan ∅).1) as traces eqn:E.
  vm_compute in E. subst traces.
  do 4 eexists.
  repeat (split; [reflexivity|]).
  split; [|repeat (split; [reflexivity|]); reflexivity].
  cbn. intros Heq. inversion Heq.
Qed.

(** C7, amended. Two runs of the pipeline on the same input, whatever the
    cache and the registry at either run, fail with the same error or
    yield traces of the same six stages whose first four records (the
    input text, the BASE45-decoded bytes, the inflated token and the
    parsed token) are identical: same payloads, sizes and percentages. *)
Theorem decode_stages_repeatable `{Decoders} `{NodeCrypto}
    (w1 w2 : Outside) (db1 db2 : gmap string EbsiCache.CacheEntry)
    (originalData : string) :
  match (processVerificationData w1 originalData db1).1,
        (processVerificationData w2 originalData db2).1 with
  | inl failure1, inl failure2 => failure1 = failure2
  | inr steps1, inr steps2 =>
      take 4 steps1 = take 4 steps2
      /\ Step.name <$> steps1 = Step.name <$> steps2
      /\ length steps1 = 6%nat
  | _, _ => False
  end.
Proof.
  unfold processVerificationData, verificationSteps.
  destruct (base45_decode originalData) as [e|bytes]; [reflexivity|].
  destruct (pako_inflate bytes) as [e|token]; [reflexivity|].
  destruct (jwt_decode token) as [e|jwtDecoded]; [reflexivity|].
  destruct (truthy jwtDecoded); [|reflexivity].
  destruct (verifySignature w1 jwtDecoded db1) as [r1 d1].
  destruct (verifySignature w2 jwtDecoded db2) as [r2 d2].
  cbn. repeat split; reflexivity.
Qed.

(** ** Further properties of the thumbprint normalizer *)

Section NormalizerExtra.

Lemma includes_append c (s t : string) :
  includes c (s +:+ t) = includes c s || includes c t.
Proof.
  induction s as [|a s IH]; [reflexivity|].
  change (includes c (String a (s +:+ t)) = includes c (String a s) || includes c t).
  cbn [includes]. rewrite IH. apply orb_assoc.
Qed.

Lemma includes_repeat_other c d n : c <> d -> includes c (repeat_char d n) = false.
Proof.
  intros Hne. induction n as [|n IH]; [reflexivity|].
  cbn [repeat_char includes]. rewrite IH.
  rewrite (eqb_neq_false d c) by congruence. reflexivity.
Qed.

Lemma replaceAll_append c d (s t : string) :
  replaceAll c d (s +:+ t) = replaceAll c d s +:+ replaceAll c d t.
Proof.
  induction s as [|a s IH]; [reflexivity|].
  change (replaceAll c d (String a (s +:+ t))
          = String (if Ascii.eqb a c then d else a) (replaceAll c d s +:+ replaceAll c d t)).
  cbn [replaceAll]. rewrite IH. reflexivity.
Qed.

Lemma removeAll_append c (s t : string) :
  removeAll c (s +:+ t) = removeAll c s +:+ removeAll c t.
Proof.
  induction s as [|a s IH]; [reflexivity|].
  change (removeAll c (String a (s +:+ t)) = removeAll c (String a s) +:+ removeAll c t).
  cbn [removeAll]. rewrite IH. destruct (Ascii.eqb a c); reflexivity.
Qed.

Lemma replaceAll_repeat_other c d e n :
  e <> c -> replaceAll c d (repeat_char e n) = repeat_char e n.
Proof.
  intros Hne. induction n as [|n IH]; [reflexivity|].
  cbn [repeat_char replaceAll]. rewrite IH, (eqb_neq_false e c Hne). reflexivity.
Qed.

Lemma removeAll_repeat c n : removeAll c (repeat_char c n) = "".
Proof.
  induction n as [|n IH]; [reflexivity|].
  cbn [repeat_char removeAll]. rewrite Ascii.eqb_refl. exact IH.
Qed.

(** The two character maps of the backward pass leave no URL-safe
    marker. *)
Lemma unmapped_has_no_url_marker u :
  hasBase64UrlChars (replaceAll "_" "/" (replaceAll "-" "+" u)) = false.
Proof.
  unfold hasBase64UrlChars.
  induction u as [|a r IH]; [reflexivity|].
  apply orb_false_iff in IH as [Hd Hu].
  cbn [replaceAll].
  destruct a as [[] [] [] [] [] [] [] []]; cbn -[replaceAll];
    rewrite ?Hd, ?Hu; reflexivity.
Qed.

(** On a string without standard markers the character maps of the
    backward pass are undone by the forward pass. *)
Lemma map_after_unmap u :
  hasBase64Chars u = false ->
  base64ToBase64Url (replaceAll "_" "/" (replaceAll "-" "+" u)) = u.
Proof.
  unfold hasBase64Chars, base64ToBase64Url.
  induction u as [|a r IH]; intros Hm; [reflexivity|].
  cbn [includes] in Hm.
  apply orb_false_iff in Hm as [Hm He]. apply orb_false_iff in Hm as [Hp Hs].
  apply orb_false_iff in Hp as [Hp Hp']. apply orb_false_iff in Hs as [Hs Hs'].
  apply orb_false_iff in He as [He He'].
  assert (Hr : includes "+" r || includes "/" r || includes "=" r = false)
    by (rewrite Hp', Hs', He'; reflexivity).
  specialize (IH Hr). cbn [replaceAll removeAll].
  destruct a as [[] [] [] [] [] [] [] []]; try discriminate Hp;
    try discriminate Hs; try discriminate He;
    cbn -[replaceAll removeAll]; rewrite IH; reflexivity.
Qed.

End NormalizerExtra.

(** X1. Normalizing is idempotent: the normalized form of a thumbprint
    normalizes to itself, and the second pass never reports a
    conversion. *)
Theorem normalize_idempotent (t : string) :
  let once := normalizeThumbprintForEbsi t in
  let twice := normalizeThumbprintForEbsi (normalized once) in
  normalized twice = normalized once
  /\ conversionApplied twice <> "base64-to-base64url".
Proof.
  cbn zeta.
  assert (Hfix : forall x, hasBase64Chars x && negb (hasBase64UrlChars x) = false ->
            normalized (normalizeThumbprintForEbsi x) = x
            /\ conversionApplied (normalizeThumbprintForEbsi x) <> "base64-to-base64url").
  { intros x Hx. unfold normalizeThumbprintForEbsi. rewrite Hx.
    destruct (hasBase64UrlChars x && negb (hasBase64Chars x));
      [|destruct (negb (hasBase64Chars x) && negb (hasBase64UrlChars x))];
      (split; [reflexivity | intros E; discriminate E]). }
  destruct (hasBase64Chars t && negb (hasBase64UrlChars t)) eqn:Hb.
  - assert (Hn : normalized (normalizeThumbprintForEbsi t) = base64ToBase64Url t)
      by (unfold normalizeThumbprintForEbsi; rewrite Hb; reflexivity).
    rewrite Hn. apply Hfix. rewrite url_form_has_no_standard_marker. reflexivity.
  - destruct (Hfix t Hb) as [Hn _]. rewrite Hn. apply Hfix, Hb.
Qed.

(** X2. Whatever its input, [base64UrlToBase64] returns a string whose
    length is a multiple of four and that holds neither [-] nor [_]. *)
Theorem base64UrlToBase64_shape (u : string) :
  (String.length (base64UrlToBase64 u) mod 4 = 0)%nat
  /\ hasBase64UrlChars (base64UrlToBase64 u) = false.
Proof.
  unfold base64UrlToBase64.
  pose proof (unmapped_has_no_url_marker u) as Hno.
  set (b := replaceAll "_" "/" (replaceAll "-" "+" u)) in *.
  pose proof (Nat.mod_upper_bound (String.length b) 4 ltac:(lia)) as Hub.
  pose proof (Nat.div_mod_eq (String.length b) 4) as Hdm.
  destruct (String.length b mod 4 =? 0)%nat eqn:E.
  - apply Nat.eqb_eq in E. split; [exact E | exact Hno].
  - apply Nat.eqb_neq in E. split.
    + rewrite length_append_nat, length_repeat_char.
      replace (String.length b + (4 - String.length b mod 4))%nat
        with (4 * (String.length b / 4 + 1))%nat by lia.
      rewrite Nat.mul_comm. apply Nat.Div0.mod_mul.
    + unfold hasBase64UrlChars in *. rewrite !includes_append.
      apply orb_false_iff in Hno as [-> ->].
      rewrite !includes_repeat_other by discriminate. reflexivity.
Qed.

(** X3. The round trip in the other direction: a string that holds none of
    [+], [/], [=] is given back by [base64UrlToBase64] followed by
    [base64ToBase64Url]. *)
Theorem url_form_round_trip (u : string) :
  hasBase64Chars u = false ->
  base64ToBase64Url (base64UrlToBase64 u) = u.
Proof.
  intros Hm. pose proof (map_after_unmap u Hm) as Hback.
  unfold base64UrlToBase64. cbv zeta.
  destruct (String.length _ mod 4 =? 0)%nat; [exact Hback|].
  unfold base64ToBase64Url in *.
  rewrite !replaceAll_append, removeAll_append.
  rewrite !replaceAll_repeat_other by discriminate.
  rewrite removeAll_repeat, append_empty_r. exact Hback.
Qed.

Lemma url_form_round_trip_witness :
  hasBase64Chars "DPNTPbCkYBEYz_ZucBtb8emHYDPXZDnv1Kf2f_iL-0g" = false
  /\ base64ToBase64Url (base64UrlToBase64 "DPNTPbCkYBEYz_ZucBtb8emHYDPXZDnv1Kf2f_iL-0g")
     = "DPNTPbCkYBEYz_ZucBtb8emHYDPXZDnv1Kf2f_iL-0g".
Proof.
  split; [vm_compute; reflexivity|].
  apply (url_form_round_trip "DPNTPbCkYBEYz_ZucBtb8emHYDPXZDnv1Kf2f_iL-0g").
  vm_compute. reflexivity.
Defined.

(** ** Further properties of the registry client *)

Section ClientExtra.

Import EbsiCache.

Implicit Types (db : gmap string CacheEntry) (e : CacheEntry) (t : string).

Lemma normalize_fixed (x : string) :
  hasBase64Chars x && negb (hasBase64UrlChars x) = false ->
  normalized (normalizeThumbprintForEbsi x) = x.
Proof.
  intros Hx. unfold normalizeThumbprintForEbsi. rewrite Hx.
  destruct (hasBase64UrlChars x && negb (hasBase64Chars x));
    [|destruct (negb (hasBase64Chars x) && negb (hasBase64UrlChars x))]; reflexivity.
Qed.

(** The document of [findOrCreate] passes the validation, in a cache of
    documents that do. *)
Lemma findOrCreate_valid at_time db t :
  cache_valid db -> t <> "" ->
  validate (findOrCreate at_time db t) = Some (findOrCreate at_time db t).
Proof.
  intros Hval Hne. unfold findOrCreate, findOne.
  destruct (db !! t) as [e|] eqn:He; [exact (Hval t e He)|].
  unfold validate, create. cbn.
  apply String.eqb_neq in Hne. rewrite Hne. reflexivity.
Qed.

(** The verdict of a lookup that the registry answers on a miss or on a
    forced refresh, and the document it writes. *)
Lemma answered_lookup (w : Outside) t (forceRefresh : bool) db status data :
  cache_wf db ->
  cache_valid db ->
  t <> "" ->
  forceRefresh = true \/ db !! t = None ->
  axios_get w (issuers_url (normalized (normalizeThumbprintForEbsi t)))
    = Resolved status data ->
  storable data = true ->
  exists e',
    checkThumbprintInBridge w t forceRefresh db
    = (nonEmptyArrayTest data, <[t := e']> db)
    /\ validate (withEbsiResponse (now w) (findOrCreate (now w) db t) data status None)
       = Some e'
    /\ validate e' = Some e'
    /\ thumbprint e' = t.
Proof.
  intros Hwf Hval Hne Hmiss Hget Hs. unfold checkThumbprintInBridge.
  assert (Hsel : (if forceRefresh then None else findOne db t) = None).
  { destruct Hmiss as [-> | Hnone]; [reflexivity|].
    destruct forceRefresh; [reflexivity | exact Hnone]. }
  rewrite Hsel, Hget. unfold updateWithEbsiResponse, save.
  destruct (storable_update (now w) (findOrCreate (now w) db t) data status None Hs
              (findOrCreate_valid (now w) db t Hval Hne)) as (e' & Hv & Ht & _).
  rewrite Hv. rewrite (findOrCreate_thumbprint (now w) db t Hwf) in Ht.
  exists e'. rewrite Ht.
  split; [reflexivity|]. split; [reflexivity|].
  split; [exact (validate_idem _ _ Hv) | reflexivity].
Qed.

(** A lookup served from the cache. *)
Lemma cached_lookup (w : Outside) t db e :
  cache_wf db -> db !! t = Some e -> validate e = Some e ->
  checkThumbprintInBridge w t false db = (found e, <[t := incrementHitCount e]> db).
Proof.
  intros Hwf He Hv. unfold checkThumbprintInBridge, findOne. rewrite He.
  unfold save. rewrite (validate_increment e Hv).
  cbn [incrementHitCount thumbprint found]. rewrite (Hwf t e He). reflexivity.
Qed.

(** The URL-safe form of a standard-base64 text that is not empty is not
    empty. *)
Lemma url_form_not_empty (s : string) :
  is_standard_base64 s = true -> s <> "" -> base64ToBase64Url s <> "".
Proof.
  unfold is_standard_base64. intros Hstd Hne.
  apply andb_true_iff in Hstd as [Hw Hlen].
  destruct s as [|a r]; [contradiction|].
  cbn [well_padded] in Hw.
  destruct (is_b64_char a) eqn:Ha.
  - unfold base64ToBase64Url. cbn [replaceAll removeAll].
    destruct (Ascii.eqb a "+") eqn:Hp; [discriminate|].
    destruct (Ascii.eqb a "/") eqn:Hs; [discriminate|].
    destruct (Ascii.eqb a "=") eqn:He; [|discriminate].
    apply Ascii.eqb_eq in He. subst a. discriminate Ha.
  - apply andb_true_iff in Hw as [_ Hr].
    apply orb_true_iff in Hr as [Hr | Hr]; apply String.eqb_eq in Hr; subst r;
      discriminate Hlen.
Qed.

End ClientExtra.

(** X4. A lookup touches the document of its own thumbprint only: the
    documents of all other thumbprints are left as they were, and every
    document stays stored under its own thumbprint. Either the lookup
    returns [false] and the cache is as it was (the registry failed, or
    the document was not accepted by [save]), or the document of the
    thumbprint is written with the counter one higher (2 for a new
    document) and a [found] that is [true] exactly when the verdict
    returned is truthy. *)
Theorem lookup_frame (w : Outside) (t : string) (forceRefresh : bool)
    (db : gmap string EbsiCache.CacheEntry) :
  cache_wf db ->
  let r := checkThumbprintInBridge w t forceRefresh db in
  cache_wf r.2
  /\ (forall t', t' <> t -> r.2 !! t' = db !! t')
  /\ (r = (JBool false, db)
      \/ exists e',
           r.2 !! t = Some e'
           /\ dom r.2 = {[ t ]} ∪ dom db
           /\ EbsiCache.found e' = JBool (truthy r.1)
           /\ EbsiCache.hitCount e' = match db !! t with
                                      | Some e => EbsiCache.hitCount e + 1
                                      | None => 2
                                      end).
Proof.
  intros Hwf. cbn zeta.
  destruct (lookup_cases w t forceRefresh db Hwf)
    as [Hr | (e' & Hr & Ht & _ & Hf & Hc)].
  - rewrite Hr. cbn [snd]. split; [exact Hwf|]. split; [reflexivity|].
    left. reflexivity.
  - rewrite Hr. split; [apply cache_wf_insert; assumption|].
    split; [intros t' Hne; apply lookup_insert_ne; congruence|].
    right. exists e'. split; [apply lookup_insert_eq|].
    split; [apply dom_insert_L|]. split; assumption.
Qed.

Lemma lookup_frame_witness :
  cache_wf example_cache
  /\ (checkThumbprintInBridge registry_unavailable example_thumbprint true example_cache).2
       !! "c2lnbmVkLWJ5LW5vYm9keQ"
     = example_cache !! "c2lnbmVkLWJ5LW5vYm9keQ".
Proof.
  assert (Hwf : cache_wf example_cache).
  { unfold cache_wf. apply (bool_decide_unpack _). vm_compute. reflexivity. }
  split; [exact Hwf|].
  destruct (lookup_frame registry_unavailable example_thumbprint true example_cache Hwf)
    as (_ & Hother & _).
  apply Hother. discriminate.
Defined.

(** X5. Once a lookup of a thumbprint has returned a truthy verdict, every
    later lookup of the thumbprint that does not force a refresh returns
    [true], whatever the registry would answer then: it is served from the
    cache, and writes the cached document with its counter one higher. *)
Theorem answered_verdict_is_cached (w1 w2 : Outside) (t : string)
    (forceRefresh : bool) (db : gmap string EbsiCache.CacheEntry) :
  cache_wf db ->
  let first := checkThumbprintInBridge w1 t forceRefresh db in
  let second := checkThumbprintInBridge w2 t false first.2 in
  truthy first.1 = true ->
  second.1 = JBool true
  /\ exists e, first.2 !! t = Some e
               /\ EbsiCache.found e = JBool true
               /\ second.2 = <[t := incrementHitCount e]> first.2.
Proof.
  intros Hwf. cbn zeta.
  pose proof (lookup_keeps_cache_wf w1 t forceRefresh db Hwf) as Hwf'.
  destruct (lookup_cases w1 t forceRefresh db Hwf)
    as [Hr | (e' & Hr & Ht & Hv & Hf & _)].
  - rewrite Hr. discriminate.
  - intros Htrue. rewrite Htrue in Hf.
    assert (He : (checkThumbprintInBridge w1 t forceRefresh db).2 !! t = Some e')
      by (rewrite Hr; apply lookup_insert_eq).
    rewrite (cached_lookup w2 t _ e' Hwf' He Hv). cbn [fst snd].
    split; [exact Hf|]. exists e'. split; [exact He|]. split; [exact Hf | reflexivity].
Qed.

Lemma answered_verdict_is_cached_witness :
  (checkThumbprintInBridge registry_unavailable example_thumbprint false
     (checkThumbprintInBridge registry_finds example_thumbprint false ∅).2).1
  = JBool true.
Proof.
  refine (proj1 (answered_verdict_is_cached registry_finds registry_unavailable
                   example_thumbprint false ∅ _ _)).
  - apply cache_wf_empty.
  - vm_compute. reflexivity.
Defined.

(** X6. A forced refresh that the registry answers with a response that
    passes the casts of the schema replaces what the cache knew of the
    thumbprint: the stored verdict is the one returned ([true] exactly for
    a non-empty array), response and status are the new ones, a recorded
    error is cleared and [needsRefresh] is reset, whatever the document
    held before. *)
Theorem forced_refresh_overrides (w : Outside) (t : string)
    (db : gmap string EbsiCache.CacheEntry) (status : Z) (data : js_value) :
  cache_wf db ->
  cache_valid db ->
  t <> "" ->
  axios_get w (issuers_url (normalized (normalizeThumbprintForEbsi t)))
    = Resolved status data ->
  storable data = true ->
  let r := checkThumbprintInBridge w t true db in
  exists e',
    r.2 !! t = Some e'
    /\ r.1 = nonEmptyArrayTest data
    /\ EbsiCache.found e' = JBool (truthy r.1)
    /\ (r.1 = JBool true <-> exists issuer rest, data = JArr (issuer :: rest))
    /\ EbsiCache.ebsiResponse e' = data
    /\ EbsiCache.lastStatus e' = Some status
    /\ EbsiCache.lastError e' = None
    /\ EbsiCache.needsRefresh e' = false
    /\ EbsiCache.lastChecked e' = now w.
Proof.
  intros Hwf Hval Hne Hget Hs. cbn zeta.
  destruct (answered_lookup w t true db status data Hwf Hval Hne
              (or_introl eq_refl) Hget Hs) as (e' & Hr & Hv & _ & _).
  destruct (lookup_cases w t true db Hwf) as [Hr' | (e'' & Hr'' & _ & _ & Hf & _)].
  - exfalso. rewrite Hr in Hr'. injection Hr' as _ Hdb.
    apply (f_equal (fun m => m !! t)) in Hdb.
    rewrite lookup_insert_eq in Hdb.
    pose proof (validate_Some _ _ Hv) as (_ & _ & _ & _ & _ & _ & _ & _ & Hn & _).
    cbn [EbsiCache.withEbsiResponse EbsiCache.needsRefresh] in Hn.
    pose proof (validate_Some _ _ Hv) as (_ & _ & _ & _ & _ & _ & _ & Hc & _).
    cbn [EbsiCache.withEbsiResponse EbsiCache.hitCount] in Hc.
    unfold EbsiCache.findOrCreate, EbsiCache.findOne in Hc.
    rewrite <- Hdb in Hc. lia.
  - rewrite Hr in Hr'', Hf |- *. cbn [fst snd] in *.
    assert (He : e'' = e').
    { apply (f_equal (fun m => m !! t)) in Hr''.
      rewrite !lookup_insert_eq in Hr''. congruence. }
    subst e''.
    pose proof (validate_Some _ _ Hv)
      as (_ & _ & _ & _ & _ & Hresp & Hlc & _ & Hn & _ & Hst & Herr).
    cbn [EbsiCache.withEbsiResponse EbsiCache.ebsiResponse EbsiCache.lastChecked
         EbsiCache.needsRefresh EbsiCache.lastStatus EbsiCache.lastError]
      in Hresp, Hlc, Hn, Hst, Herr.
    exists e'. split; [apply lookup_insert_eq|]. split; [reflexivity|].
    split; [exact Hf|]. split; [apply nonEmptyArrayTest_true|].
    repeat split; assumption.
Qed.

Lemma forced_refresh_overrides_witness :
  exists e',
    (checkThumbprintInBridge registry_finds "c2lnbmVkLWJ5LW5vYm9keQ" true example_cache).2
      !! "c2lnbmVkLWJ5LW5vYm9keQ" = Some e'
    /\ EbsiCache.found e' = JBool true
    /\ EbsiCache.lastStatus e' = Some 200.
Proof.
  assert (Hwf : cache_wf example_cache).
  { unfold cache_wf. apply (bool_decide_unpack _). vm_compute. reflexivity. }
  assert (Hval : cache_valid example_cache).
  { unfold cache_valid.
    assert (Hc : example_cache
                 = <["c2lnbmVkLWJ5LW5vYm9keQ" :=
                       default (EbsiCache.create 0 "")
                         (example_cache !! "c2lnbmVkLWJ5LW5vYm9keQ")]>
                     (<[example_thumbprint :=
                          default (EbsiCache.create 0 "")
                            (example_cache !! example_thumbprint)]> ∅))
      by (vm_compute; reflexivity).
    rewrite Hc. apply map_Forall_insert_2; [vm_compute; reflexivity|].
    apply map_Forall_insert_2; [vm_compute; reflexivity|].
    apply map_Forall_empty. }
  destruct (forced_refresh_overrides registry_finds "c2lnbmVkLWJ5LW5vYm9keQ"
              example_cache 200 (JArr [example_issuer]) Hwf Hval
              ltac:(discriminate) eq_refl eq_refl)
    as (e' & He & Hr & Hf & _ & _ & Hst & _).
  exists e'. split; [exact He|]. split; [|exact Hst].
  rewrite Hf, Hr. reflexivity.
Defined.

(** X7. The registry is asked for the URL-safe form, the cache is keyed by
    the thumbprint as given: the standard and the URL-safe text of one
    thumbprint send the same request and get the same verdict, but, with a
    registry whose answer is stored, the lookup of the second is a miss
    after the lookup of the first, and the cache then holds one document
    for each. *)
Theorem cache_key_is_not_normalized (w : Outside) (s : string)
    (status : Z) (data : js_value) :
  is_standard_base64 s = true ->
  hasBase64Chars s = true ->
  let u := base64ToBase64Url s in
  axios_get w (issuers_url u) = Resolved status data ->
  storable data = true ->
  let first := checkThumbprintInBridge w s false ∅ in
  let second := checkThumbprintInBridge w u false first.2 in
  issuers_url (normalized (normalizeThumbprintForEbsi s))
  = issuers_url (normalized (normalizeThumbprintForEbsi u))
  /\ u <> s
  /\ (checkThumbprintInBridge w u false ∅).1 = first.1
  /\ dom second.2 = {[ s; u ]}
  /\ size second.2 = 2%nat.
Proof.
  intros Hstd Hmark. cbn zeta. intros Hget Hs.
  assert (Hurl : hasBase64UrlChars s = false).
  { apply well_padded_no_url_chars. unfold is_standard_base64 in Hstd.
    apply andb_true_iff in Hstd as [Hw _]. exact Hw. }
  assert (Hns : normalized (normalizeThumbprintForEbsi s) = base64ToBase64Url s).
  { unfold normalizeThumbprintForEbsi. rewrite Hmark, Hurl. reflexivity. }
  assert (Hnu : normalized (normalizeThumbprintForEbsi (base64ToBase64Url s))
                = base64ToBase64Url s).
  { apply normalize_fixed. rewrite url_form_has_no_standard_marker. reflexivity. }
  assert (Hne : base64ToBase64Url s <> s).
  { intros E. pose proof (url_form_has_no_standard_marker s) as H0.
    rewrite E, Hmark in H0. discriminate. }
  assert (Hs0 : s <> "") by (intros ->; discriminate Hmark).
  pose proof (url_form_not_empty s Hstd Hs0) as Hu0.
  split; [rewrite Hns, Hnu; reflexivity|]. split; [exact Hne|].
  destruct (answered_lookup w s false ∅ status data cache_wf_empty
              (map_Forall_empty _) Hs0 (or_intror (lookup_empty _))
              ltac:(rewrite Hns; exact Hget) Hs) as (e1 & He1 & _ & Hv1 & Ht1).
  destruct (answered_lookup w (base64ToBase64Url s) false ∅ status data cache_wf_empty
              (map_Forall_empty _) Hu0 (or_intror (lookup_empty _))
              ltac:(rewrite Hnu; exact Hget) Hs) as (e0 & He0 & _).
  rewrite He1, He0. cbn [fst snd].
  assert (Hwf1 : cache_wf (<[s := e1]> (∅ : gmap string EbsiCache.CacheEntry)))
    by (apply cache_wf_insert; [apply cache_wf_empty | exact Ht1]).
  assert (Hval1 : cache_valid (<[s := e1]> (∅ : gmap string EbsiCache.CacheEntry)))
    by (apply map_Forall_insert_2; [exact Hv1 | apply map_Forall_empty]).
  assert (Hnone : (<[s := e1]> (∅ : gmap string EbsiCache.CacheEntry))
                    !! base64ToBase64Url s = None)
    by (rewrite lookup_insert_ne by congruence; apply lookup_empty).
  assert (Hget' : axios_get w (issuers_url (normalized
                    (normalizeThumbprintForEbsi (base64ToBase64Url s))))
                  = Resolved status data) by (rewrite Hnu; exact Hget).
  destruct (answered_lookup w (base64ToBase64Url s) false _ status data Hwf1 Hval1 Hu0
              (or_intror Hnone) Hget' Hs) as (e2 & He2 & _).
  rewrite He2. cbn [snd]. split; [reflexivity|]. split.
  - rewrite !dom_insert_L, dom_empty_L. set_solver.
  - rewrite map_size_insert_None.
    + rewrite map_size_insert_None by apply lookup_empty. reflexivity.
    + rewrite lookup_insert_ne by congruence. apply lookup_empty.
Qed.

Lemma cache_key_is_not_normalized_witness :
  is_standard_base64 example_thumbprint = true
  /\ hasBase64Chars example_thumbprint = true
  /\ size (checkThumbprintInBridge registry_finds (base64ToBase64Url example_thumbprint)
             false
             (checkThumbprintInBridge registry_finds example_thumbprint false ∅).2).2
     = 2%nat.
Proof.
  split; [vm_compute; reflexivity|]. split; [vm_compute; reflexivity|].
  refine (proj2 (proj2 (proj2 (proj2
            (cache_key_is_not_normalized registry_finds example_thumbprint 200
               (JArr [example_issuer]) _ _ _ _)))));
    vm_compute; reflexivity.
Defined.

(** ** Further properties of the signature validator *)

Section ValidatorExtra.

Context `{NodeCrypto}.

(** A registry response without a [results] array of issuer records
    yields no key: in particular [null], [undefined] and every JSON
    array. *)
Lemma resolvePublicKey_without_results (publicKeyData : js_value) :
  truthy publicKeyData = false \/ isArray publicKeyData = true ->
  resolvePublicKey publicKeyData =
    throw (JsError "Invalid EBSI response structure - expected data.results array").
Proof.
  intros [Hf | Ha]; unfold resolvePublicKey.
  - unfold js_and at 1. rewrite Hf, Hf. reflexivity.
  - destruct publicKeyData; try discriminate Ha. reflexivity.
Qed.

(** The result of the validator when its [try] block throws before any
    call, or returns. *)
Lemma validate_of_try (jwtToken : string) (publicKeyData : js_value) calls r :
  validateJwtSignature_try jwtToken publicKeyData = (calls, r) ->
  validateJwtSignature jwtToken publicKeyData
  = (calls, match r with inr result => result | inl error => validation_failure error end).
Proof. unfold validateJwtSignature. intros ->. destruct r; reflexivity. Qed.

Lemma failure_not_valid (error : thrown) :
  prop (validation_failure error) "signatureValid" = JBool false.
Proof. reflexivity. Qed.

End ValidatorExtra.

(** X8. A token that does not consist of exactly three segments separated
    by [.] is rejected with "Invalid JWT format - expected 3 parts",
    without parsing anything and without any call into key material
    resolution or verification, whatever the registry data. *)
Theorem wrong_segment_count_rejected `{NodeCrypto}
    (jwtToken : string) (publicKeyData : js_value) :
  length (split "." jwtToken) <> 3%nat ->
  validateJwtSignature jwtToken publicKeyData =
    ([], JObj [("signatureValid", JBool false);
               ("error", JStr "Invalid JWT format - expected 3 parts");
               ("publicKeySource", JNull)]).
Proof.
  intros Hlen. unfold validateJwtSignature, validateJwtSignature_try.
  destruct (split "." jwtToken) as [|h [|p [|s [|x l]]]]; try reflexivity.
  cbn in Hlen. congruence.
Qed.

Lemma wrong_segment_count_rejected_witness :
  validateJwtSignature "eyJhbGciOiJSUzI1NiJ9.eyJpc3MiOiJCRSJ9"
    (JObj [("results", JArr [example_issuer])]) =
    ([], JObj [("signatureValid", JBool false);
               ("error", JStr "Invalid JWT format - expected 3 parts");
               ("publicKeySource", JNull)]).
Proof.
  apply (wrong_segment_count_rejected "eyJhbGciOiJSUzI1NiJ9.eyJpc3MiOiJCRSJ9").
  vm_compute. discriminate.
Defined.

(** X9. The validator reports [signatureValid: true] only if it called
    the verification on the signing input [header.payload] of the token,
    with a key that key material resolution produced from the registry
    data, and the verification returned [true]. That call is the last one
    it made. *)
Theorem valid_only_if_verified `{NodeCrypto}
    (jwtToken : string) (publicKeyData : js_value) :
  prop (validateJwtSignature jwtToken publicKeyData).2 "signatureValid" = JBool true ->
  exists headerB64 payloadB64 signatureB64 calls publicKey issuerData,
    split "." jwtToken = [headerB64; payloadB64; signatureB64]
    /\ resolvePublicKey publicKeyData = (calls, inr (publicKey, issuerData))
    /\ (validateJwtSignature jwtToken publicKeyData).1
       = calls ++ [Verify publicKey (headerB64 +:+ "." +:+ payloadB64)]
    /\ rsa_sha256_verify publicKey (headerB64 +:+ "." +:+ payloadB64)
         (Buffer_from_base64url signatureB64) = inr true.
Proof.
  unfold validateJwtSignature, validateJwtSignature_try.
  destruct (split "." jwtToken) as [|h [|p [|s [|x l]]]];
    try (cbn; intros E; discriminate E).
  destruct (parse_base64url_json h) as [e|header];
    [cbn; intros E; discriminate E|].
  rewrite bind_lift_inr.
  destruct (read header "alg") as [e|alg]; [cbn; intros E; discriminate E|].
  rewrite bind_lift_inr.
  destruct (log_kid header) as [e|[]]; [cbn; intros E; discriminate E|].
  rewrite bind_lift_inr.
  destruct (negb (is_string (js_or alg (JStr "RS256")) "RS256"));
    [cbn; intros E; discriminate E|].
  unfold verifyWithAlgorithm.
  destruct (resolvePublicKey publicKeyData) as [calls [e|[publicKey issuerData]]] eqn:Hkey;
    [cbn; intros E; discriminate E|].
  unfold bind at 1. unfold call, bind, ret.
  destruct (rsa_sha256_verify _ _ _) as [e|isValid] eqn:Hv;
    [cbn; intros E; discriminate E|].
  cbn. intros [= ->].
  exists h, p, s, calls, publicKey, issuerData.
  rewrite ?app_nil_r. repeat split; try reflexivity; assumption.
Qed.

Lemma valid_only_if_verified_witness :
  prop (@validateJwtSignature accepting_crypto example_token example_results).2
    "signatureValid" = JBool true
  /\ exists headerB64 payloadB64 signatureB64 calls publicKey issuerData,
       split "." example_token = [headerB64; payloadB64; signatureB64]
       /\ @resolvePublicKey accepting_crypto example_results
          = (calls, inr (publicKey, issuerData))
       /\ (@validateJwtSignature accepting_crypto example_token example_results).1
          = calls ++ [Verify publicKey (headerB64 +:+ "." +:+ payloadB64)]
       /\ @rsa_sha256_verify accepting_crypto publicKey
            (headerB64 +:+ "." +:+ payloadB64)
            (@Buffer_from_base64url accepting_crypto signatureB64) = inr true.
Proof.
  assert (Hv : prop (@validateJwtSignature accepting_crypto example_token
                       example_results).2 "signatureValid" = JBool true)
    by (vm_compute; reflexivity).
  split; [exact Hv|].
  exact (@valid_only_if_verified accepting_crypto example_token example_results Hv).
Defined.

Lemma validator_without_results `{NodeCrypto}
    (jwtToken : string) (publicKeyData : js_value) :
  truthy publicKeyData = false \/ isArray publicKeyData = true ->
  (validateJwtSignature jwtToken publicKeyData).1 = []
  /\ prop (validateJwtSignature jwtToken publicKeyData).2 "signatureValid" = JBool false.
Proof.
  intros Hshape.
  pose proof (resolvePublicKey_without_results publicKeyData Hshape) as Hkey.
  unfold validateJwtSignature, validateJwtSignature_try.
  destruct (split "." jwtToken) as [|h [|p [|s [|x l]]]]; try (split; reflexivity).
  destruct (parse_base64url_json h) as [e|header]; [split; reflexivity|].
  rewrite bind_lift_inr.
  destruct (read header "alg") as [e|alg]; [split; reflexivity|].
  rewrite bind_lift_inr.
  destruct (log_kid header) as [e|[]]; [split; reflexivity|].
  rewrite bind_lift_inr.
  destruct (negb (is_string (js_or alg (JStr "RS256")) "RS256")); [split; reflexivity|].
  unfold verifyWithAlgorithm. rewrite Hkey. split; reflexivity.
Qed.


(** X10. Registry data that is [null], [undefined] or a JSON array (the
    shape in which the registry client caches a response) never
    validates: for every token the result is [signatureValid: false] and
    neither key material resolution nor verification is called. For a
    token that passes the checks on its own form (three segments, a header
    that parses, RS256 or no algorithm) the error reported is the one on
    the shape of the registry data. *)
Theorem array_response_never_validates `{NodeCrypto}
    (jwtToken : string) (publicKeyData : js_value) :
  truthy publicKeyData = false \/ isArray publicKeyData = true ->
  (validateJwtSignature jwtToken publicKeyData).1 = []
  /\ prop (validateJwtSignature jwtToken publicKeyData).2 "signatureValid" = JBool false
  /\ (forall headerB64 payloadB64 signatureB64 header alg,
        split "." jwtToken = [headerB64; payloadB64; signatureB64] ->
        parse_base64url_json headerB64 = inr header ->
        get header "alg" = Some alg ->
        log_kid header = inr tt ->
        is_string (js_or alg (JStr "RS256")) "RS256" = true ->
        (validateJwtSignature jwtToken publicKeyData).2
        = JObj [("signatureValid", JBool false);
                ("error",
                 JStr "Invalid EBSI response structure - expected data.results array");
                ("publicKeySource", JNull)]).
Proof.
  intros Hshape.
  pose proof (resolvePublicKey_without_results publicKeyData Hshape) as Hkey.
  split; [|split].
  - unfold validateJwtSignature, validateJwtSignature_try.
    destruct (split "." jwtToken) as [|h [|p [|s [|x l]]]]; try reflexivity.
    destruct (parse_base64url_json h) as [e|header]; [reflexivity|].
    rewrite bind_lift_inr.
    destruct (read header "alg") as [e|alg]; [reflexivity|].
    rewrite bind_lift_inr.
    destruct (log_kid header) as [e|[]]; [reflexivity|].
    rewrite bind_lift_inr.
    destruct (negb (is_string (js_or alg (JStr "RS256")) "RS256")); [reflexivity|].
    unfold verifyWithAlgorithm. rewrite Hkey. reflexivity.
  - unfold validateJwtSignature.
    destruct (validateJwtSignature_try jwtToken publicKeyData) as [calls [e|result]] eqn:Htry;
      [reflexivity|].
    exfalso. revert Htry. unfold validateJwtSignature_try.
    destruct (split "." jwtToken) as [|h [|p [|s [|x l]]]]; try discriminate.
    destruct (parse_base64url_json h) as [e|header]; [discriminate|].
    rewrite bind_lift_inr.
    destruct (read header "alg") as [e|alg]; [discriminate|].
    rewrite bind_lift_inr.
    destruct (log_kid header) as [e|[]]; [discriminate|].
    rewrite bind_lift_inr.
    destruct (negb (is_string (js_or alg (JStr "RS256")) "RS256")); [discriminate|].
    unfold verifyWithAlgorithm. rewrite Hkey. discriminate.
  - intros h p s header alg Hsplit Hparse Halg Hkid Hrs.
    unfold validateJwtSignature.
    rewrite (validate_after_header jwtToken h p s header alg publicKeyData
               Hsplit Hparse Halg Hkid).
    rewrite Hrs. cbn [negb]. unfold verifyWithAlgorithm. rewrite Hkey.
    reflexivity.
Qed.

Lemma array_response_never_validates_witness :
  prop (validateJwtSignature example_token (JArr [example_issuer])).2 "signatureValid"
  = JBool false.
Proof.
  refine (proj1 (proj2 (array_response_never_validates example_token
                          (JArr [example_issuer]) _))).
  right. reflexivity.
Defined.





(** ** Further properties of the registry lookup for a token *)

Section VerifyExtra.

Lemma split_no_separator c (a : string) :
  includes c a = false -> split c a = [a].
Proof.
  induction a as [|x a IH]; intros Hn; [reflexivity|].
  cbn [includes] in Hn. apply orb_false_iff in Hn as [Hx Ha].
  cbn [split]. rewrite Hx, (IH Ha). reflexivity.
Qed.

Lemma split_at_separator c (a r : string) :
  includes c a = false ->
  split c (a +:+ String c r) = a :: split c r.
Proof.
  induction a as [|x a IH]; intros Hn.
  - change (split c (String c r) = "" :: split c r).
    cbn [split]. rewrite Ascii.eqb_refl. reflexivity.
  - cbn [includes] in Hn. apply orb_false_iff in Hn as [Hx Ha].
    change (split c (String x (a +:+ String c r)) = String x a :: split c r).
    cbn [split]. rewrite Hx, (IH Ha). reflexivity.
Qed.

Lemma append_assoc_string (a b c : string) : (a +:+ b) +:+ c = a +:+ (b +:+ c).
Proof.
  induction a as [|x a IH]; [reflexivity|].
  change (String x ((a +:+ b) +:+ c) = String x (a +:+ (b +:+ c))). f_equal. exact IH.
Qed.

(** What [save] writes of a document that satisfies the invariant on
    [found] satisfies it. *)
Lemma validate_keeps_found_consistent (x stored : EbsiCache.CacheEntry) :
  EbsiCache.validate x = Some stored ->
  found_consistent x = true -> found_consistent stored = true.
Proof.
  intros Hv. pose proof (validate_Some _ _ Hv)
    as (_ & _ & (b & Hb & Hcast) & _ & _ & Hresp & _).
  unfold found_consistent. rewrite Hb, Hresp, Hcast. cbn [EbsiCache.castBoolean].
  auto.
Qed.

Lemma update_found_consistent (at_time : Z) (e : EbsiCache.CacheEntry)
    (response : js_value) (status : Z) (error : option string) :
  found_consistent (EbsiCache.withEbsiResponse at_time e response status error) = true.
Proof.
  unfold found_consistent.
  cbn [EbsiCache.withEbsiResponse EbsiCache.found EbsiCache.ebsiResponse].
  rewrite nonEmptyArrayTest_spec.
  destruct response as [| |b|n|s|[|y l]|ps]; try reflexivity.
  - destruct (n =? 0) eqn:E; [|reflexivity].
    apply Z.eqb_eq in E. subst n. reflexivity.
  - destruct (String.eqb s "") eqn:E; [|reflexivity].
    apply String.eqb_eq in E. subst s. reflexivity.
Qed.

(** The invariant on [found] is kept by every lookup. *)
Lemma lookup_keeps_found_consistent (w : Outside) (t : string) (forceRefresh : bool)
    (db : gmap string EbsiCache.CacheEntry) :
  cache_wf db -> cache_found_consistent db ->
  cache_found_consistent (checkThumbprintInBridge w t forceRefresh db).2.
Proof.
  intros Hwf Hinv.
  unfold checkThumbprintInBridge, EbsiCache.findOne.
  destruct (if forceRefresh then None else db !! t) as [e|] eqn:Hsel.
  - assert (He : db !! t = Some e) by (destruct forceRefresh; [discriminate | exact Hsel]).
    unfold EbsiCache.save.
    destruct (EbsiCache.validate (incrementHitCount e)) as [stored|] eqn:Hv;
      [|rewrite lookupFailed_unchanged; exact Hinv].
    cbn [snd]. apply map_Forall_insert_2; [|exact Hinv].
    apply (validate_keeps_found_consistent _ _ Hv). exact (Hinv t e He).
  - destruct (axios_get w _) as [st data | msg st | msg];
      [|rewrite lookupFailed_unchanged; exact Hinv
       |rewrite lookupFailed_unchanged; exact Hinv].
    unfold EbsiCache.updateWithEbsiResponse, EbsiCache.save.
    destruct (EbsiCache.validate _) as [stored|] eqn:Hv;
      [|rewrite lookupFailed_unchanged; exact Hinv].
    cbn [snd]. apply map_Forall_insert_2; [|exact Hinv].
    apply (validate_keeps_found_consistent _ _ Hv), update_found_consistent.
Qed.

End VerifyExtra.

(** X13. A key identifier of the form [<issuer>:x5t#S256:<thumbprint>],
    with no [:] inside the issuer part and the thumbprint, yields exactly
    that thumbprint. *)
Theorem thumbprint_of_well_formed_kid (issuer thumbprint : string) :
  includes ":" issuer = false ->
  includes ":" thumbprint = false ->
  thumbprintOfKid (JStr (issuer +:+ ":x5t#S256:" +:+ thumbprint)) = inr thumbprint.
Proof.
  intros Hi Ht. unfold thumbprintOfKid.
  assert (Htruthy : truthy (JStr (issuer +:+ ":x5t#S256:" +:+ thumbprint)) = true)
    by (destruct issuer; reflexivity).
  rewrite Htruthy. cbn [negb].
  change (":x5t#S256:" +:+ thumbprint)
    with (String ":" ("x5t#S256" +:+ String ":" thumbprint)).
  rewrite (split_at_separator ":" issuer _ Hi).
  rewrite (split_at_separator ":" "x5t#S256" thumbprint eq_refl).
  rewrite (split_no_separator ":" thumbprint Ht). reflexivity.
Qed.

Lemma thumbprint_of_well_formed_kid_witness :
  thumbprintOfKid (JStr ("EESSI" +:+ ":x5t#S256:" +:+ example_thumbprint))
  = inr example_thumbprint.
Proof.
  apply (thumbprint_of_well_formed_kid "EESSI" example_thumbprint); reflexivity.
Defined.

(** X14. A token whose header has no key identifier, or one that is a
    string without the tag [x5t#S256] as its second [:]-separated part or
    with fewer than three parts, gets the "Verification Error" object with
    the message of the cause; the cache is not read or written and no
    request is made, whatever the cache and the registry. *)
Theorem unusable_kid_rejected (w : Outside) (jwtDecoded kid : js_value)
    (db : gmap string EbsiCache.CacheEntry) :
  get (prop jwtDecoded "header") "kid" = Some kid ->
  truthy kid = false
  \/ (exists k, kid = JStr k
                /\ ((length (split ":" k) < 3)%nat
                    \/ nth 1 (split ":" k) "" <> "x5t#S256")) ->
  let message := if truthy kid then "Invalid KID format: " +:+ js_toString kid
                 else "No KID found in JWT header" in
  verifySignature w jwtDecoded db =
    (JObj [("error", JStr "Verification Error");
           ("message", JStr message);
           ("details", JStr ("Error: " +:+ message))],
     db).
Proof.
  intros Hkid Hbad. cbn zeta. unfold verifySignature.
  rewrite (read_Some _ _ _ Hkid).
  destruct Hbad as [Hfalsy | (k & -> & Hparts)].
  - unfold thumbprintOfKid. rewrite Hfalsy. reflexivity.
  - unfold thumbprintOfKid.
    destruct (truthy (JStr k)) eqn:Htr; [|reflexivity]. cbn [negb js_toString].
    destruct (split ":" k) as [|a [|tag [|x l]]]; try reflexivity.
    destruct Hparts as [Hlen | Htag]; [cbn in Hlen; lia|].
    cbn in Htag. apply String.eqb_neq in Htag. rewrite Htag. reflexivity.
Qed.

Lemma unusable_kid_rejected_witness :
  verifySignature registry_finds
    (JObj [("header", JObj [("alg", JStr "RS256"); ("kid", JStr "EESSI:DPNT")]);
           ("payload", JObj [])]) example_cache =
    (JObj [("error", JStr "Verification Error");
           ("message", JStr "Invalid KID format: EESSI:DPNT");
           ("details", JStr "Error: Invalid KID format: EESSI:DPNT")],
     example_cache).
Proof.
  apply (unusable_kid_rejected registry_finds _ (JStr "EESSI:DPNT")).
  - reflexivity.
  - right. exists "EESSI:DPNT". split; [reflexivity|]. left. vm_compute. lia.
Defined.

(** X15. Country detection with an issuer claim that is a non-empty
    string: the code is a part of the claim between [/] that consists of
    two capital letters, or ["BE"] if there is none; the claims [c] and
    [country] of the payload are not consulted. *)
Theorem country_code_from_issuer (payload : js_value) (iss : string) :
  get payload "iss" = Some (JStr iss) ->
  iss <> "" ->
  exists code,
    detectCountryCode payload = inr (JStr code)
    /\ is_country_code code = true
    /\ (List.find is_country_code (split "/" iss) = Some code
        \/ (code = "BE" /\ forall part, In part (split "/" iss) -> is_country_code part = false)).
Proof.
  intros Hiss Hne. unfold detectCountryCode. rewrite (read_Some _ _ _ Hiss).
  assert (Htr : truthy (JStr iss) = true).
  { cbn. apply negb_true_iff, String.eqb_neq, Hne. }
  rewrite Htr.
  destruct (List.find is_country_code (split "/" iss)) as [part|] eqn:Hfind.
  - exists part. split; [reflexivity|].
    apply List.find_some in Hfind as [_ Hcc]. split; [exact Hcc | left; reflexivity].
  - exists "BE". split; [reflexivity|]. split; [reflexivity|]. right.
    split; [reflexivity|]. intros part Hin. exact (List.find_none _ _ Hfind part Hin).
Qed.

Lemma country_code_from_issuer_witness :
  exists code,
    detectCountryCode
      (JObj [("iss", JStr "https://issuer.example/FR/institution"); ("c", JStr "DE")])
    = inr (JStr code)
    /\ is_country_code code = true.
Proof.
  destruct (country_code_from_issuer
              (JObj [("iss", JStr "https://issuer.example/FR/institution"); ("c", JStr "DE")])
              "https://issuer.example/FR/institution" eq_refl ltac:(discriminate))
    as (code & Hd & Hc & _).
  exists code. split; assumption.
Defined.

(** X16. When the issuer is found in the registry, the validator never
    accepts. After the lookup of a token, if the document of its
    thumbprint has [found] equal to [true], the registry data handed to
    the validator is the cached JSON array, and the validation of any
    token against it gives [signatureValid: false] without a call into key
    material resolution or verification. *)
Theorem found_issuer_never_validates `{NodeCrypto} (w : Outside)
    (jwtDecoded kid : js_value) (x509Thumbprint jwtToken : string)
    (db : gmap string EbsiCache.CacheEntry) (entry : EbsiCache.CacheEntry) :
  cache_wf db ->
  cache_found_consistent db ->
  get (prop jwtDecoded "header") "kid" = Some kid ->
  thumbprintOfKid kid = inr x509Thumbprint ->
  (verifySignature w jwtDecoded db).2 !! x509Thumbprint = Some entry ->
  EbsiCache.found entry = JBool true ->
  let publicKeyData := prop (verifySignature w jwtDecoded db).1 "data" in
  (publicKeyData = JNull \/ publicKeyData = JUndefined
   \/ publicKeyData = EbsiCache.ebsiResponse entry)
  /\ (validateJwtSignature jwtToken publicKeyData).1 = []
  /\ prop (validateJwtSignature jwtToken publicKeyData).2 "signatureValid" = JBool false.
Proof.
  intros Hwf Hinv Hkid Ht. cbn zeta. unfold verifySignature.
  rewrite (read_Some _ _ _ Hkid), Ht.
  destruct (detectCountryCode (prop jwtDecoded "payload")) as [error|countryCode].
  - cbn. intros _ _. split; [auto|]. apply validator_without_results. left. reflexivity.
  - pose proof (lookup_keeps_found_consistent w x509Thumbprint false db Hwf Hinv) as Hinv'.
    destruct (checkThumbprintInBridge w x509Thumbprint false db) as [bridgeFound db'].
    cbn [fst snd] in *. unfold EbsiCache.findOne. intros Hentry Hfound.
    rewrite Hentry. cbn [prop assoc String.eqb Ascii.eqb Bool.eqb].
    pose proof (Hinv' x509Thumbprint entry Hentry) as Hcons.
    unfold found_consistent in Hcons. rewrite Hfound in Hcons.
    destruct (EbsiCache.ebsiResponse entry) as [| |b|n|s|[|y l]|ps] eqn:Hresp;
      try discriminate Hcons.
    cbn. split; [auto|]. apply validator_without_results. right. reflexivity.
Qed.

Lemma found_issuer_never_validates_witness :
  prop (validateJwtSignature example_token
          (prop (verifySignature registry_finds example_jwtDecoded ∅).1 "data")).2
       "signatureValid" = JBool false.
Proof.
  eapply (found_issuer_never_validates registry_finds example_jwtDecoded
            (JStr ("EESSI:x5t#S256:" +:+ example_thumbprint)) example_thumbprint
            example_token ∅).
  - apply cache_wf_empty.
  - apply map_Forall_empty.
  - reflexivity.
  - vm_compute. reflexivity.
  - vm_compute. reflexivity.
  - reflexivity.
Defined.

(** X17. A lookup that misses the cache and fails at the registry is
    reported by [verifySignature] like a success without data: status
    200, status text ["OK"] and [data] [null]; the status and the message
    of the failure do not reach the response. *)
Theorem registry_failure_reported_as_ok (w : Outside) (jwtDecoded kid countryCode : js_value)
    (x509Thumbprint : string) (db : gmap string EbsiCache.CacheEntry) :
  cache_wf db ->
  get (prop jwtDecoded "header") "kid" = Some kid ->
  thumbprintOfKid kid = inr x509Thumbprint ->
  detectCountryCode (prop jwtDecoded "payload") = inr countryCode ->
  db !! x509Thumbprint = None ->
  (forall status data,
     axios_get w (issuers_url (normalized (normalizeThumbprintForEbsi x509Thumbprint)))
     <> Resolved status data) ->
  let response := (verifySignature w jwtDecoded db).1 in
  prop response "status" = JNum 200
  /\ prop response "statusText" = JStr "OK"
  /\ prop response "data" = JNull
  /\ prop response "error" = JUndefined.
Proof.
  intros Hwf Hkid Ht Hc Hnone Hfail. cbn zeta. unfold verifySignature.
  rewrite (read_Some _ _ _ Hkid), Ht, Hc.
  rewrite (lookup_failure_effect w x509Thumbprint db false (or_intror Hnone) Hfail).
  unfold EbsiCache.findOne. rewrite Hnone. cbn. repeat split; reflexivity.
Qed.

Lemma registry_failure_reported_as_ok_witness :
  prop (verifySignature registry_unavailable example_jwtDecoded ∅).1 "status" = JNum 200.
Proof.
  refine (proj1 (registry_failure_reported_as_ok registry_unavailable example_jwtDecoded
                   (JStr ("EESSI:x5t#S256:" +:+ example_thumbprint)) (JStr "BE")
                   example_thumbprint ∅ _ _ _ _ _ _)).
  - apply cache_wf_empty.
  - reflexivity.
  - vm_compute. reflexivity.
  - vm_compute. reflexivity.
  - apply lookup_empty.
  - intros status data. discriminate.
Defined.

(** ** Further properties of the verification pipeline *)

(** X18. The value with which the pipeline fails is the one thrown by the
    stage that failed, and a failed run does not change the cache. When
    that value is an error object, its step label is ["BASE45 decoding"],
    also when the BASE45 text decoded and the failure came from the
    inflation or from the parsing of the token: the [catch] clauses are
    nested and the outermost one assigns the label last. When it is a
    primitive string, as the inflation throws, the assignments leave no
    label on it. *)
Theorem failure_label_is_base45 `{Decoders} `{NodeCrypto} (w : Outside)
    (originalData : string) (db : gmap string EbsiCache.CacheEntry)
    (thrown_value : exception) (step : option string) :
  (processVerificationData w originalData db).1 = inl (thrown_value, step) ->
  step = match thrown_value with
         | ErrorObject _ => Some "BASE45 decoding"
         | Primitive _ => None
         end
  /\ (processVerificationData w originalData db).2 = db
  /\ (base45_decode originalData = inl thrown_value
      \/ (exists bytes, base45_decode originalData = inr bytes
                        /\ pako_inflate bytes = inl thrown_value)
      \/ (exists bytes token,
             base45_decode originalData = inr bytes
             /\ pako_inflate bytes = inr token
             /\ (jwt_decode token = inl thrown_value
                 \/ exists jwt,
                      jwt_decode token = inr jwt
                      /\ truthy jwt = false
                      /\ thrown_value = ErrorObject (JsError "Invalid JWT format")))).
Proof.
  unfold processVerificationData, verificationSteps.
  destruct (base45_decode originalData) as [e|bytes] eqn:Hb.
  { destruct e as [error|value]; cbn; intros [= <- <-]; auto. }
  destruct (pako_inflate bytes) as [e|token] eqn:Hz.
  { destruct e as [error|value]; cbn; intros [= <- <-];
      (split; [reflexivity|]); (split; [reflexivity|]); right; left; eauto. }
  destruct (jwt_decode token) as [e|jwt] eqn:Hj.
  { destruct e as [error|value]; cbn; intros [= <- <-];
      (split; [reflexivity|]); (split; [reflexivity|]);
      right; right; exists bytes, token; auto. }
  destruct (truthy jwt) eqn:Htr.
  - destruct (verifySignature w jwt db) as [r d]. cbn. discriminate.
  - cbn. intros [= <- <-]. split; [reflexivity|]. split; [reflexivity|].
    right. right. exists bytes, token. split; [auto|]. split; [auto|].
    right. exists jwt. auto.
Qed.

(** A text whose BASE45 bytes do not inflate. *)
Lemma failure_label_is_base45_witness :
  (processVerificationData registry_finds example_not_deflated ∅).1
  = inl (Primitive "incorrect header check", None)
  /\ (processVerificationData registry_finds example_not_deflated ∅).2 = ∅.
Proof.
  assert (Hrun : (processVerificationData registry_finds example_not_deflated ∅).1
                 = inl (Primitive "incorrect header check", None))
    by (vm_compute; reflexivity).
  split; [exact Hrun|].
  exact (proj1 (proj2 (failure_label_is_base45 registry_finds example_not_deflated ∅
                         _ _ Hrun))).
Defined.

(** X19. The refresher completes when the registry answers. From a cache
    of documents that [save] wrote, all flagged by [markAllForRefresh],
    and with a registry that answers every request with a response that
    passes the casts of the schema, the runs of the refresher end as soon
    as their number may exceed the number of documents divided by 50, with
    no document flagged and with the same thumbprints cached. *)
Theorem refresh_completes_when_answered (ws : nat -> nat -> Outside)
    (db : gmap string EbsiCache.CacheEntry) (fuel : nat) :
  cache_wf db ->
  cache_valid db ->
  (forall run i url, exists status data,
      axios_get (ws run i) url = Resolved status data /\ storable data = true) ->
  (size db / 50 < fuel)%nat ->
  EbsiCache.countNeedsRefresh (EbsiCache.markAllForRefresh db) = size db
  /\ exists db',
       refreshCacheInBackground fuel ws 0 (EbsiCache.markAllForRefresh db) = Some db'
       /\ EbsiCache.countNeedsRefresh db' = 0%nat
       /\ (forall t e, db' !! t = Some e -> EbsiCache.needsRefresh e = false)
       /\ dom db' = dom db.
Proof.
  intros Hwf Hval Hws Hfuel.
  assert (Hn : EbsiCache.countNeedsRefresh (EbsiCache.markAllForRefresh db) = size db).
  { unfold EbsiCache.countNeedsRefresh. rewrite stale_markAll.
    unfold EbsiCache.markAllForRefresh. apply map_size_fmap. }
  split; [exact Hn|].
  destruct (refresh_runs_converge ws fuel 0%nat (EbsiCache.markAllForRefresh db))
    as (db' & Hrun & Hzero & Hdom).
  - apply markAll_flags_all. exact Hwf.
  - apply markAll_valid. exact Hval.
  - exact Hws.
  - rewrite Hn. exact Hfuel.
  - exists db'. split; [exact Hrun|]. split; [exact Hzero|].
    split; [apply no_stale_iff; exact Hzero|].
    rewrite Hdom. unfold EbsiCache.markAllForRefresh. apply dom_fmap_L.
Qed.

Lemma refresh_completes_when_answered_witness :
  exists db',
    refreshCacheInBackground 1 (fun _ _ => registry_finds) 0
      (EbsiCache.markAllForRefresh example_cache) = Some db'
    /\ EbsiCache.countNeedsRefresh db' = 0%nat.
Proof.
  assert (Hwf : cache_wf example_cache).
  { unfold cache_wf. apply (bool_decide_unpack _). vm_compute. reflexivity. }
  assert (Hval : cache_valid example_cache).
  { unfold cache_valid.
    assert (Hc : example_cache
                 = <["c2lnbmVkLWJ5LW5vYm9keQ" :=
                       default (EbsiCache.create 0 "")
                         (example_cache !! "c2lnbmVkLWJ5LW5vYm9keQ")]>
                     (<[example_thumbprint :=
                          default (EbsiCache.create 0 "")
                            (example_cache !! example_thumbprint)]> ∅))
      by (vm_compute; reflexivity).
    rewrite Hc. apply map_Forall_insert_2; [vm_compute; reflexivity|].
    apply map_Forall_insert_2; [vm_compute; reflexivity|].
    apply map_Forall_empty. }
  assert (Hsize : (size example_cache / 50 < 1)%nat) by (vm_compute; lia).
  destruct (refresh_completes_when_answered (fun _ _ => registry_finds)
              example_cache 1 Hwf Hval
              ltac:(intros run i url; exists 200, (JArr [example_issuer]);
                    split; reflexivity) Hsize)
    as (_ & db' & Hrun & Hzero & _).
  exists db'. split; assumption.
Defined.


(* ===================================================================== *)
(** ** The reference comparison *)

Section CompareExtra.

Context `{Decoders}.

Lemma same_byte_true (x y : option Byte.byte) :
  same_byte x y = true <-> x = y.
Proof.
  destruct x as [a|], y as [b|]; simpl; split; intros E;
    try discriminate; try reflexivity.
  - f_equal. apply Byte.byte_dec_bl. exact E.
  - inversion E. apply Byte.byte_dec_lb. reflexivity.
Qed.

Lemma same_byte_false (x y : option Byte.byte) :
  same_byte x y = false <-> x <> y.
Proof.
  split.
  - intros E Heq. apply same_byte_true in Heq. congruence.
  - intros Hne. destruct (same_byte x y) eqn:E; [|reflexivity].
    apply same_byte_true in E. contradiction.
Qed.

(** The state of the loop after [n] turns. *)
Lemma compare_loop (refBytes scanBytes : list Byte.byte) (n : nat) :
  let state := foldl (compare_at refBytes scanBytes) (0%nat, []) (seq 0 n) in
  (state.1 + length state.2 = n)%nat /\
  Compare.position <$> state.2
  = List.filter (fun i => negb (same_byte (refBytes !! i) (scanBytes !! i)))
      (seq 0 n) /\
  (forall d, d ∈ state.2 ->
     Compare.expected d = byte_label (refBytes !! Compare.position d) /\
     Compare.actual d = byte_label (scanBytes !! Compare.position d)).
Proof.
  induction n as [|n IH]; cbv zeta.
  - simpl. split; [reflexivity|]. split; [reflexivity|].
    intros d Hd. inversion Hd.
  - rewrite seq_S, foldl_snoc, List.filter_app. simpl.
    cbv zeta in IH.
    destruct (foldl (compare_at refBytes scanBytes) (0%nat, []) (seq 0 n))
      as [m ds] eqn:Hst.
    simpl in IH. destruct IH as (Hcount & Hpos & Hlab).
    unfold compare_at. simpl.
    destruct (same_byte (refBytes !! n) (scanBytes !! n)) eqn:Hsame; simpl.
    + split; [lia|]. split; [|exact Hlab].
      rewrite app_nil_r. exact Hpos.
    + split; [rewrite length_app; simpl; lia|]. split.
      * rewrite fmap_app, Hpos. reflexivity.
      * intros d Hd. apply elem_of_app in Hd. destruct Hd as [Hd|Hd].
        -- apply Hlab. exact Hd.
        -- apply list_elem_of_singleton in Hd. subst d. simpl.
           split; reflexivity.
Qed.

Lemma byte_of_ascii_inj (x y : ascii) :
  byte_of_ascii x = byte_of_ascii y -> x = y.
Proof.
  intros E. apply (f_equal ascii_of_byte) in E.
  rewrite !ascii_of_byte_of_ascii in E. exact E.
Qed.

Lemma lead_byte_not_ascii (b c0 c1 c2 c3 c4 c5 c6 : bool) :
  byte_of_ascii (Ascii c0 c1 c2 c3 c4 c5 c6 false)
  <> (if b then Byte.xc3 else Byte.xc2).
Proof.
  intros E. apply (f_equal ascii_of_byte) in E.
  rewrite ascii_of_byte_of_ascii in E. destruct b; discriminate E.
Qed.

Lemma cons_eq_inv {A : Type} (a b : A) (l k : list A) :
  a :: l = b :: k -> a = b /\ l = k.
Proof. intros E. injection E as -> ->. split; reflexivity. Qed.

(** The encoding loses nothing: two strings with the same bytes are the
    same string. *)
Lemma utf8_inj (a b : string) : utf8 a = utf8 b -> a = b.
Proof.
  revert b. induction a as [|x a IH]; intros [|y b] E.
  - reflexivity.
  - destruct y as [? ? ? ? ? ? ? []]; discriminate E.
  - destruct x as [? ? ? ? ? ? ? []]; discriminate E.
  - destruct x as [x0 x1 x2 x3 x4 x5 x6 x7], y as [y0 y1 y2 y3 y4 y5 y6 y7].
    destruct x7, y7; cbn [utf8 utf8_of_char app] in E.
    + apply cons_eq_inv in E as [E1 E]. apply cons_eq_inv in E as [E2 E3].
      apply byte_of_ascii_inj in E2.
      injection E2 as -> -> -> -> -> ->.
      assert (x6 = y6) as ->
        by (destruct x6, y6; (reflexivity || discriminate E1)).
      f_equal. apply IH. exact E3.
    + apply cons_eq_inv in E as [E1 E].
      exfalso. symmetry in E1. exact (lead_byte_not_ascii _ _ _ _ _ _ _ _ E1).
    + apply cons_eq_inv in E as [E1 E].
      exfalso. exact (lead_byte_not_ascii _ _ _ _ _ _ _ _ E1).
    + apply cons_eq_inv in E as [E1 E2].
      apply byte_of_ascii_inj in E1.
      injection E1 as -> -> -> -> -> -> ->.
      f_equal. apply IH. exact E2.
Qed.

Lemma compareStrings_loop (reference scanned : string) :
  let state :=
    foldl (compare_at (utf8 reference) (utf8 scanned)) (0%nat, [])
      (seq 0 (Nat.max (length (utf8 reference)) (length (utf8 scanned)))) in
  Compare.differences (compareStrings reference scanned) = state.2 /\
  Compare.isMatch (compareStrings reference scanned)
    = (length state.2 =? 0)%nat /\
  Compare.similarity (compareStrings reference scanned)
    = (if (Nat.max (length (utf8 reference)) (length (utf8 scanned)) =? 0)%nat
       then None
       else Some (percent_of (Z.of_nat state.1)
                    (Z.of_nat (Nat.max (length (utf8 reference))
                                 (length (utf8 scanned)))))).
Proof.
  cbv zeta. unfold compareStrings. cbv zeta.
  destruct (foldl _ _ _) as [m ds]. simpl. repeat split.
Qed.

End CompareExtra.

(** X20.  [compareStrings] reports a match exactly when the two texts are
    the same string. *)
Theorem compare_match_iff_equal `{Decoders} (reference scanned : string) :
  Compare.isMatch (compareStrings reference scanned) = true
  <-> reference = scanned.
Proof.
  destruct (compareStrings_loop reference scanned) as (_ & Hm & _).
  rewrite Hm. clear Hm.
  pose proof (compare_loop (utf8 reference) (utf8 scanned)
                (Nat.max (length (utf8 reference)) (length (utf8 scanned))))
    as Hloop.
  cbv zeta in Hloop. destruct Hloop as (_ & Hpos & _).
  destruct (foldl _ _ _) as [m ds]. simpl in *.
  split.
  - intros Hlen. apply Nat.eqb_eq in Hlen.
    destruct ds as [|d ds]; [|discriminate Hlen]. cbn in Hpos.
    apply utf8_inj. apply list_eq. intros i.
    destruct (decide (i < Nat.max (length (utf8 reference))
                                  (length (utf8 scanned)))%nat) as [Hlt|Hge].
    + destruct (same_byte (utf8 reference !! i) (utf8 scanned !! i)) eqn:Hsame;
        [apply same_byte_true; exact Hsame|].
      exfalso.
      assert (Hin : In i (List.filter
                            (fun i => negb (same_byte (utf8 reference !! i)
                                              (utf8 scanned !! i)))
                            (seq 0 (Nat.max (length (utf8 reference))
                                      (length (utf8 scanned)))))).
      { apply List.filter_In. split; [apply in_seq; lia|].
        rewrite Hsame. reflexivity. }
      rewrite <- Hpos in Hin. exact Hin.
    + rewrite !lookup_ge_None_2 by lia. reflexivity.
  - intros ->. apply Nat.eqb_eq.
    destruct ds as [|d ds]; [reflexivity|]. exfalso.
    assert (Hin : In (Compare.position d)
                    (List.filter
                       (fun i => negb (same_byte (utf8 scanned !! i)
                                         (utf8 scanned !! i)))
                       (seq 0 (Nat.max (length (utf8 scanned))
                                 (length (utf8 scanned))))))
      by (rewrite <- Hpos; left; reflexivity).
    apply List.filter_In in Hin as [_ Hne].
    rewrite (proj2 (same_byte_true _ _) eq_refl) in Hne. discriminate Hne.
Qed.

(** X21.  The differences reported by [compareStrings] stand, in ascending
    order and once each, at the positions below the length of the longer
    byte string where the two bytes are not the same; each is labelled
    from the two bytes at its position, and the similarity is the
    percentage of the remaining positions. *)
Theorem compare_differences_exact `{Decoders} (reference scanned : string) :
  let r := compareStrings reference scanned in
  let maxLength := Nat.max (length (utf8 reference)) (length (utf8 scanned)) in
  Compare.position <$> Compare.differences r
  = List.filter
      (fun i => negb (same_byte (utf8 reference !! i) (utf8 scanned !! i)))
      (seq 0 maxLength) /\
  (forall d, d ∈ Compare.differences r ->
     Compare.expected d = byte_label (utf8 reference !! Compare.position d) /\
     Compare.actual d = byte_label (utf8 scanned !! Compare.position d)) /\
  Compare.similarity r
    = (if (maxLength =? 0)%nat then None
       else Some (percent_of
                    (Z.of_nat (maxLength - length (Compare.differences r)))
                    (Z.of_nat maxLength))).
Proof.
  cbv zeta.
  destruct (compareStrings_loop reference scanned) as (Hd & _ & Hs).
  rewrite Hd, Hs. clear Hd Hs.
  pose proof (compare_loop (utf8 reference) (utf8 scanned)
                (Nat.max (length (utf8 reference)) (length (utf8 scanned))))
    as Hloop.
  cbv zeta in Hloop. destruct Hloop as (Hcount & Hpos & Hlab).
  destruct (foldl _ _ _) as [m ds]. simpl in *.
  split; [exact Hpos|]. split; [exact Hlab|].
  destruct (_ =? 0)%nat; [reflexivity|].
  do 2 f_equal. lia.
Qed.

(* ===================================================================== *)
(** ** Scans and references *)

Section RoutesExtra.

Context `{Decoders}.

Lemma findLatestFrom_None i best c l :
  Scan.findLatestFrom i best c l = None ->
  best = None /\ Scan.withContent c l = [].
Proof.
  revert i best. induction l as [|s l IH]; intros i best E;
    cbn [Scan.findLatestFrom] in E.
  - split; [exact E | reflexivity].
  - apply IH in E as [E1 E2].
    unfold Scan.withContent in *. cbn [List.filter]. rewrite E2.
    destruct (String.eqb (Scan.content s) c).
    + destruct best as [[j b]|]; [|discriminate E1].
      destruct (Scan.scannedAt b <? Scan.scannedAt s); discriminate E1.
    + split; [exact E1 | reflexivity].
Qed.

Lemma findLatestFrom_Some i best c l j s :
  Scan.findLatestFrom i best c l = Some (j, s) ->
  best = Some (j, s)
  \/ exists k, j = (i + k)%nat /\ l !! k = Some s /\ Scan.content s = c.
Proof.
  revert i best. induction l as [|x l IH]; intros i best E; cbn in E.
  - left. exact E.
  - apply IH in E as [E|(k & -> & Hk & Hc)].
    + destruct (String.eqb (Scan.content x) c) eqn:Hx; [|left; exact E].
      apply String.eqb_eq in Hx.
      assert (Hnew : Some (i, x) = Some (j, s) ->
                     exists k, j = (i + k)%nat /\ (x :: l) !! k = Some s
                               /\ Scan.content s = c).
      { intros [= <- <-]. exists 0%nat.
        split; [lia | split; [reflexivity | exact Hx]]. }
      destruct best as [[j' b]|]; [|right; exact (Hnew E)].
      destruct (Scan.scannedAt b <? Scan.scannedAt x);
        [right; exact (Hnew E) | left; exact E].
    + right. exists (S k). split; [lia | split; [exact Hk | exact Hc]].
Qed.

Lemma findLatest_Some c l j s :
  Scan.findLatest c l = Some (j, s) -> l !! j = Some s /\ Scan.content s = c.
Proof.
  intros E. apply findLatestFrom_Some in E as [E|(k & -> & Hk & Hc)];
    [discriminate E | split; assumption].
Qed.

Lemma withContent_app c l k :
  Scan.withContent c (l ++ k) = Scan.withContent c l ++ Scan.withContent c k.
Proof. apply List.filter_app. Qed.

(** Replacing a document by one of the same content. *)
Lemma withContent_insert c l i s s' :
  l !! i = Some s ->
  Scan.content s' = Scan.content s ->
  (length (Scan.withContent c l) <= 1)%nat ->
  (Scan.content s = c ->
   Scan.withContent c l = [s] /\ Scan.withContent c (<[i := s']> l) = [s'])
  /\ (Scan.content s <> c ->
      Scan.withContent c (<[i := s']> l) = Scan.withContent c l).
Proof.
  intros Hi Hc Hlen.
  assert (Hlt : (i < length l)%nat) by (apply lookup_lt_is_Some; eauto).
  assert (E1 : Scan.withContent c l
               = Scan.withContent c (take i l)
                 ++ (if String.eqb (Scan.content s) c then [s] else [])
                 ++ Scan.withContent c (drop (S i) l)).
  { rewrite <- (take_drop_middle l i s Hi) at 1.
    rewrite withContent_app. cbn [Scan.withContent List.filter].
    destruct (String.eqb (Scan.content s) c); reflexivity. }
  assert (E2 : Scan.withContent c (<[i := s']> l)
               = Scan.withContent c (take i l)
                 ++ (if String.eqb (Scan.content s) c then [s'] else [])
                 ++ Scan.withContent c (drop (S i) l)).
  { rewrite (insert_take_drop l i s' Hlt).
    rewrite withContent_app. cbn [Scan.withContent List.filter].
    rewrite Hc. destruct (String.eqb (Scan.content s) c); reflexivity. }
  rewrite E1 in Hlen. rewrite E1, E2. clear E1 E2. split.
  - intros E. apply String.eqb_eq in E. rewrite E in *.
    rewrite !length_app in Hlen. cbn [length] in Hlen.
    destruct (Scan.withContent c (take i l)); [|cbn in Hlen; lia].
    destruct (Scan.withContent c (drop (S i) l)); [|cbn in Hlen; lia].
    split; reflexivity.
  - intros E. apply String.eqb_neq in E. rewrite E. reflexivity.
Qed.

Lemma scans_wf_nil : scans_wf [].
Proof. split; [intros c; cbn; lia | constructor]. Qed.

(** What one post does to the documents of a content [c]: a post of [c]
    creates the document with count one or adds one to its count, every
    other request leaves them as they are. *)
Lemma handle_scans now req db c :
  scans_wf (scans db) ->
  c <> "" ->
  let db' := (handle now req db).2 in
  scans_wf (scans db')
  /\ Scan.duplicateCount <$> Scan.withContent c (scans db')
     = match req with
       | PostScan c' _ _ =>
           if String.eqb c' c then
             match Scan.duplicateCount <$> Scan.withContent c (scans db) with
             | [] => [1]
             | k :: _ => [k + 1]
             end
           else Scan.duplicateCount <$> Scan.withContent c (scans db)
       | _ => Scan.duplicateCount <$> Scan.withContent c (scans db)
       end.
Proof.
  intros [Huniq Hall] Hc. cbv zeta.
  destruct req as [c' ty dev | c' nm | |]; cbn [handle];
    try (split; [split; assumption | reflexivity]);
    [|unfold postReference; destruct (String.eqb c' "");
      (split; [split; assumption | reflexivity])].
  unfold postScan.
  destruct (Scan.findLatest c' (scans db)) as [[i s]|] eqn:Hfind.
  - apply findLatest_Some in Hfind as [Hi Hs].
    cbn [Scan.content].
    destruct (String.eqb (Scan.content s) "") eqn:Hempty; cbn [snd scans].
    + split; [split; assumption|].
      apply String.eqb_eq in Hempty.
      destruct (String.eqb c' c) eqn:Hcc; [|reflexivity].
      apply String.eqb_eq in Hcc. congruence.
    + set (s' := Scan.Build_t _ _ _ _ _ _ _ _ _).
      assert (Hs' : Scan.content s' = Scan.content s) by reflexivity.
      assert (Hdoc : 1 <= Scan.duplicateCount s
                     /\ Scan.isDuplicate s = (1 <? Scan.duplicateCount s)).
      { rewrite Forall_forall in Hall. apply Hall.
        eapply list_elem_of_lookup_2. exact Hi. }
      split; [split|].
      * intros c0.
        destruct (withContent_insert c0 (scans db) i s s' Hi Hs' (Huniq c0))
          as [Heq Hne].
        destruct (String.eqb (Scan.content s) c0) eqn:E.
        -- apply String.eqb_eq in E. destruct (Heq E) as [_ ->]. cbn. lia.
        -- apply String.eqb_neq in E. rewrite (Hne E). apply Huniq.
      * apply Forall_insert; [exact Hall|]. subst s'. cbn. split; [lia|].
        symmetry. apply Z.ltb_lt. lia.
      * destruct (withContent_insert c (scans db) i s s' Hi Hs' (Huniq c))
          as [Heq Hne].
        destruct (String.eqb c' c) eqn:Hcc.
        -- apply String.eqb_eq in Hcc.
           assert (Hsc : Scan.content s = c) by congruence.
           destruct (Heq Hsc) as [-> ->]. reflexivity.
        -- apply String.eqb_neq in Hcc. rewrite Hne by congruence. reflexivity.
  - apply findLatestFrom_None in Hfind as [_ Hnone].
    cbn [Scan.content].
    destruct (String.eqb c' "") eqn:Hempty; cbn [snd scans].
    + split; [split; assumption|].
      apply String.eqb_eq in Hempty.
      destruct (String.eqb c' c) eqn:Hcc; [|reflexivity].
      apply String.eqb_eq in Hcc. congruence.
    + split; [split|].
      * intros c0. rewrite withContent_app, length_app.
        cbn [Scan.withContent List.filter Scan.content length].
        destruct (String.eqb c' c0) eqn:E.
        -- apply String.eqb_eq in E. subst c0. rewrite Hnone. cbn. lia.
        -- cbn. pose proof (Huniq c0). unfold Scan.withContent in *. lia.
      * apply Forall_app. split; [exact Hall|].
        constructor; [|constructor]. cbn. split; [lia | reflexivity].
      * rewrite withContent_app.
        cbn [Scan.withContent List.filter Scan.content].
        destruct (String.eqb c' c) eqn:Hcc.
        -- apply String.eqb_eq in Hcc. subst c'. rewrite Hnone. reflexivity.
        -- rewrite app_nil_r. reflexivity.
Qed.

Lemma posts_of_cons c now req reqs :
  posts_of c ((now, req) :: reqs)
  = (match req with
     | PostScan c' _ _ => if String.eqb c' c then 1 else 0
     | _ => 0
     end) + posts_of c reqs.
Proof.
  unfold posts_of. cbn [List.filter snd].
  destruct req as [c' ty dev | | |]; try (cbn; lia).
  destruct (String.eqb c' c); cbn [length]; lia.
Qed.

Lemma posts_of_nonneg c reqs : 0 <= posts_of c reqs.
Proof. unfold posts_of. lia. Qed.

(** The counts on record after a run, from those before it. *)
Lemma serve_scans c : forall reqs db,
  scans_wf (scans db) ->
  c <> "" ->
  let db' := (serve reqs db).2 in
  scans_wf (scans db')
  /\ Scan.duplicateCount <$> Scan.withContent c (scans db')
     = match Scan.duplicateCount <$> Scan.withContent c (scans db) with
       | [] => if posts_of c reqs =? 0 then [] else [posts_of c reqs]
       | k :: _ =>
           if posts_of c reqs =? 0
           then Scan.duplicateCount <$> Scan.withContent c (scans db)
           else [k + posts_of c reqs]
       end.
Proof.
  induction reqs as [|[now req] reqs IH]; intros db Hwf Hc; cbv zeta.
  - cbn [serve snd]. split; [exact Hwf|].
    change (posts_of c []) with 0. cbn.
    destruct (Scan.duplicateCount <$> Scan.withContent c (scans db)); reflexivity.
  - cbn [serve].
    destruct (handle_scans now req db c Hwf Hc) as [Hwf1 Hstep].
    destruct (handle now req db) as [r db1]. cbn [snd] in Hwf1, Hstep.
    destruct (IH db1 Hwf1 Hc) as [Hwf2 Hrun].
    destruct (serve reqs db1) as [rs db2]. cbn [snd] in *.
    split; [exact Hwf2|].
    rewrite Hrun, Hstep, posts_of_cons.
    pose proof (posts_of_nonneg c reqs) as Hn.
    assert (Hlen : (length (Scan.duplicateCount <$> Scan.withContent c (scans db))
                    <= 1)%nat)
      by (rewrite length_fmap; apply Hwf).
    destruct req as [c' ty dev | | |]; cbn [Z.add];
      try (destruct (Scan.duplicateCount <$> Scan.withContent c (scans db));
           reflexivity).
    destruct (String.eqb c' c).
    + destruct (Scan.duplicateCount <$> Scan.withContent c (scans db))
        as [|k [|k' ks]]; [| |cbn in Hlen; lia].
      * replace (1 + posts_of c reqs =? 0) with false by lia.
        destruct (posts_of c reqs =? 0) eqn:E; [|f_equal; lia].
        apply Z.eqb_eq in E. rewrite E. reflexivity.
      * replace (1 + posts_of c reqs =? 0) with false by lia.
        destruct (posts_of c reqs =? 0) eqn:E; [|f_equal; lia].
        apply Z.eqb_eq in E. rewrite E. f_equal. 
    + destruct (Scan.duplicateCount <$> Scan.withContent c (scans db));
        reflexivity.
Qed.

Lemma findActive_deactivateAll refs :
  Reference.findActive (Reference.deactivateAll refs) = None.
Proof.
  unfold Reference.findActive, Reference.deactivateAll.
  induction refs as [|r refs IH]; [reflexivity | exact IH].
Qed.

Lemma findActive_after_post refs r :
  Reference.isActive r = true ->
  Reference.findActive (Reference.deactivateAll refs ++ [r]) = Some r.
Proof.
  intros Hr. unfold Reference.findActive, Reference.deactivateAll.
  induction refs as [|x refs IH]; cbn; [rewrite Hr; reflexivity | exact IH].
Qed.

Lemma active_deactivateAll refs :
  List.filter Reference.isActive (Reference.deactivateAll refs) = [].
Proof. induction refs as [|r refs IH]; [reflexivity | exact IH]. Qed.

(** Posts of scans leave the references as they are. *)
Lemma serve_scan_posts_references : forall reqs db,
  Forall (fun q => exists c ty dev, q.2 = PostScan c ty dev) reqs ->
  references (serve reqs db).2 = references db.
Proof.
  induction reqs as [|[now req] reqs IH]; intros db Hall; [reflexivity|].
  apply Forall_cons in Hall as [(c & ty & dev & Hreq) Hall].
  cbn in Hreq. subst req. cbn [serve handle].
  assert (Hstep : references (postScan now c ty dev db).2 = references db).
  { unfold postScan.
    destruct (Scan.findLatest c (scans db)) as [[i s]|];
      cbn [Scan.content]; destruct (String.eqb _ ""); reflexivity. }
  destruct (postScan now c ty dev db) as [r db1]. cbn [snd] in Hstep.
  specialize (IH db1 Hall).
  destruct (serve reqs db1) as [rs db2]. cbn [snd] in *. congruence.
Qed.

(** A scan with a content is stored, with the comparison against the
    active reference if there is one. *)
Lemma postScan_saved now c ty dev db :
  c <> "" ->
  exists message scan isDuplicate duplicateCount,
    (postScan now c ty dev db).1
    = ScanSaved message scan isDuplicate duplicateCount
        (match Reference.findActive (references db) with
         | Some r => Some (Reference.content r,
                           compareStrings (Reference.content r) c)
         | None => None
         end)
    /\ Scan.referenceComparison scan
       = match Reference.findActive (references db) with
         | Some r => Some (Reference.content r,
                           compareStrings (Reference.content r) c)
         | None => None
         end
    /\ Scan.content scan = c.
Proof.
  intros Hc. apply String.eqb_neq in Hc. unfold postScan.
  destruct (Scan.findLatest c (scans db)) as [[i s]|] eqn:Hfind.
  - apply findLatest_Some in Hfind as [_ Hs].
    cbn [Scan.content]. rewrite Hs, Hc. cbn [fst].
    do 4 eexists. split; [reflexivity | split; reflexivity].
  - cbn [Scan.content]. rewrite Hc. cbn [fst].
    do 4 eexists. split; [reflexivity | split; reflexivity].
Qed.

Lemma handle_active now req db :
  (length (List.filter Reference.isActive (references db)) <= 1)%nat ->
  (length (List.filter Reference.isActive (references (handle now req db).2))
   <= 1)%nat.
Proof.
  intros Hone. destruct req as [c ty dev | c nm | |]; cbn [handle].
  - unfold postScan.
    destruct (Scan.findLatest c (scans db)) as [[i s]|];
      cbn [Scan.content]; destruct (String.eqb _ ""); exact Hone.
  - unfold postReference. destruct (String.eqb c ""); cbn [snd references].
    + rewrite active_deactivateAll. cbn. lia.
    + rewrite List.filter_app, active_deactivateAll. cbn. lia.
  - exact Hone.
  - cbn. rewrite active_deactivateAll. cbn. lia.
Qed.

End RoutesExtra.

(** X22.  In a run of requests on the empty collections, the scans of a
    content that is not empty are one document or none: none if the
    content was never posted, and otherwise one whose [duplicateCount] is
    the number of times it was posted and which is marked as a duplicate
    from the second post on. *)
Theorem duplicate_count_counts_posts `{Decoders}
    (reqs : list (Z * request)) (c : string) :
  c <> "" ->
  match Scan.withContent c
          (scans (serve reqs {| references := []; scans := [] |}).2) with
  | [] => posts_of c reqs = 0
  | [doc] =>
      Scan.duplicateCount doc = posts_of c reqs
      /\ Scan.isDuplicate doc = (1 <? posts_of c reqs)
  | _ => False
  end.
Proof.
  intros Hc.
  destruct (serve_scans c reqs {| references := []; scans := [] |}
              scans_wf_nil Hc) as [[Huniq Hall] Hcount].
  cbn [scans Scan.withContent List.filter fmap list_fmap] in Hcount.
  specialize (Huniq c).
  assert (Hin : forall doc,
             doc ∈ Scan.withContent c
                     (scans (serve reqs {| references := []; scans := [] |}).2) ->
             Scan.isDuplicate doc = (1 <? Scan.duplicateCount doc)).
  { intros doc Hdoc. apply list_elem_of_In, List.filter_In in Hdoc as [Hdoc _].
    rewrite Forall_forall in Hall. apply Hall, list_elem_of_In. exact Hdoc. }
  destruct (Scan.withContent c _) as [|doc [|doc' l]];
    [| |cbn in Huniq; lia].
  - cbn in Hcount. destruct (posts_of c reqs =? 0) eqn:E; [|discriminate Hcount].
    apply Z.eqb_eq. exact E.
  - cbn in Hcount. destruct (posts_of c reqs =? 0); [discriminate Hcount|].
    injection Hcount as Hk. split; [exact Hk|].
    rewrite <- Hk. apply Hin. left.
Qed.

Lemma duplicate_count_counts_posts_witness :
  "NCF5X3P" <> ""
  /\ match Scan.withContent "NCF5X3P"
            (scans (serve [(10, PostScan "NCF5X3P" None None);
                           (20, PostReference "NCF5X3Q" None);
                           (30, PostScan "hello" (Some "text") None);
                           (40, PostScan "NCF5X3P" None (Some "phone"))]
                      {| references := []; scans := [] |}).2) with
     | [] => posts_of "NCF5X3P"
               [(10, PostScan "NCF5X3P" None None);
                (20, PostReference "NCF5X3Q" None);
                (30, PostScan "hello" (Some "text") None);
                (40, PostScan "NCF5X3P" None (Some "phone"))] = 0
     | [doc] =>
         Scan.duplicateCount doc
         = posts_of "NCF5X3P"
             [(10, PostScan "NCF5X3P" None None);
              (20, PostReference "NCF5X3Q" None);
              (30, PostScan "hello" (Some "text") None);
              (40, PostScan "NCF5X3P" None (Some "phone"))]
         /\ Scan.isDuplicate doc
            = (1 <? posts_of "NCF5X3P"
                      [(10, PostScan "NCF5X3P" None None);
                       (20, PostReference "NCF5X3Q" None);
                       (30, PostScan "hello" (Some "text") None);
                       (40, PostScan "NCF5X3P" None (Some "phone"))])
     | _ => False
     end.
Proof.
  split; [discriminate|].
  apply (duplicate_count_counts_posts
           [(10, PostScan "NCF5X3P" None None);
            (20, PostReference "NCF5X3Q" None);
            (30, PostScan "hello" (Some "text") None);
            (40, PostScan "NCF5X3P" None (Some "phone"))] "NCF5X3P").
  discriminate.
Defined.

(** X23.  A scan posted after a reference was saved, with only posts of
    scans in between, is compared against that reference: the answer and
    the document in it carry the content of the reference and the result
    of [compareStrings] on the two contents. *)
Theorem scan_compared_with_last_reference `{Decoders}
    (db : Collections) (t0 now : Z) (r c : string) (name ty dev : option string)
    (reqs : list (Z * request)) :
  r <> "" ->
  c <> "" ->
  Forall (fun q => exists c' ty' dev', q.2 = PostScan c' ty' dev') reqs ->
  exists message scan isDuplicate duplicateCount,
    (handle now (PostScan c ty dev)
       (serve reqs (handle t0 (PostReference r name) db).2).2).1
    = ScanSaved message scan isDuplicate duplicateCount
        (Some (r, compareStrings r c))
    /\ Scan.referenceComparison scan = Some (r, compareStrings r c)
    /\ Scan.content scan = c.
Proof.
  intros Hr Hc Hposts. cbn [handle].
  destruct (postScan_saved now c ty dev
              (serve reqs (postReference t0 r name db).2).2 Hc)
    as (message & scan & isDuplicate & duplicateCount & Hres & Hcmp & Hcontent).
  assert (Hact : exists ref,
             Reference.findActive
               (references (serve reqs (postReference t0 r name db).2).2)
             = Some ref /\ Reference.content ref = r).
  { rewrite (serve_scan_posts_references reqs _ Hposts).
    unfold postReference. apply String.eqb_neq in Hr. rewrite Hr.
    cbn [snd references]. eexists.
    split; [apply findActive_after_post; reflexivity | reflexivity]. }
  destruct Hact as (ref & Hact & Href).
  rewrite Hact, Href in Hres, Hcmp.
  exists message, scan, isDuplicate, duplicateCount.
  split; [exact Hres | split; [exact Hcmp | exact Hcontent]].
Qed.

Lemma scan_compared_with_last_reference_witness :
  "NCF5X3Q" <> "" /\ "NCF5X3P" <> ""
  /\ Forall (fun q : Z * request => exists c' ty' dev', q.2 = PostScan c' ty' dev')
       [(20, PostScan "hello" None None)]
  /\ exists message scan isDuplicate duplicateCount,
       (handle 30 (PostScan "NCF5X3P" None None)
          (serve [(20, PostScan "hello" None None)]
             (handle 10 (PostReference "NCF5X3Q" None)
                {| references := []; scans := [] |}).2).2).1
       = ScanSaved message scan isDuplicate duplicateCount
           (Some ("NCF5X3Q", compareStrings "NCF5X3Q" "NCF5X3P"))
       /\ Scan.referenceComparison scan
          = Some ("NCF5X3Q", compareStrings "NCF5X3Q" "NCF5X3P")
       /\ Scan.content scan = "NCF5X3P".
Proof.
  assert (Hposts : Forall (fun q : Z * request =>
                             exists c' ty' dev', q.2 = PostScan c' ty' dev')
                     [(20, PostScan "hello" None None)]).
  { constructor; [|constructor]. exists "hello", None, None. reflexivity. }
  split; [discriminate|]. split; [discriminate|]. split; [exact Hposts|].
  apply (scan_compared_with_last_reference
           {| references := []; scans := [] |} 10 30 "NCF5X3Q" "NCF5X3P"
           None None None [(20, PostScan "hello" None None)]);
    [discriminate | discriminate | exact Hposts].
Defined.

(** X24.  The requests keep at most one reference active, so that the
    query for the active reference has one answer at most. *)
Theorem at_most_one_active_reference `{Decoders}
    (reqs : list (Z * request)) (db : Collections) :
  (length (List.filter Reference.isActive (references db)) <= 1)%nat ->
  (length (List.filter Reference.isActive (references (serve reqs db).2))
   <= 1)%nat.
Proof.
  revert db. induction reqs as [|[now req] reqs IH]; intros db Hone;
    [exact Hone|].
  cbn [serve].
  pose proof (handle_active now req db Hone) as Hstep.
  destruct (handle now req db) as [r db1]. cbn [snd] in Hstep.
  specialize (IH db1 Hstep).
  destruct (serve reqs db1) as [rs db2]. exact IH.
Qed.

Lemma at_most_one_active_reference_witness :
  (length (List.filter Reference.isActive
             (references {| references := []; scans := [] |})) <= 1)%nat
  /\ (length (List.filter Reference.isActive
                (references
                   (serve [(10%Z, PostReference "NCF5X3Q" None);
                           (20%Z, PostReference "NCF5X3P" (Some "second"));
                           (30%Z, GetReference)]
                      {| references := []; scans := [] |}).2)) <= 1)%nat.
Proof.
  split; [simpl; lia|].
  apply (at_most_one_active_reference
           [(10, PostReference "NCF5X3Q" None);
            (20%Z, PostReference "NCF5X3P" (Some "second"));
            (30%Z, GetReference)]
           {| references := []; scans := [] |}).
  simpl. lia.
Defined.

(** X25.  A reference posted with an empty content is rejected by the
    [required] validator, but only after the references were deactivated:
    the request answers with the failure and leaves no reference active,
    whatever was active before, and a scan posted next is answered
    without a comparison. *)
Theorem rejected_reference_clears_active `{Decoders}
    (db : Collections) (now t : Z) (name ty dev : option string) (c : string) :
  c <> "" ->
  let db' := (handle now (PostReference "" name) db).2 in
  (handle now (PostReference "" name) db).1 = Failed "Failed to save reference"
  /\ (handle t GetReference db').1 = ReferenceFound None
  /\ scans db' = scans db
  /\ exists message scan isDuplicate duplicateCount,
       (handle t (PostScan c ty dev) db').1
       = ScanSaved message scan isDuplicate duplicateCount None
       /\ Scan.referenceComparison scan = None.
Proof.
  intros Hc. cbv zeta. cbn [handle postReference String.eqb fst snd].
  split; [reflexivity|]. split.
  - unfold getReference. cbn [fst references].
    rewrite findActive_deactivateAll. reflexivity.
  - split; [reflexivity|].
    destruct (postScan_saved t c ty dev
                {| references := Reference.deactivateAll (references db);
                   scans := scans db |} Hc)
      as (message & scan & isDuplicate & duplicateCount & Hres & Hcmp & _).
    cbn [references] in Hres, Hcmp.
    rewrite findActive_deactivateAll in Hres, Hcmp.
    exists message, scan, isDuplicate, duplicateCount.
    split; assumption.
Qed.

Lemma rejected_reference_clears_active_witness :
  "NCF5X3P" <> ""
  /\ (handle 20 (PostReference "" None)
        (handle 10 (PostReference "NCF5X3Q" None)
           {| references := []; scans := [] |}).2).1
     = Failed "Failed to save reference"
  /\ (handle 30 GetReference
        (handle 20 (PostReference "" None)
           (handle 10 (PostReference "NCF5X3Q" None)
              {| references := []; scans := [] |}).2).2).1
     = ReferenceFound None.
Proof.
  split; [discriminate|].
  pose proof (rejected_reference_clears_active
                (handle 10 (PostReference "NCF5X3Q" None)
                   {| references := []; scans := [] |}).2
                20 30 None None None "NCF5X3P" ltac:(discriminate)) as Hw.
  cbv zeta in Hw. destruct Hw as (H1 & H2 & _).
  split; [exact H1 | exact H2].
Defined.


(* ===================================================================== *)
(** ** The certificate batch *)

Section StringSearchFacts.

Lemma append_cons (a : ascii) (s t : string) :
  String a s +:+ t = String a (s +:+ t).
Proof. reflexivity. Qed.

Lemma startsWith_append (p y : string) : startsWith p (p +:+ y) = true.
Proof.
  induction p as [|a p IH]; [reflexivity|].
  rewrite append_cons. cbn [startsWith]. rewrite Ascii.eqb_refl. exact IH.
Qed.

Lemma startsWith_absent (c : ascii) (p s : string) :
  includes c s = false -> startsWith (String c p) s = false.
Proof.
  destruct s as [|b s]; [reflexivity|]. cbn [includes startsWith].
  intros E. apply orb_false_iff in E as [E _].
  rewrite Ascii.eqb_sym, E. reflexivity.
Qed.

Lemma endsWith_suffix (p x y : string) :
  endsWith p y = true -> endsWith p (x +:+ y) = true.
Proof.
  intros E. induction x as [|a x IH]; [exact E|].
  rewrite append_cons. cbn [endsWith]. rewrite IH. apply orb_true_r.
Qed.

Lemma endsWith_refl (p : string) : endsWith p p = true.
Proof. destruct p; cbn [endsWith]; rewrite String.eqb_refl; reflexivity. Qed.

(** A string that ends with [c] is not the end of a string whose last
    part is not empty and holds no [c]. *)
Lemma append_last_included (c : ascii) (y : string) : forall z p0 : string,
  p0 +:+ String c "" = z +:+ y -> y <> "" -> includes c y = true.
Proof.
  induction z as [|a z IH]; intros p0 E Hy.
  - change ("" +:+ y) with y in E. rewrite <- E, includes_append.
    cbn [includes]. rewrite Ascii.eqb_refl. apply orb_true_r.
  - destruct p0 as [|b p0].
    + rewrite append_cons in E. change ("" +:+ String c "") with (String c "") in E.
      injection E as _ E.
      destruct z; [|discriminate E]. change ("" +:+ y) with y in E. congruence.
    + rewrite !append_cons in E. injection E as _ E. exact (IH p0 E Hy).
Qed.

Lemma endsWith_absent_here (c : ascii) (p0 y : string) :
  includes c y = false -> endsWith (p0 +:+ String c "") y = false.
Proof.
  induction y as [|a y IH]; intros Hc.
  - cbn [endsWith]. destruct p0; reflexivity.
  - cbn [endsWith]. cbn [includes] in Hc. apply orb_false_iff in Hc as [Ha Hc].
    rewrite (IH Hc), orb_false_r. apply String.eqb_neq. intros E.
    assert (Hin : includes c (String a y) = true).
    { rewrite E, includes_append. cbn [includes]. rewrite Ascii.eqb_refl.
      apply orb_true_r. }
    cbn [includes] in Hin. rewrite Ha, Hc in Hin. discriminate Hin.
Qed.

Lemma endsWith_absent (c : ascii) (p0 x y : string) :
  y <> "" -> includes c y = false ->
  endsWith (p0 +:+ String c "") (x +:+ y) = false.
Proof.
  intros Hy Hc. induction x as [|a x IH].
  - apply endsWith_absent_here. exact Hc.
  - rewrite append_cons. cbn [endsWith]. rewrite IH, orb_false_r.
    apply String.eqb_neq. intros E. symmetry in E.
    change (String a (x +:+ y)) with (String a x +:+ y) in E.
    pose proof (append_last_included c y (String a x) p0 E Hy) as Hin.
    congruence.
Qed.

Lemma replace_from_skip (pat rep : string) (x y : string) :
  replace_from pat rep (String.length x) (x +:+ y) = replace_from pat rep 0 y.
Proof.
  induction x as [|a x IH]; [reflexivity|].
  rewrite append_cons. cbn [replace_from String.length]. exact IH.
Qed.

(** An occurrence at the head is replaced, and the search goes on behind
    it. *)
Lemma replaceSub_match (c : ascii) (p rep y : string) :
  replaceSub (String c p) rep (String c p +:+ y)
  = rep +:+ replaceSub (String c p) rep y.
Proof.
  unfold replaceSub. rewrite append_cons.
  cbn [replace_from].
  change (String c (p +:+ y)) with (String c p +:+ y) at 1.
  rewrite startsWith_append. f_equal.
  replace (String.length (String c p) - 1)%nat with (String.length p)
    by (cbn [String.length]; lia).
  apply replace_from_skip.
Qed.

(** No occurrence starts in a part that lacks the first character of the
    pattern. *)
Lemma replaceSub_absent_prefix (c : ascii) (p rep x y : string) :
  includes c x = false ->
  replaceSub (String c p) rep (x +:+ y) = x +:+ replaceSub (String c p) rep y.
Proof.
  unfold replaceSub. induction x as [|a x IH]; intros Hc; [reflexivity|].
  cbn [includes] in Hc. apply orb_false_iff in Hc as [Ha Hc].
  rewrite !append_cons. cbn [replace_from].
  cbn [startsWith]. rewrite Ascii.eqb_sym, Ha. cbn [andb].
  f_equal. exact (IH Hc).
Qed.

Lemma replaceSub_absent (c : ascii) (p rep s : string) :
  includes c s = false -> replaceSub (String c p) rep s = s.
Proof.
  intros Hc. rewrite <- (append_empty_r s) at 1.
  rewrite replaceSub_absent_prefix by exact Hc.
  unfold replaceSub. cbn [replace_from]. apply append_empty_r.
Qed.

Lemma removeAll_absent (c : ascii) (s : string) :
  includes c s = false -> removeAll c s = s.
Proof.
  induction s as [|a s IH]; intros Hc; [reflexivity|].
  cbn [includes] in Hc. apply orb_false_iff in Hc as [Ha Hc].
  cbn [removeAll]. rewrite Ha, (IH Hc). reflexivity.
Qed.

(** Escaping the line breaks of a text that holds no backslash, and then
    replacing the escaped line breaks, gives the text back. *)
Lemma unescape_escaped (s : string) :
  includes "\" s = false ->
  replaceSub "\n" newline (replaceSub newline "\n" s) = s.
Proof.
  unfold replaceSub. induction s as [|a s IH]; intros Hc; [reflexivity|].
  cbn [includes] in Hc. apply orb_false_iff in Hc as [Ha Hc].
  specialize (IH Hc).
  assert (Hstart : startsWith newline (String a s) = Ascii.eqb "010" a)
    by (unfold newline; cbn [startsWith]; apply andb_true_r).
  cbn [replace_from]. rewrite Hstart.
  destruct (Ascii.eqb "010" a) eqn:Hnl.
  - apply Ascii.eqb_eq in Hnl. subst a.
    change ("\n" +:+ replace_from newline "\n" (String.length newline - 1) s)
      with (String "\" (String "n" (replace_from newline "\n" 0 s))).
    cbn [replace_from startsWith]. rewrite !Ascii.eqb_refl. cbn [andb].
    change (String.length "\n" - 1)%nat with 1%nat. cbn [replace_from].
    rewrite IH. reflexivity.
  - cbn [replace_from startsWith]. rewrite Ascii.eqb_sym, Ha. cbn [andb].
    rewrite IH. reflexivity.
Qed.

End StringSearchFacts.

Section CertificateExtra.

Context `{NodeHash}.

Lemma cleanPem_armoured (body : string) :
  includes "\" body = false ->
  cleanPem (pem_header +:+ newline +:+ body +:+ newline +:+ pem_footer)
  = pem_header +:+ newline +:+ body +:+ newline +:+ pem_footer.
Proof.
  intros Hb. unfold cleanPem.
  rewrite (replaceSub_absent "\" "n" newline)
    by (rewrite !includes_append, Hb; reflexivity).
  rewrite startsWith_append. cbn [negb].
  assert (Hend : endsWith pem_footer
                   (pem_header +:+ newline +:+ body +:+ newline +:+ pem_footer)
                 = true)
    by (do 4 apply endsWith_suffix; apply endsWith_refl).
  rewrite Hend. reflexivity.
Qed.

Lemma cleanPem_bare (body : string) :
  body <> "" ->
  includes "-" body = false ->
  includes "\" body = false ->
  cleanPem body = pem_header +:+ newline +:+ body +:+ newline +:+ pem_footer.
Proof.
  intros Hne Hd Hb.
  assert (Hs : startsWith pem_header body = false)
    by exact (startsWith_absent "-" "----BEGIN CERTIFICATE-----" body Hd).
  assert (He : endsWith pem_footer (pem_header +:+ newline +:+ body) = false).
  { rewrite <- append_assoc_string.
    exact (endsWith_absent "-" "-----END CERTIFICATE----"
             (pem_header +:+ newline) body Hne Hd). }
  unfold cleanPem.
  rewrite (replaceSub_absent "\" "n" newline) by exact Hb.
  rewrite Hs. cbn [negb]. rewrite He. cbn [negb].
  rewrite !append_assoc_string. reflexivity.
Qed.

Lemma certificateData_armoured (body : string) :
  includes "-" body = false ->
  certificateData (pem_header +:+ newline +:+ body +:+ newline +:+ pem_footer)
  = removeAll "013" (removeAll "010" body).
Proof.
  intros Hd. unfold certificateData.
  assert (Hhead : replaceSub pem_header ""
                    (pem_header +:+ newline +:+ body +:+ newline +:+ pem_footer)
                  = newline +:+ body +:+ newline +:+ pem_footer).
  { unfold pem_header at 1 2. rewrite replaceSub_match.
    change ("" +:+ ?x) with x.
    rewrite replaceSub_absent_prefix by reflexivity.
    rewrite replaceSub_absent_prefix by exact Hd.
    rewrite replaceSub_absent_prefix by reflexivity.
    reflexivity. }
  rewrite Hhead. clear Hhead.
  assert (Hfoot : replaceSub pem_footer ""
                    (newline +:+ body +:+ newline +:+ pem_footer)
                  = newline +:+ body +:+ newline).
  { unfold pem_footer at 1.
    rewrite replaceSub_absent_prefix by reflexivity.
    rewrite replaceSub_absent_prefix by exact Hd.
    rewrite replaceSub_absent_prefix by reflexivity.
    reflexivity. }
  rewrite Hfoot. clear Hfoot.
  rewrite !removeAll_append.
  change (removeAll "010" newline) with "".
  change ("" +:+ ?x) with x. rewrite append_empty_r. reflexivity.
Qed.

Lemma thumbprint_of_field (cert : js_value) (pem : string) :
  pem <> "" ->
  certificateField cert = Some (JStr pem) ->
  calculateThumbprintFromCert cert
  = inr (calculateCertificateThumbprint (cleanPem pem)).
Proof.
  intros Hne Hf. unfold calculateThumbprintFromCert. rewrite Hf. cbn [pemOfField].
  apply String.eqb_neq in Hne. rewrite Hne. reflexivity.
Qed.

Lemma thumbprint_of_array_field (cert : js_value) (pem : string)
    (more : list js_value) :
  pem <> "" ->
  certificateField cert = Some (JArr (JStr pem :: more)) ->
  calculateThumbprintFromCert cert
  = inr (calculateCertificateThumbprint (cleanPem pem)).
Proof.
  intros Hne Hf. unfold calculateThumbprintFromCert. rewrite Hf.
  cbn [pemOfField first_elem].
  apply String.eqb_neq in Hne. rewrite Hne. reflexivity.
Qed.

(** The row of a certificate: the thumbprint of its text, or the row of
    the error when there is no text to take. *)
Lemma certificate_row (w : Outside) (cert : js_value)
    (db : gmap string EbsiCache.CacheEntry) :
  log_certData cert = inr tt ->
  exists row db',
    match processCertificateWithBridgeLookup w cert db with
    | (inr result, db1) => (result, db1)
    | (inl error, db1) => (errorResult cert error, db1)
    end = (row, db')
    /\ (cache_wf db -> cache_wf db')
    /\ match calculateThumbprintFromCert cert with
       | inr thumbprint =>
           CertificateResult.thumbprint row = thumbprint
           /\ CertificateResult.error row = None
           /\ CertificateResult.found row
              = (checkThumbprintInBridge w thumbprint false db).1
           /\ db' = (checkThumbprintInBridge w thumbprint false db).2
       | inl error => row = errorResult cert error /\ db' = db
       end.
Proof.
  intros Hlog. unfold log_certData in Hlog.
  unfold processCertificateWithBridgeLookup.
  destruct (read cert "OFFICIALID") as [e|v]; [discriminate Hlog|].
  destruct (calculateThumbprintFromCert cert) as [e|t].
  - do 2 eexists. split; [reflexivity|]. split; [auto|]. split; reflexivity.
  - pose proof (lookup_keeps_cache_wf w t false db) as Hwf.
    destruct (checkThumbprintInBridge w t false db) as [found db1].
    do 2 eexists. split; [reflexivity|]. split; [exact Hwf|].
    repeat split; reflexivity.
Qed.


Lemma processEach_aborts (ws : nat -> Outside) (bad : js_value) (error : thrown)
    (after : list js_value) : forall before i results db,
  Forall (fun cert => log_certData cert = inr tt) before ->
  log_certData bad = inl error ->
  (processEach ws i (before ++ bad :: after) results db).1 = inl error.
Proof.
  induction before as [|cert before IH]; intros i results db Hall Hbad.
  - cbn [app processEach]. rewrite Hbad. reflexivity.
  - apply Forall_cons in Hall as [Hlog Hall].
    cbn [app processEach]. rewrite Hlog.
    destruct (certificate_row (ws i) cert db Hlog) as (row & db1 & -> & _).
    apply IH; assumption.
Qed.


End CertificateExtra.

(** X26.  The thumbprint of a certificate does not depend on how its text
    is wrapped. For a body that is not empty and holds neither [-] nor a
    backslash (base64 text, with or without line breaks), the bare body,
    the body between the PEM markers and the latter as first element of
    an array field give the same thumbprint: the hash of the body without
    its line breaks. *)
Theorem thumbprint_ignores_pem_armour `{NodeHash}
    (bare armoured listed : js_value) (body : string) (more : list js_value) :
  body <> "" ->
  includes "-" body = false ->
  includes "\" body = false ->
  certificateField bare = Some (JStr body) ->
  certificateField armoured
  = Some (JStr (pem_header +:+ newline +:+ body +:+ newline +:+ pem_footer)) ->
  certificateField listed
  = Some (JArr (JStr (pem_header +:+ newline +:+ body +:+ newline +:+ pem_footer)
                :: more)) ->
  calculateThumbprintFromCert bare
  = inr (sha256_of_base64 (removeAll "013" (removeAll "010" body)))
  /\ calculateThumbprintFromCert armoured = calculateThumbprintFromCert bare
  /\ calculateThumbprintFromCert listed = calculateThumbprintFromCert bare.
Proof.
  intros Hne Hd Hb Hbare Harmoured Hlisted.
  assert (Hpem : pem_header +:+ newline +:+ body +:+ newline +:+ pem_footer <> "")
    by discriminate.
  rewrite (thumbprint_of_field bare body Hne Hbare).
  rewrite (thumbprint_of_field armoured _ Hpem Harmoured).
  rewrite (thumbprint_of_array_field listed _ more Hpem Hlisted).
  rewrite (cleanPem_bare body Hne Hd Hb), (cleanPem_armoured body Hb).
  unfold calculateCertificateThumbprint.
  rewrite (certificateData_armoured body Hd).
  repeat split; reflexivity.
Qed.

Lemma thumbprint_ignores_pem_armour_witness :
  calculateThumbprintFromCert
    (JObj [("OFFICIALID", JStr "0001");
           ("certificate", JStr "MIIBszCCARygAwIBAgIJAOexample")])
  = inr example_thumbprint
  /\ calculateThumbprintFromCert
       (JObj [("pem",
               JStr (pem_header +:+ newline +:+ "MIIBszCCARygAwIBAgIJAOexample"
                     +:+ newline +:+ pem_footer))])
     = inr example_thumbprint.
Proof.
  pose proof (thumbprint_ignores_pem_armour
                (JObj [("OFFICIALID", JStr "0001");
                       ("certificate", JStr "MIIBszCCARygAwIBAgIJAOexample")])
                (JObj [("pem",
                        JStr (pem_header +:+ newline
                              +:+ "MIIBszCCARygAwIBAgIJAOexample"
                              +:+ newline +:+ pem_footer))])
                (JObj [("certificates",
                        JArr [JStr (pem_header +:+ newline
                                    +:+ "MIIBszCCARygAwIBAgIJAOexample"
                                    +:+ newline +:+ pem_footer)])])
                "MIIBszCCARygAwIBAgIJAOexample" []
                ltac:(discriminate) eq_refl eq_refl eq_refl eq_refl eq_refl)
    as (Hbare & Harmoured & _).
  split; [exact Hbare | rewrite Harmoured; exact Hbare].
Defined.

(** X27.  Escaped line breaks make no difference: a certificate text
    without backslashes and the same text with every line break written
    as a backslash and [n] give the same thumbprint, or the same
    failure. *)
Theorem escaped_line_breaks_are_unescaped `{NodeHash}
    (cert escaped : js_value) (pem : string) :
  includes "\" pem = false ->
  certificateField cert = Some (JStr pem) ->
  certificateField escaped = Some (JStr (replaceSub newline "\n" pem)) ->
  calculateThumbprintFromCert escaped = calculateThumbprintFromCert cert.
Proof.
  intros Hb Hcert Hescaped.
  pose proof (unescape_escaped pem Hb) as Hback.
  unfold calculateThumbprintFromCert. rewrite Hcert, Hescaped.
  cbn [pemOfField].
  destruct (String.eqb pem "") eqn:Hpem.
  - apply String.eqb_eq in Hpem. subst pem. reflexivity.
  - destruct (String.eqb (replaceSub newline "\n" pem) "") eqn:He.
    + apply String.eqb_eq in He. rewrite He in Hback.
      apply String.eqb_neq in Hpem. exfalso. apply Hpem. rewrite <- Hback.
      reflexivity.
    + do 2 f_equal. unfold cleanPem. rewrite Hback.
      rewrite (replaceSub_absent "\" "n" newline pem Hb). reflexivity.
Qed.

Lemma escaped_line_breaks_are_unescaped_witness :
  calculateThumbprintFromCert
    (JObj [("certificate",
            JStr "-----BEGIN CERTIFICATE-----\nMIIBszCCARygAwIBAgIJAOexample\n-----END CERTIFICATE-----")])
  = calculateThumbprintFromCert
      (JObj [("certificate",
              JStr (pem_header +:+ newline +:+ "MIIBszCCARygAwIBAgIJAOexample"
                    +:+ newline +:+ pem_footer))]).
Proof.
  apply (escaped_line_breaks_are_unescaped
           (JObj [("certificate",
                   JStr (pem_header +:+ newline
                         +:+ "MIIBszCCARygAwIBAgIJAOexample"
                         +:+ newline +:+ pem_footer))])
           (JObj [("certificate",
                   JStr "-----BEGIN CERTIFICATE-----\nMIIBszCCARygAwIBAgIJAOexample\n-----END CERTIFICATE-----")])
           (pem_header +:+ newline +:+ "MIIBszCCARygAwIBAgIJAOexample"
            +:+ newline +:+ pem_footer));
    vm_compute; reflexivity.
Defined.



(** X29.  One element stops the whole batch: if an element is [null], or
    has a [certificate] field that is truthy and not a string, the debug
    log at the head of the loop throws a TypeError outside the [try], and
    the batch ends with that error and no report, whatever the elements
    before it, which passed the head of the loop, and after it. *)
Theorem batch_aborts_on_malformed_element `{NodeHash} (ws : nat -> Outside)
    (before after : list js_value) (bad : js_value)
    (db : gmap string EbsiCache.CacheEntry) :
  Forall (fun cert => log_certData cert = inr tt) before ->
  bad = JNull
  \/ (truthy (prop bad "certificate") = true
      /\ forall pem, prop bad "certificate" <> JStr pem) ->
  exists message,
    (processCertificatesWithProgress ws (before ++ bad :: after) db).1
    = inl (JsTypeError message).
Proof.
  intros Hall Hbad.
  assert (Hlog : exists message, log_certData bad = inl (JsTypeError message)).
  { destruct Hbad as [->|[Htruthy Hnot]]; [eexists; reflexivity|].
    unfold log_certData. rewrite Htruthy.
    destruct bad as [| | | | |l|ps]; try discriminate Htruthy.
    cbn [read get prop] in *.
    destruct (assoc "certificate" ps) as [| | b | n | pem | l | qs];
      try (eexists; reflexivity).
    exfalso. exact (Hnot pem eq_refl). }
  destruct Hlog as (message & Hlog). exists message.
  unfold processCertificatesWithProgress.
  pose proof (processEach_aborts ws bad _ after before 0%nat [] db Hall Hlog) as Hstop.
  destruct (processEach ws 0 (before ++ bad :: after) [] db) as [[e|rows] db'];
    cbn [fst] in *; [congruence | discriminate Hstop].
Qed.

Lemma batch_aborts_on_malformed_element_witness :
  exists message,
    (processCertificatesWithProgress (fun _ => registry_finds)
       (example_certificates ++ JNull :: example_certificates) ∅).1
    = inl (JsTypeError message).
Proof.
  apply (batch_aborts_on_malformed_element (fun _ => registry_finds)
           example_certificates example_certificates JNull ∅).
  - repeat constructor.
  - left. reflexivity.
Defined.

(* ===================================================================== *)
(** ** The verification route *)

Section VerifyRouteExtra.

Context `{Decoders} `{NodeCrypto}.

(** The step of a value that leaves the pipeline, as the route reads
    it. *)
Lemma pipeline_failure_label (w : Outside) (data : string)
    (db : gmap string EbsiCache.CacheEntry) (x : exception) (step : option string) :
  (processVerificationData w data db).1 = inl (x, step) ->
  step_or_unknown step = match x with
                         | ErrorObject _ => "BASE45 decoding"
                         | Primitive _ => "unknown"
                         end.
Proof.
  unfold processVerificationData.
  destruct (base45_decode data) as [e|bytes].
  { destruct e; cbn; intros [= <- <-]; reflexivity. }
  destruct (pako_inflate bytes) as [e|token].
  { destruct e; cbn; intros [= <- <-]; reflexivity. }
  unfold verificationSteps.
  destruct (jwt_decode token) as [e|jwt].
  { destruct e; cbn; intros [= <- <-]; reflexivity. }
  destruct (truthy jwt).
  - destruct (verifySignature w jwt db) as [r d]. cbn. discriminate.
  - cbn. intros [= <- <-]. reflexivity.
Qed.

End VerifyRouteExtra.

(** X30.  Every verification of a content that was scanned is recorded on
    the latest scan of that content, whether it succeeds or fails: the
    count of verifications goes up by one, the scan is marked as verified
    at the time of the request, and the result stored is the name, the
    size and the percentage of each stage of the trace (not the payloads),
    or the failure. A failure by an error object is answered and stored
    with its message and the step ["BASE45 decoding"]; a failure by a
    primitive string, as the inflation throws, is answered with no message
    and the step ["unknown"], and stored so unless the string is empty.
    Nothing else of the scan changes, and the verification of a content
    that was never scanned leaves the scans as they are. *)
Theorem verification_is_recorded `{Decoders} `{NodeCrypto} (w : Outside)
    (now : Z) (data : string) (scans : list Scan.t)
    (db : gmap string EbsiCache.CacheEntry) :
  data <> "" ->
  let outcome := (processVerificationData w data db).1 in
  let r := postVerify w now data scans db in
  r.2 = (processVerificationData w data db).2
  /\ r.1.1 = match outcome with
             | inr steps => Verified steps
             | inl (ErrorObject error, _) =>
                 VerificationFailed (Some (message_of error)) "BASE45 decoding"
             | inl (Primitive _, _) => VerificationFailed None "unknown"
             end
  /\ match Scan.findLatest data scans with
     | None => r.1.2 = scans
     | Some (i, scan) =>
         exists scan',
           r.1.2 = <[i := scan']> scans
           /\ Scan.verificationCount (Scan.verification scan')
              = Scan.verificationCount (Scan.verification scan) + 1
           /\ Scan.isVerified (Scan.verification scan') = true
           /\ Scan.verifiedAt (Scan.verification scan') = Some now
           /\ Scan.verificationResult (Scan.verification scan')
              = match outcome with
                | inr steps =>
                    Some (Scan.Success
                            ((fun step => (Step.name step, Step.size step,
                                           Step.percentage step)) <$> steps))
                | inl (ErrorObject error, _) =>
                    Some (Scan.Failure (Some (message_of error)) "BASE45 decoding")
                | inl (Primitive value, _) =>
                    if String.eqb value ""
                    then Scan.verificationResult (Scan.verification scan)
                    else Some (Scan.Failure None "unknown")
                end
           /\ (Scan.content scan', Scan.type scan', Scan.scannedAt scan',
               Scan.deviceInfo scan', Scan.isDuplicate scan',
               Scan.duplicateCount scan', Scan.firstScannedAt scan',
               Scan.referenceComparison scan')
              = (Scan.content scan, Scan.type scan, Scan.scannedAt scan,
                 Scan.deviceInfo scan, Scan.isDuplicate scan,
                 Scan.duplicateCount scan, Scan.firstScannedAt scan,
                 Scan.referenceComparison scan)
     end.
Proof.
  intros Hdata. cbv zeta. unfold postVerify.
  pose proof (pipeline_failure_label w data db) as Hlabel.
  destruct (processVerificationData w data db) as [outcome db'].
  cbn [fst snd] in *.
  split; [reflexivity|]. split.
  - destruct outcome as [[x step]|steps]; [|reflexivity].
    rewrite (Hlabel x step eq_refl). destruct x; reflexivity.
  - unfold updateScanVerification.
    destruct (Scan.findLatest data scans) as [[i scan]|] eqn:Hfind; [|reflexivity].
    apply findLatest_Some in Hfind as [_ Hcontent].
    cbn [Scan.content]. rewrite Hcontent.
    apply String.eqb_neq in Hdata. rewrite Hdata.
    eexists. split; [reflexivity|].
    cbn [Scan.verification Scan.verificationCount Scan.isVerified Scan.verifiedAt
         Scan.verificationResult Scan.content Scan.type Scan.scannedAt
         Scan.deviceInfo Scan.isDuplicate Scan.duplicateCount Scan.firstScannedAt
         Scan.referenceComparison].
    repeat split; try reflexivity.
    destruct outcome as [[x step]|steps]; [|reflexivity].
    rewrite (Hlabel x step eq_refl).
    destruct x as [error|value]; cbn [exception_truthy exception_message];
      [reflexivity|].
    destruct (String.eqb value ""); reflexivity.
Qed.

(** A scanned text that is BASE45 and does not inflate. *)
Lemma verification_is_recorded_witness :
  example_not_deflated <> ""
  /\ (postVerify registry_finds 50 example_not_deflated
        (serve [(10, PostScan example_not_deflated None None)]
           {| references := []; scans := [] |}).2.(scans) ∅).1.1
     = VerificationFailed None "unknown".
Proof.
  split; [discriminate|].
  pose proof (verification_is_recorded registry_finds 50 example_not_deflated
                (serve [(10, PostScan example_not_deflated None None)]
                   {| references := []; scans := [] |}).2.(scans) ∅
                ltac:(discriminate)) as Hw.
  cbv zeta in Hw. destruct Hw as (_ & Hanswer & _). exact Hanswer.
Defined.
